(** * Session coordinator of the Gemini Live client

    A shallow embedding of [mode-3-backend/gemini_live.py]: the bounded
    ingestion queues and their drop policies, the turn lifecycle driven by
    the mute toggle and the push-to-talk key, the egress tick of
    [send_to_api], the adaptive screen rate of [capture_screen], the stall
    watchdog and the reconnect loop of [run].

    Conventions.
    - Python [int] is [Z]; [//] on a positive divisor is [Z.div].
    - Python [float] readings of [time.time()] and the latencies derived
      from them are exact rationals ([Q]).  The two float constants the
      code computes, [SCREEN_MAX_AGE_MS * 0.8] and [SCREEN_MAX_AGE_MS * 0.3],
      evaluate to exactly [400.0] and [150.0] in IEEE double arithmetic, so
      the rational thresholds below are the ones the interpreter compares
      against.
    - [bytes] is [list byte]; [str] is [string].
    - Every coroutine loop is modelled by its body: one function per
      iteration, taking the clock readings and the device input of that
      iteration as arguments.  An iteration runs without interleaving of the
      other coroutines, and a send to the transport completes; the clock
      advances during it: where the body reads [time.time()] several times,
      as the egress tick does at every access of [age_ms], each reading is
      an argument of its own. *)

From Stdlib Require Import ZArith QArith List String Ascii Bool Lia.
From Stdlib Require Import Strings.Byte.
Import ListNotations.

Local Open Scope Z_scope.

(** ** Rational comparisons as the code writes them *)

Definition Qgt_bool (a b : Q) : bool := negb (Qle_bool a b).
Definition Qlt_bool (a b : Q) : bool := negb (Qle_bool b a).

(** ** Configuration constants *)

Definition SEND_SAMPLE_RATE : Z := 16000.
Definition CHUNK_SIZE : Z := 1024.
Definition SCREEN_FPS : Z := 2.
Definition SCREEN_FPS_MIN : Z := 1.
Definition SCREEN_SEND_ONLY_DURING_TURN : bool := true.
Definition SEND_SILENCE_AFTER_PTT_MS : Z := 500.
Definition AUDIO_QUEUE_MAX_SIZE : Z := 5.
Definition SCREEN_QUEUE_SIZE : Z := 1.
Definition AUDIO_MAX_BACKLOG_MS : Z := 200.
Definition SCREEN_MAX_AGE_MS : Z := 500.
Definition STALL_TIMEOUT_S : Z := 15.
Definition LATENCY_WINDOW_SIZE : nat := 50.

Definition bytes : Type := list byte.

(** ** [TimestampedData] *)

Record TimestampedData : Type := mkTimestampedData {
  data : bytes;
  timestamp : Q
}.

(** [age_ms] reads the clock; the reading is the argument [now]. *)
Definition age_ms (now : Q) (t : TimestampedData) : Q :=
  ((now - timestamp t) * inject_Z 1000)%Q.

(** ** [collections.deque(maxlen=...)] and [LatencyStats] *)

(** [deque.append] on a bounded deque: a full deque loses its leftmost
    element. *)
Definition deque_append (maxlen : nat) (d : list Q) (x : Q) : list Q :=
  if (maxlen <=? List.length d)%nat then List.tl d ++ [x] else d ++ [x].

Record LatencyStats : Type := mkLatencyStats {
  audio_capture_to_send : list Q;
  screen_capture_to_send : list Q;
  model_response_latency : list Q
}.

Definition LatencyStats_init : LatencyStats := mkLatencyStats [] [] [].

Definition add_audio_latency (ms : Q) (s : LatencyStats) : LatencyStats :=
  mkLatencyStats
    (deque_append LATENCY_WINDOW_SIZE (audio_capture_to_send s) ms)
    (screen_capture_to_send s) (model_response_latency s).

Definition add_screen_latency (ms : Q) (s : LatencyStats) : LatencyStats :=
  mkLatencyStats (audio_capture_to_send s)
    (deque_append LATENCY_WINDOW_SIZE (screen_capture_to_send s) ms)
    (model_response_latency s).

Definition add_response_latency (ms : Q) (s : LatencyStats) : LatencyStats :=
  mkLatencyStats (audio_capture_to_send s) (screen_capture_to_send s)
    (deque_append LATENCY_WINDOW_SIZE (model_response_latency s) ms).

Definition Qsum (l : list Q) : Q := fold_left Qplus l (inject_Z 0).

(** [sum(d) / len(d) if d else 0].  The mean is the exact one; the
    interpreter rounds every addition and the division to a double, so the
    value it computes can differ from this one in the last place. *)
Definition window_avg (d : list Q) : Q :=
  match d with
  | [] => inject_Z 0
  | _ :: _ => (Qsum d / inject_Z (Z.of_nat (List.length d)))%Q
  end.

Definition avg_audio_ms (s : LatencyStats) : Q := window_avg (audio_capture_to_send s).
Definition avg_screen_ms (s : LatencyStats) : Q := window_avg (screen_capture_to_send s).
Definition avg_response_ms (s : LatencyStats) : Q := window_avg (model_response_latency s).

(** ** [asyncio.Queue] *)

Module Queue.

Record t (A : Type) : Type := mk { maxsize : Z; items : list A }.
Arguments mk {A} _ _.
Arguments maxsize {A} _.
Arguments items {A} _.

Section Ops.
Context {A : Type}.

Definition new (m : Z) : t A := mk m [].
Definition qsize (q : t A) : Z := Z.of_nat (List.length (items q)).
Definition empty (q : t A) : bool :=
  match items q with [] => true | _ :: _ => false end.
(** [full] is never true of an unbounded queue ([maxsize <= 0]). *)
Definition full (q : t A) : bool :=
  if maxsize q <=? 0 then false else maxsize q <=? qsize q.
(** [None] stands for [asyncio.QueueEmpty]. *)
Definition get_nowait (q : t A) : option (A * t A) :=
  match items q with
  | [] => None
  | x :: rest => Some (x, mk (maxsize q) rest)
  end.
(** [None] stands for [asyncio.QueueFull]. *)
Definition put_nowait (x : A) (q : t A) : option (t A) :=
  if full q then None else Some (mk (maxsize q) (items q ++ [x])).
End Ops.

End Queue.

(** ** The transport

    [session.send_realtime_input] is an external collaborator; the model
    records what is handed to it, in order. *)

Inductive realtime_input : Type :=
| audio (payload : bytes)     (* audio={"data": ..., "mime_type": "audio/pcm"} *)
| media (payload : bytes).    (* media={"data": ..., "mime_type": "image/jpeg"} *)

(** ** [GeminiLiveClient]

    The fields of [self] that the coordinator reads and writes.  The two
    [threading.Event] flags and the [asyncio.Event] are booleans.
    [loop_is_running] is the value of [self._loop and self._loop.is_running()];
    [session_sent] is the trace of the transport. *)

Record GeminiLiveClient : Type := mkClient {
  push_to_talk_mode : bool;
  audio_queue_out : list bytes;
  audio_queue_in : Queue.t TimestampedData;
  video_queue_in : Queue.t TimestampedData;
  running : bool;
  _muted : bool;
  _ptt_active : bool;
  _current_turn_id : option string;
  _turn_end_requested : bool;
  _last_turn_end_time : Q;
  _audio_chunks_sent_this_turn : Z;
  _silence_chunks_to_send : Z;
  latency_stats : LatencyStats;
  _last_response_time : Q;
  _current_screen_fps : Z;
  _audio_drop_count : Z;
  _screen_drop_count : Z;
  loop_is_running : bool;
  session_sent : list realtime_input
}.

(** Field assignments [self.x = v]. *)

Definition set_push_to_talk_mode (v : bool) (c : GeminiLiveClient) : GeminiLiveClient :=
  mkClient v (audio_queue_out c) (audio_queue_in c) (video_queue_in c) (running c) (_muted c) (_ptt_active c) (_current_turn_id c) (_turn_end_requested c) (_last_turn_end_time c) (_audio_chunks_sent_this_turn c) (_silence_chunks_to_send c) (latency_stats c) (_last_response_time c) (_current_screen_fps c) (_audio_drop_count c) (_screen_drop_count c) (loop_is_running c) (session_sent c).
Definition set_audio_queue_out (v : list bytes) (c : GeminiLiveClient) : GeminiLiveClient :=
  mkClient (push_to_talk_mode c) v (audio_queue_in c) (video_queue_in c) (running c) (_muted c) (_ptt_active c) (_current_turn_id c) (_turn_end_requested c) (_last_turn_end_time c) (_audio_chunks_sent_this_turn c) (_silence_chunks_to_send c) (latency_stats c) (_last_response_time c) (_current_screen_fps c) (_audio_drop_count c) (_screen_drop_count c) (loop_is_running c) (session_sent c).
Definition set_audio_queue_in (v : Queue.t TimestampedData) (c : GeminiLiveClient) : GeminiLiveClient :=
  mkClient (push_to_talk_mode c) (audio_queue_out c) v (video_queue_in c) (running c) (_muted c) (_ptt_active c) (_current_turn_id c) (_turn_end_requested c) (_last_turn_end_time c) (_audio_chunks_sent_this_turn c) (_silence_chunks_to_send c) (latency_stats c) (_last_response_time c) (_current_screen_fps c) (_audio_drop_count c) (_screen_drop_count c) (loop_is_running c) (session_sent c).
Definition set_video_queue_in (v : Queue.t TimestampedData) (c : GeminiLiveClient) : GeminiLiveClient :=
  mkClient (push_to_talk_mode c) (audio_queue_out c) (audio_queue_in c) v (running c) (_muted c) (_ptt_active c) (_current_turn_id c) (_turn_end_requested c) (_last_turn_end_time c) (_audio_chunks_sent_this_turn c) (_silence_chunks_to_send c) (latency_stats c) (_last_response_time c) (_current_screen_fps c) (_audio_drop_count c) (_screen_drop_count c) (loop_is_running c) (session_sent c).
Definition set_running (v : bool) (c : GeminiLiveClient) : GeminiLiveClient :=
  mkClient (push_to_talk_mode c) (audio_queue_out c) (audio_queue_in c) (video_queue_in c) v (_muted c) (_ptt_active c) (_current_turn_id c) (_turn_end_requested c) (_last_turn_end_time c) (_audio_chunks_sent_this_turn c) (_silence_chunks_to_send c) (latency_stats c) (_last_response_time c) (_current_screen_fps c) (_audio_drop_count c) (_screen_drop_count c) (loop_is_running c) (session_sent c).
Definition set_muted (v : bool) (c : GeminiLiveClient) : GeminiLiveClient :=
  mkClient (push_to_talk_mode c) (audio_queue_out c) (audio_queue_in c) (video_queue_in c) (running c) v (_ptt_active c) (_current_turn_id c) (_turn_end_requested c) (_last_turn_end_time c) (_audio_chunks_sent_this_turn c) (_silence_chunks_to_send c) (latency_stats c) (_last_response_time c) (_current_screen_fps c) (_audio_drop_count c) (_screen_drop_count c) (loop_is_running c) (session_sent c).
Definition set_ptt_active (v : bool) (c : GeminiLiveClient) : GeminiLiveClient :=
  mkClient (push_to_talk_mode c) (audio_queue_out c) (audio_queue_in c) (video_queue_in c) (running c) (_muted c) v (_current_turn_id c) (_turn_end_requested c) (_last_turn_end_time c) (_audio_chunks_sent_this_turn c) (_silence_chunks_to_send c) (latency_stats c) (_last_response_time c) (_current_screen_fps c) (_audio_drop_count c) (_screen_drop_count c) (loop_is_running c) (session_sent c).
Definition set_current_turn_id (v : option string) (c : GeminiLiveClient) : GeminiLiveClient :=
  mkClient (push_to_talk_mode c) (audio_queue_out c) (audio_queue_in c) (video_queue_in c) (running c) (_muted c) (_ptt_active c) v (_turn_end_requested c) (_last_turn_end_time c) (_audio_chunks_sent_this_turn c) (_silence_chunks_to_send c) (latency_stats c) (_last_response_time c) (_current_screen_fps c) (_audio_drop_count c) (_screen_drop_count c) (loop_is_running c) (session_sent c).
Definition set_turn_end_requested (v : bool) (c : GeminiLiveClient) : GeminiLiveClient :=
  mkClient (push_to_talk_mode c) (audio_queue_out c) (audio_queue_in c) (video_queue_in c) (running c) (_muted c) (_ptt_active c) (_current_turn_id c) v (_last_turn_end_time c) (_audio_chunks_sent_this_turn c) (_silence_chunks_to_send c) (latency_stats c) (_last_response_time c) (_current_screen_fps c) (_audio_drop_count c) (_screen_drop_count c) (loop_is_running c) (session_sent c).
Definition set_last_turn_end_time (v : Q) (c : GeminiLiveClient) : GeminiLiveClient :=
  mkClient (push_to_talk_mode c) (audio_queue_out c) (audio_queue_in c) (video_queue_in c) (running c) (_muted c) (_ptt_active c) (_current_turn_id c) (_turn_end_requested c) v (_audio_chunks_sent_this_turn c) (_silence_chunks_to_send c) (latency_stats c) (_last_response_time c) (_current_screen_fps c) (_audio_drop_count c) (_screen_drop_count c) (loop_is_running c) (session_sent c).
Definition set_audio_chunks_sent_this_turn (v : Z) (c : GeminiLiveClient) : GeminiLiveClient :=
  mkClient (push_to_talk_mode c) (audio_queue_out c) (audio_queue_in c) (video_queue_in c) (running c) (_muted c) (_ptt_active c) (_current_turn_id c) (_turn_end_requested c) (_last_turn_end_time c) v (_silence_chunks_to_send c) (latency_stats c) (_last_response_time c) (_current_screen_fps c) (_audio_drop_count c) (_screen_drop_count c) (loop_is_running c) (session_sent c).
Definition set_silence_chunks_to_send (v : Z) (c : GeminiLiveClient) : GeminiLiveClient :=
  mkClient (push_to_talk_mode c) (audio_queue_out c) (audio_queue_in c) (video_queue_in c) (running c) (_muted c) (_ptt_active c) (_current_turn_id c) (_turn_end_requested c) (_last_turn_end_time c) (_audio_chunks_sent_this_turn c) v (latency_stats c) (_last_response_time c) (_current_screen_fps c) (_audio_drop_count c) (_screen_drop_count c) (loop_is_running c) (session_sent c).
Definition set_latency_stats (v : LatencyStats) (c : GeminiLiveClient) : GeminiLiveClient :=
  mkClient (push_to_talk_mode c) (audio_queue_out c) (audio_queue_in c) (video_queue_in c) (running c) (_muted c) (_ptt_active c) (_current_turn_id c) (_turn_end_requested c) (_last_turn_end_time c) (_audio_chunks_sent_this_turn c) (_silence_chunks_to_send c) v (_last_response_time c) (_current_screen_fps c) (_audio_drop_count c) (_screen_drop_count c) (loop_is_running c) (session_sent c).
Definition set_last_response_time (v : Q) (c : GeminiLiveClient) : GeminiLiveClient :=
  mkClient (push_to_talk_mode c) (audio_queue_out c) (audio_queue_in c) (video_queue_in c) (running c) (_muted c) (_ptt_active c) (_current_turn_id c) (_turn_end_requested c) (_last_turn_end_time c) (_audio_chunks_sent_this_turn c) (_silence_chunks_to_send c) (latency_stats c) v (_current_screen_fps c) (_audio_drop_count c) (_screen_drop_count c) (loop_is_running c) (session_sent c).
Definition set_current_screen_fps (v : Z) (c : GeminiLiveClient) : GeminiLiveClient :=
  mkClient (push_to_talk_mode c) (audio_queue_out c) (audio_queue_in c) (video_queue_in c) (running c) (_muted c) (_ptt_active c) (_current_turn_id c) (_turn_end_requested c) (_last_turn_end_time c) (_audio_chunks_sent_this_turn c) (_silence_chunks_to_send c) (latency_stats c) (_last_response_time c) v (_audio_drop_count c) (_screen_drop_count c) (loop_is_running c) (session_sent c).
Definition set_audio_drop_count (v : Z) (c : GeminiLiveClient) : GeminiLiveClient :=
  mkClient (push_to_talk_mode c) (audio_queue_out c) (audio_queue_in c) (video_queue_in c) (running c) (_muted c) (_ptt_active c) (_current_turn_id c) (_turn_end_requested c) (_last_turn_end_time c) (_audio_chunks_sent_this_turn c) (_silence_chunks_to_send c) (latency_stats c) (_last_response_time c) (_current_screen_fps c) v (_screen_drop_count c) (loop_is_running c) (session_sent c).
Definition set_screen_drop_count (v : Z) (c : GeminiLiveClient) : GeminiLiveClient :=
  mkClient (push_to_talk_mode c) (audio_queue_out c) (audio_queue_in c) (video_queue_in c) (running c) (_muted c) (_ptt_active c) (_current_turn_id c) (_turn_end_requested c) (_last_turn_end_time c) (_audio_chunks_sent_this_turn c) (_silence_chunks_to_send c) (latency_stats c) (_last_response_time c) (_current_screen_fps c) (_audio_drop_count c) v (loop_is_running c) (session_sent c).
Definition set_loop_is_running (v : bool) (c : GeminiLiveClient) : GeminiLiveClient :=
  mkClient (push_to_talk_mode c) (audio_queue_out c) (audio_queue_in c) (video_queue_in c) (running c) (_muted c) (_ptt_active c) (_current_turn_id c) (_turn_end_requested c) (_last_turn_end_time c) (_audio_chunks_sent_this_turn c) (_silence_chunks_to_send c) (latency_stats c) (_last_response_time c) (_current_screen_fps c) (_audio_drop_count c) (_screen_drop_count c) v (session_sent c).
Definition set_session_sent (v : list realtime_input) (c : GeminiLiveClient) : GeminiLiveClient :=
  mkClient (push_to_talk_mode c) (audio_queue_out c) (audio_queue_in c) (video_queue_in c) (running c) (_muted c) (_ptt_active c) (_current_turn_id c) (_turn_end_requested c) (_last_turn_end_time c) (_audio_chunks_sent_this_turn c) (_silence_chunks_to_send c) (latency_stats c) (_last_response_time c) (_current_screen_fps c) (_audio_drop_count c) (_screen_drop_count c) (loop_is_running c) v.

(** [__init__]: the client starts muted, with no turn, empty queues and the
    configured screen rate.  [now] is the clock reading taken for
    [_last_response_time]; [_loop] is still [None]. *)
Definition GeminiLiveClient_init (push_to_talk : bool) (now : Q) : GeminiLiveClient :=
  {| push_to_talk_mode := push_to_talk;
     audio_queue_out := [];
     audio_queue_in := Queue.new AUDIO_QUEUE_MAX_SIZE;
     video_queue_in := Queue.new SCREEN_QUEUE_SIZE;
     running := true;
     _muted := true;
     _ptt_active := false;
     _current_turn_id := None;
     _turn_end_requested := false;
     _last_turn_end_time := inject_Z 0;
     _audio_chunks_sent_this_turn := 0;
     _silence_chunks_to_send := 0;
     latency_stats := LatencyStats_init;
     _last_response_time := now;
     _current_screen_fps := SCREEN_FPS;
     _audio_drop_count := 0;
     _screen_drop_count := 0;
     loop_is_running := false;
     session_sent := [] |}.

(** The [muted] property. *)
Definition muted (c : GeminiLiveClient) : bool :=
  if push_to_talk_mode c then negb (_ptt_active c) else _muted c.

(** ** Turn lifecycle *)

(** The loop shared by [_clear_audio_queue] and [_clear_video_queue]:
    [while not q.empty(): q.get_nowait(); dropped += 1].  The fuel is the
    number of iterations still allowed; [Queue.qsize] of them empty the
    queue (lemma [clear_loop_empties]). *)
Fixpoint clear_loop (fuel : nat) (q : Queue.t TimestampedData) (dropped : Z)
  : Queue.t TimestampedData * Z :=
  match fuel with
  | O => (q, dropped)
  | S fuel' =>
      if Queue.empty q then (q, dropped)
      else match Queue.get_nowait q with
           | Some (_, q') => clear_loop fuel' q' (dropped + 1)
           | None => (q, dropped)
           end
  end.

Definition clear_queue (q : Queue.t TimestampedData) : Queue.t TimestampedData :=
  fst (clear_loop (List.length (Queue.items q)) q 0).

Definition _clear_audio_queue (c : GeminiLiveClient) : GeminiLiveClient :=
  set_audio_queue_in (clear_queue (audio_queue_in c)) c.

Definition _clear_video_queue (c : GeminiLiveClient) : GeminiLiveClient :=
  set_video_queue_in (clear_queue (video_queue_in c)) c.

(** [str(uuid.uuid4())[:8]]: the argument is the string of the UUID drawn. *)
Definition new_turn_id (uuid4 : string) : string := substring 0 8 uuid4.

(** Truth value of an [Optional[str]]: neither [None] nor the empty string. *)
Definition turn_id_truthy (t : option string) : bool :=
  match t with
  | None => false
  | Some EmptyString => false
  | Some (String _ _) => true
  end.

(** [max(1, SEND_SILENCE_AFTER_PTT_MS // 64)] *)
Definition silence_chunks : Z := Z.max 1 (SEND_SILENCE_AFTER_PTT_MS / 64).

Definition _request_turn_end (now : Q) (c : GeminiLiveClient) : GeminiLiveClient :=
  if loop_is_running c
  then set_last_turn_end_time now (set_turn_end_requested true c)
  else c.

Definition toggle_mute (uuid4 : string) (now : Q) (c : GeminiLiveClient)
  : GeminiLiveClient :=
  let was_muted := _muted c in
  if was_muted then
    let c := _clear_audio_queue c in
    let c := _clear_video_queue c in
    let c := set_muted false c in
    let c := set_current_turn_id (Some (new_turn_id uuid4)) c in
    set_audio_chunks_sent_this_turn 0 c
  else
    let c := set_muted true c in
    let chunks_sent := _audio_chunks_sent_this_turn c in
    if turn_id_truthy (_current_turn_id c) && (0 <? chunks_sent) then
      let c := set_silence_chunks_to_send silence_chunks c in
      _request_turn_end now c
    else c.

Definition _on_ptt_press (uuid4 : string) (c : GeminiLiveClient) : GeminiLiveClient :=
  if _ptt_active c then c
  else
    let c := _clear_audio_queue c in
    let c := _clear_video_queue c in
    let c := set_ptt_active true c in
    let c := set_current_turn_id (Some (new_turn_id uuid4)) c in
    set_audio_chunks_sent_this_turn 0 c.

Definition _on_ptt_release (now : Q) (c : GeminiLiveClient) : GeminiLiveClient :=
  if negb (_ptt_active c) then c
  else
    let c := set_ptt_active false c in
    if turn_id_truthy (_current_turn_id c) then
      let chunks_sent := _audio_chunks_sent_this_turn c in
      if 0 <? chunks_sent then
        let c := set_silence_chunks_to_send silence_chunks c in
        _request_turn_end now c
      else c
    else c.

(** [_on_hotkey_press] and [_on_hotkey_release] for the F9 key. *)
Definition _on_hotkey_press_f9 (uuid4 : string) (now : Q) (c : GeminiLiveClient)
  : GeminiLiveClient :=
  if push_to_talk_mode c then _on_ptt_press uuid4 c else toggle_mute uuid4 now c.

Definition _on_hotkey_release_f9 (now : Q) (c : GeminiLiveClient) : GeminiLiveClient :=
  if push_to_talk_mode c then _on_ptt_release now c else c.

(** ** Ingestion: one iteration of the loops of [listen_audio] and
       [capture_screen] *)

(** [listen_audio], inner loop body: [mic] is what [stream.read] returned
    and [now] the clock reading stamped on it. *)
Definition listen_audio_iter (mic : bytes) (now : Q) (c : GeminiLiveClient)
  : GeminiLiveClient :=
  if negb (Nat.eqb (List.length mic) 0) && negb (muted c) then
    let timestamped := mkTimestampedData mic now in
    let c :=
      if Queue.full (audio_queue_in c) then
        match Queue.get_nowait (audio_queue_in c) with
        | Some (_, q') =>
            set_audio_drop_count (_audio_drop_count c + 1) (set_audio_queue_in q' c)
        | None => c
        end
      else c in
    match Queue.put_nowait timestamped (audio_queue_in c) with
    | Some q' => set_audio_queue_in q' c
    | None => set_audio_drop_count (_audio_drop_count c + 1) c
    end
  else c.

(** The rate controller at the end of the body of [capture_screen]; it runs
    when the frame counter is a multiple of 30. *)
Definition adapt_screen_fps (c : GeminiLiveClient) : GeminiLiveClient :=
  let avg_latency := avg_screen_ms (latency_stats c) in
  if Qgt_bool avg_latency (inject_Z SCREEN_MAX_AGE_MS * (8 # 10)) then
    set_current_screen_fps (Z.max SCREEN_FPS_MIN (_current_screen_fps c - 1)) c
  else if Qlt_bool avg_latency (inject_Z SCREEN_MAX_AGE_MS * (3 # 10))
          && (_current_screen_fps c <? SCREEN_FPS) then
    set_current_screen_fps (Z.min SCREEN_FPS (_current_screen_fps c + 1)) c
  else c.

(** [capture_screen], loop body: [img_bytes] is the encoded frame, [now] its
    stamp, [frame_count] the local counter of the coroutine. *)
Definition capture_screen_iter (img_bytes : bytes) (now : Q)
    (frame_count : Z) (c : GeminiLiveClient) : Z * GeminiLiveClient :=
  let timestamped := mkTimestampedData img_bytes now in
  let c :=
    if Queue.full (video_queue_in c) then
      match Queue.get_nowait (video_queue_in c) with
      | Some (_, q') =>
          set_screen_drop_count (_screen_drop_count c + 1) (set_video_queue_in q' c)
      | None => c
      end
    else c in
  let c :=
    match Queue.put_nowait timestamped (video_queue_in c) with
    | Some q' => set_video_queue_in q' c
    | None => set_screen_drop_count (_screen_drop_count c + 1) c
    end in
  let frame_count := frame_count + 1 in
  let c := if frame_count mod 30 =? 0 then adapt_screen_fps c else c in
  (frame_count, c).

(** ** Egress: one iteration of the loop of [send_to_api] *)

(** [bytes(CHUNK_SIZE * 2)] *)
Definition silence_data : bytes := List.repeat x00 (Z.to_nat (CHUNK_SIZE * 2)).

Definition send_realtime_input (m : realtime_input) (c : GeminiLiveClient)
  : GeminiLiveClient :=
  set_session_sent (session_sent c ++ [m]) c.

(** [while not self.audio_queue_in.empty(): ...].  Every access of [age_ms]
    reads the clock: [clock k] is the [k]-th reading of [time.time()] made
    during the tick.  The loop makes two readings per chunk: the first for
    the budget test, the second for the age in the warning when the chunk
    is dropped and, when it is forwarded, for the latency recorded after
    the awaited send.  The fuel bounds the number of iterations, and the
    tick runs the loop with the queue length; the result carries the number
    of readings made so far. *)
Fixpoint drain_audio (fuel : nat) (clock : nat -> Q) (k : nat) (c : GeminiLiveClient)
  : nat * GeminiLiveClient :=
  match fuel with
  | O => (k, c)
  | S fuel' =>
      if Queue.empty (audio_queue_in c) then (k, c)
      else match Queue.get_nowait (audio_queue_in c) with
           | None => (k, c)
           | Some (timestamped, q') =>
               let c := set_audio_queue_in q' c in
               if Qgt_bool (age_ms (clock k) timestamped)
                    (inject_Z AUDIO_MAX_BACKLOG_MS) then
                 drain_audio fuel' clock (k + 2)
                   (set_audio_drop_count (_audio_drop_count c + 1) c)
               else
                 let c := send_realtime_input (audio (data timestamped)) c in
                 let c := set_latency_stats
                            (add_audio_latency (age_ms (clock (k + 1)%nat) timestamped)
                               (latency_stats c)) c in
                 drain_audio fuel' clock (k + 2)
                   (set_audio_chunks_sent_this_turn (_audio_chunks_sent_this_turn c + 1) c)
           end
  end.

Definition send_silence (c : GeminiLiveClient) : GeminiLiveClient :=
  if 0 <? _silence_chunks_to_send c then
    let c := send_realtime_input (audio silence_data) c in
    set_silence_chunks_to_send (_silence_chunks_to_send c - 1) c
  else c.

(** The video part of the tick; [frame_age] is read once, at [now], and used
    for the test and for the latency recorded. *)
Definition drain_video (now : Q) (c : GeminiLiveClient) : GeminiLiveClient :=
  let should_send_screen :=
    if SCREEN_SEND_ONLY_DURING_TURN then negb (muted c) else true in
  if negb (Queue.empty (video_queue_in c)) then
    match Queue.get_nowait (video_queue_in c) with
    | None => c
    | Some (timestamped, q') =>
        let c := set_video_queue_in q' c in
        let frame_age := age_ms now timestamped in
        if negb should_send_screen then c
        else if Qgt_bool frame_age (inject_Z SCREEN_MAX_AGE_MS) then
          set_screen_drop_count (_screen_drop_count c + 1) c
        else
          let c := send_realtime_input (media (data timestamped)) c in
          set_latency_stats (add_screen_latency frame_age (latency_stats c)) c
    end
  else c.

Definition send_to_api_tick (clock : nat -> Q) (stats_log_counter : Z)
    (c : GeminiLiveClient) : Z * GeminiLiveClient :=
  let c := if _turn_end_requested c then set_turn_end_requested false c else c in
  let c := send_silence c in
  let '(k, c) :=
    drain_audio (List.length (Queue.items (audio_queue_in c))) clock 0 c in
  let c := drain_video (clock k) c in
  let stats_log_counter := stats_log_counter + 1 in
  let stats_log_counter := if 500 <=? stats_log_counter then 0 else stats_log_counter in
  (stats_log_counter, c).

(** ** Ingress: one response of [receive_from_api] *)

Record Part : Type := mkPart { inline_data : option bytes; text : option string }.
Record ServerContent : Type := mkServerContent {
  model_turn : option (list Part);
  turn_complete : bool
}.
Record Response : Type := mkResponse { server_content : option ServerContent }.

Definition route_part (c : GeminiLiveClient) (p : Part) : GeminiLiveClient :=
  match inline_data p with
  | Some d => set_audio_queue_out (audio_queue_out c ++ [d]) c
  | None => c
  end.

Definition receive_from_api_iter (response : Response) (now : Q) (c : GeminiLiveClient)
  : GeminiLiveClient :=
  let c := set_last_response_time now c in
  match server_content response with
  | None => c
  | Some sc =>
      let c :=
        match model_turn sc with
        | None => c
        | Some parts =>
            let c :=
              if Qgt_bool (_last_turn_end_time c) (inject_Z 0) then
                let response_latency :=
                  ((now - _last_turn_end_time c) * inject_Z 1000)%Q in
                set_last_turn_end_time (inject_Z 0)
                  (set_latency_stats
                     (add_response_latency response_latency (latency_stats c)) c)
              else c in
            fold_left route_part parts c
        end in
      if turn_complete sc then set_last_turn_end_time (inject_Z 0) c else c
  end.

(** ** Stall watchdog: one check of [stall_detector] *)

(** What one check does besides sleeping: the waits it warned about, and the
    wait carried by the exception it raised, if any.  The check assigns no
    field of the client. *)
Record stall_check : Type := mkStallCheck {
  stall_warnings : list Q;
  stall_raised : option Q
}.

Definition stall_detector_check (now : Q) (c : GeminiLiveClient) : stall_check :=
  if Qgt_bool (_last_turn_end_time c) (inject_Z 0)
     && (match _current_turn_id c with Some _ => true | None => false end) then
    let wait_time := (now - _last_turn_end_time c)%Q in
    mkStallCheck
      (if Qgt_bool wait_time (inject_Z STALL_TIMEOUT_S) then [wait_time] else [])
      (if Qgt_bool wait_time (inject_Z (STALL_TIMEOUT_S * 2)) then Some wait_time else None)
  else mkStallCheck [] None.

(** ** Session supervisor: [run] *)

(** The assignments [run] makes once a connection is established. *)
Definition run_reset_state (now : Q) (c : GeminiLiveClient) : GeminiLiveClient :=
  let c := set_last_turn_end_time (inject_Z 0) c in
  let c := set_last_response_time now c in
  let c := set_current_turn_id None c in
  let c := set_ptt_active false c in
  let c := set_muted true c in
  let c := set_turn_end_requested false c in
  let c := set_silence_chunks_to_send 0 c in
  let c := set_audio_chunks_sent_this_turn 0 c in
  let c := _clear_audio_queue c in
  _clear_video_queue c.

(** [request_shutdown]: [running] is cleared (and the shutdown event set,
    which nothing reads).  When [self._loop] is set and running,
    [_cancel_tasks] is scheduled on it; the second component tells whether
    it is.  [_cancel_tasks] cancels every task of that loop that is not
    done, [asyncio.all_tasks(self._loop)], whoever created it. *)
Definition request_shutdown (c : GeminiLiveClient) : GeminiLiveClient * bool :=
  (set_running false c, loop_is_running c).

(** How one pass through the body of the [while] loop of [run] ends.
    - [ConnectFailed]: [client.aio.live.connect] raised; the outer
      [except Exception] runs.
    - [SessionFailed]: the connection was made and [asyncio.gather] raised an
      exception (a stall, a send failure); it is logged, the tasks are
      cancelled, and the loop goes on.
    - [SessionCancelled]: [asyncio.gather] raised [CancelledError]; [break].
    - [NotRunning]: [self.running] is false when the loop condition is
      evaluated.
    [CancelledError] is not an [Exception], and only the [try] around
    [asyncio.gather] catches it.  A cancellation delivered at another
    [await] of [run] leaves [run] with the exception, past the cleanup that
    follows the loop:
    - [ConnectCancelled]: while [client.aio.live.connect] is awaited;
    - [BackoffCancelled]: the connection failed, and the cancellation comes
      during [asyncio.sleep(wait_time)] (when the attempts are used up there
      is no sleep, and the pass ends as [ConnectFailed] does);
    - [TeardownCancelled]: in the [finally] of a session, while the
      cancelled tasks are awaited or the connection is closed. *)
Inductive attempt : Type :=
| ConnectFailed
| SessionFailed
| SessionCancelled
| NotRunning
| ConnectCancelled
| BackoffCancelled
| TeardownCancelled.

Inductive supervisor_action : Type :=
| Connecting (attempt_number : Z)   (* "Connecting ... (Attempt n)" *)
| ResetState                        (* connected: state reset, tasks started *)
| CancelTasks                       (* finally: every task cancelled *)
| Sleep (wait_time : Z)             (* await asyncio.sleep(wait_time) *)
| GiveUp                            (* "Max reconnect attempts reached" *)
| Cleanup                           (* the loop is left; the code after it runs *)
| Propagate.                        (* CancelledError leaves run; no cleanup *)

Definition max_reconnects : Z := 5.

(** The [while self.running and reconnect_count < max_reconnects] loop, run
    on the outcomes of successive passes.  The result is the trace of
    actions and, when the outcomes are used up with the loop still alive,
    the value of [reconnect_count] ([None] once the loop has been left, or
    [run] itself by an exception). *)
Fixpoint run_loop (reconnect_count : Z) (outcomes : list attempt)
  : list supervisor_action * option Z :=
  match outcomes with
  | [] =>
      if reconnect_count <? max_reconnects then ([], Some reconnect_count)
      else ([Cleanup], None)
  | o :: rest =>
      if negb (reconnect_count <? max_reconnects) then ([Cleanup], None)
      else
        match o with
        | NotRunning => ([Cleanup], None)
        | ConnectFailed =>
            let reconnect_count := reconnect_count + 1 in
            if reconnect_count <? max_reconnects then
              let wait_time := Z.min 30 (2 ^ reconnect_count) in
              let '(tr, r) := run_loop reconnect_count rest in
              (Connecting reconnect_count :: Sleep wait_time :: tr, r)
            else
              ([Connecting reconnect_count; GiveUp; Cleanup], None)
        | SessionFailed =>
            let '(tr, r) := run_loop 0 rest in
            (Connecting (reconnect_count + 1) :: ResetState :: CancelTasks :: tr, r)
        | SessionCancelled =>
            ([Connecting (reconnect_count + 1); ResetState; CancelTasks; Cleanup], None)
        | ConnectCancelled =>
            ([Connecting (reconnect_count + 1); Propagate], None)
        | BackoffCancelled =>
            let reconnect_count := reconnect_count + 1 in
            if reconnect_count <? max_reconnects then
              let wait_time := Z.min 30 (2 ^ reconnect_count) in
              ([Connecting reconnect_count; Sleep wait_time; Propagate], None)
            else
              ([Connecting reconnect_count; GiveUp; Cleanup], None)
        | TeardownCancelled =>
            ([Connecting (reconnect_count + 1); ResetState; CancelTasks; Propagate],
             None)
        end
  end.

(** [run] starts with [reconnect_count = 0]. *)
Definition run (outcomes : list attempt) : list supervisor_action * option Z :=
  run_loop 0 outcomes.

(** The passes that a cancellation ends outside the [try] around
    [asyncio.gather]. *)
Definition cancelled_outside_gather (o : attempt) : Prop :=
  o = ConnectCancelled \/ o = BackoffCancelled \/ o = TeardownCancelled.

(** The waits of a trace, in order. *)
Definition sleeps (tr : list supervisor_action) : list Z :=
  flat_map (fun a => match a with Sleep w => [w] | _ => [] end) tr.

(** ** The coordinator as a transition system

    The coroutines share the client and run on one scheduler; an execution
    is a sequence of loop iterations and hotkey callbacks.  [frame_count]
    and [stats_log_counter] are the local counters of [capture_screen] and
    [send_to_api], which start afresh with every connection. *)

Record world : Type := mkWorld {
  client : GeminiLiveClient;
  frame_count : Z;
  stats_log_counter : Z
}.

Inductive event : Type :=
| RunStarted                                  (* run: self._loop is set *)
| Connected (now : Q)                         (* run: connection established *)
| HotkeyPressF9 (uuid4 : string) (now : Q)
| HotkeyReleaseF9 (now : Q)
| MicRead (mic : bytes) (now : Q)             (* listen_audio *)
| ScreenGrab (img_bytes : bytes) (now : Q)    (* capture_screen *)
| SendTick (clock : nat -> Q)                 (* send_to_api *)
| Received (response : Response) (now : Q)    (* receive_from_api *)
| StallCheck (now : Q).                       (* stall_detector *)

Definition step (w : world) (e : event) : world :=
  match e with
  | RunStarted =>
      mkWorld (set_loop_is_running true (client w)) (frame_count w) (stats_log_counter w)
  | Connected now => mkWorld (run_reset_state now (client w)) 0 0
  | HotkeyPressF9 uuid4 now =>
      mkWorld (_on_hotkey_press_f9 uuid4 now (client w)) (frame_count w) (stats_log_counter w)
  | HotkeyReleaseF9 now =>
      mkWorld (_on_hotkey_release_f9 now (client w)) (frame_count w) (stats_log_counter w)
  | MicRead mic now =>
      mkWorld (listen_audio_iter mic now (client w)) (frame_count w) (stats_log_counter w)
  | ScreenGrab img_bytes now =>
      let '(n, c) := capture_screen_iter img_bytes now (frame_count w) (client w) in
      mkWorld c n (stats_log_counter w)
  | SendTick clock =>
      let '(n, c) := send_to_api_tick clock (stats_log_counter w) (client w) in
      mkWorld c (frame_count w) n
  | Received response now =>
      mkWorld (receive_from_api_iter response now (client w)) (frame_count w)
        (stats_log_counter w)
  | StallCheck _ => w
  end.

Definition world_init (push_to_talk : bool) (now : Q) : world :=
  mkWorld (GeminiLiveClient_init push_to_talk now) 0 0.

Definition exec (w : world) (evs : list event) : world := fold_left step evs w.

(** ** Control surface: [api.py]

    The module-level [state] object and the four endpoints.  An endpoint
    returns its response, or the [HTTPException] it raises, and the state it
    leaves.  The task of [run_client] runs the client the state refers to;
    what the endpoints do to that task and to the client object is recorded
    as a list of effects. *)

Module Api.

(** The client of a world of the coordinator; the state below has a field
    [client] of its own. *)
Definition client_of (w : world) : GeminiLiveClient := client w.

(** [asyncio.Task.done()] of the task started by [start_session]. *)
Inductive task_status : Type := Pending | Done.

Record SessionState : Type := mkSessionState {
  client : option GeminiLiveClient;
  task : option task_status;
  is_running : bool
}.

(** [SessionState.__init__] *)
Definition SessionState_init : SessionState := mkSessionState None None false.

Module MessageResponse.
Record t : Type := mk { message : string; is_running : bool }.
End MessageResponse.

Module StatusResponse.
Record t : Type := mk { is_running : bool; mode : option string }.
End StatusResponse.

Inductive result (A : Type) : Type :=
| Ok (response : A)
| HTTPException (status_code : Z) (detail : string).
Arguments Ok {A} _.
Arguments HTTPException {A} _ _.

(** What a handler does beyond the state.  The client runs on the loop of
    the server, so [CancelAllTasks] cancels the tasks of the server as well:
    the one that serves the request, and the one that accepts connections. *)
Inductive effect : Type :=
| RequestShutdown      (* state.client.request_shutdown(): running = False *)
| CancelAllTasks       (* ... which scheduled _cancel_tasks on the loop *)
| CancelTask.          (* state.task.cancel(), then awaited for at most 5 s *)

Definition mode_name (push_to_talk : bool) : string :=
  if push_to_talk then "Push-to-Talk" else "Toggle Mute".

(** The [finally] block of [run_client]. *)
Definition run_client_finished (state : SessionState) : SessionState :=
  mkSessionState None None false.

Definition stop_session (state : SessionState) : list effect * SessionState :=
  let requested :=
    match client state with
    | Some c =>
        let '(_, cancel_scheduled) := request_shutdown c in
        RequestShutdown :: (if cancel_scheduled then [CancelAllTasks] else [])
    | None => []
    end in
  let cancelled :=
    match task state with Some Pending => [CancelTask] | _ => [] end in
  (requested ++ cancelled, mkSessionState None None false).

(** [POST /start]; [now] is the clock reading taken by the constructor of
    the client. *)
Definition start_session (push_to_talk : bool) (now : Q) (state : SessionState)
  : result MessageResponse.t * SessionState :=
  if is_running state then
    (HTTPException 409
       "A session is already running. Stop it first with POST /stop", state)
  else
    let state :=
      mkSessionState (Some (GeminiLiveClient_init push_to_talk now))
        (Some Pending) true in
    let mode := mode_name push_to_talk in
    (Ok (MessageResponse.mk
           ("Session started in " ++ mode
            ++ " mode. Use F9 to control mic, F10 to quit.") true),
     state).

(** [POST /stop] *)
Definition stop_session_endpoint (state : SessionState)
  : result MessageResponse.t * list effect * SessionState :=
  if negb (is_running state) then
    (HTTPException 404 "No session is currently running", [], state)
  else
    let '(effects, state) := stop_session state in
    (Ok (MessageResponse.mk "Session stopped successfully" false), effects, state).

(** [GET /status] *)
Definition get_status (state : SessionState) : StatusResponse.t :=
  let mode :=
    match is_running state, client state with
    | true, Some c => Some (mode_name (push_to_talk_mode c))
    | _, _ => None
    end in
  StatusResponse.mk (is_running state) mode.

(** [POST /toggle-mute]; [uuid4] and [now] are what [toggle_mute] of the
    client draws and reads. *)
Definition toggle_mute (uuid4 : string) (now : Q) (state : SessionState)
  : result MessageResponse.t * SessionState :=
  match is_running state, client state with
  | true, Some c =>
      if push_to_talk_mode c then
        (HTTPException 400
           "Cannot toggle mute in Push-to-Talk mode. Use the F9 hotkey instead.",
         state)
      else
        let c := toggle_mute uuid4 now c in
        let is_muted := muted c in
        (Ok (MessageResponse.mk
               ("Microphone " ++ (if is_muted then "muted" else "unmuted")) true),
         mkSessionState (Some c) (task state) (is_running state))
  | _, _ => (HTTPException 404 "No session is currently running", state)
  end.

(** The control surface as a transition system: requests, the end of the
    client task, and the progress of the running client, whose task-local
    counters are arguments of the event.  [handle] is what a handler does
    to the state; the sequences of requests include those that go on after
    a stop with the effect [CancelAllTasks], of which the server, its tasks
    cancelled, serves a prefix. *)
Inductive request : Type :=
| Start (push_to_talk : bool) (now : Q)
| Stop
| Status
| ToggleMute (uuid4 : string) (now : Q)
| ClientFinished
| ClientProgress (e : event) (frame_count stats_log_counter : Z).

Definition handle (state : SessionState) (r : request) : SessionState :=
  match r with
  | Start push_to_talk now => snd (start_session push_to_talk now state)
  | Stop => snd (stop_session_endpoint state)
  | Status => state
  | ToggleMute uuid4 now => snd (toggle_mute uuid4 now state)
  | ClientFinished => run_client_finished state
  | ClientProgress e n m =>
      match client state with
      | Some c =>
          mkSessionState (Some (client_of (step (mkWorld c n m) e)))
            (task state) (is_running state)
      | None => state
      end
  end.

Definition serve (state : SessionState) (rs : list request) : SessionState :=
  fold_left handle rs state.

End Api.

(** * Vocabulary of the properties

    Predicates, reference descriptions and example states used by the
    statements below. *)

(** The two ways a turn is closed: the mute toggle pressed while unmuted, and
    the push-to-talk key released while held. *)
Inductive closes_turn (now : Q) (c : GeminiLiveClient) : GeminiLiveClient -> Prop :=
| close_by_toggle (uuid4 : string) :
    _muted c = false -> closes_turn now c (toggle_mute uuid4 now c)
| close_by_release :
    _ptt_active c = true -> closes_turn now c (_on_ptt_release now c).

(** The two ways a turn is opened: the mute toggle pressed while muted, and
    the push-to-talk key pressed while not held. *)
Inductive opens_turn (uuid4 : string) (c : GeminiLiveClient) : GeminiLiveClient -> Prop :=
| open_by_toggle (now : Q) :
    _muted c = true -> opens_turn uuid4 c (toggle_mute uuid4 now c)
| open_by_press :
    _ptt_active c = false -> opens_turn uuid4 c (_on_ptt_press uuid4 c).

(** A client in toggle mode, unmuted, three chunks into turn "3f2a9c1e". *)
Definition example_active_client : GeminiLiveClient :=
  set_audio_chunks_sent_this_turn 3
    (toggle_mute "3f2a9c1e-8b4d-4c6f-9a2e-5d7b1c0e4f3a" (inject_Z 0)
       (set_loop_is_running true (GeminiLiveClient_init false (inject_Z 0)))).

Definition uuid_a : string := "3f2a9c1e-8b4d-4c6f-9a2e-5d7b1c0e4f3a".
Definition uuid_b : string := "3f2a9c1e-51d7-4e0b-b6a4-90c2d8e1f7a5".

(** The chunks of a queue, each with the number of the clock reading at
    which the drain loop tests it; the loop makes two readings per chunk. *)
Fixpoint numbered (k : nat) (l : list TimestampedData)
  : list (nat * TimestampedData) :=
  match l with
  | [] => []
  | t :: rest => (k, t) :: numbered (k + 2) rest
  end.

(** An audio chunk is within the backlog budget at the reading that tests
    it. *)
Definition audio_fresh (clock : nat -> Q) (kt : nat * TimestampedData) : bool :=
  negb (Qgt_bool (age_ms (clock (fst kt)) (snd kt)) (inject_Z AUDIO_MAX_BACKLOG_MS)).

(** The latency of a forwarded chunk is its age at the next reading. *)
Definition record_audio (clock : nat -> Q) (s : LatencyStats)
    (kt : nat * TimestampedData) : LatencyStats :=
  add_audio_latency (age_ms (clock (fst kt + 1)%nat) (snd kt)) s.

(** The client after the audio loop, started at reading [k], has consumed
    the queue content [l]. *)
Definition audio_drained (clock : nat -> Q) (k : nat) (l : list TimestampedData)
    (c : GeminiLiveClient) : GeminiLiveClient :=
  let fresh := filter (audio_fresh clock) (numbered k l) in
  let stale := filter (fun kt => negb (audio_fresh clock kt)) (numbered k l) in
  set_audio_queue_in (Queue.mk (Queue.maxsize (audio_queue_in c)) [])
    (set_session_sent
       (session_sent c ++ map (fun kt => audio (data (snd kt))) fresh)
       (set_audio_drop_count (_audio_drop_count c + Z.of_nat (List.length stale))
          (set_audio_chunks_sent_this_turn
             (_audio_chunks_sent_this_turn c + Z.of_nat (List.length fresh))
             (set_latency_stats
                (fold_left (record_audio clock) fresh (latency_stats c)) c)))).

(** A screen frame is within the screen age budget at [now]. *)
Definition screen_fresh (now : Q) (t : TimestampedData) : bool :=
  negb (Qgt_bool (age_ms now t) (inject_Z SCREEN_MAX_AGE_MS)).

(** A client awaiting the answer to turn "3f2a9c1e" since clock reading 100. *)
Definition example_waiting_client : GeminiLiveClient :=
  set_last_turn_end_time (inject_Z 100)
    (set_current_turn_id (Some "3f2a9c1e"%string)
       (GeminiLiveClient_init true (inject_Z 0))).

Definition emptied (q : Queue.t TimestampedData) : Queue.t TimestampedData :=
  Queue.mk (Queue.maxsize q) [].

(** The queues keep their capacities and never hold more than them. *)
Definition queues_bounded (c : GeminiLiveClient) : Prop :=
  Queue.maxsize (audio_queue_in c) = AUDIO_QUEUE_MAX_SIZE /\
  (List.length (Queue.items (audio_queue_in c)) <= 5)%nat /\
  Queue.maxsize (video_queue_in c) = SCREEN_QUEUE_SIZE /\
  (List.length (Queue.items (video_queue_in c)) <= 1)%nat.

Definition fps_bounded (c : GeminiLiveClient) : Prop :=
  SCREEN_FPS_MIN <= _current_screen_fps c <= SCREEN_FPS.

Definition coordinator_inv (c : GeminiLiveClient) : Prop :=
  queues_bounded c /\ fps_bounded c.

(** A toggle-mode session, unmuted, in which one frame was sent 400 ms after
    its capture and 29 frames have been captured. *)
Definition example_world_29_frames : world :=
  exec (world_init false (inject_Z 0))
    ([RunStarted; Connected (inject_Z 0); HotkeyPressF9 uuid_a (inject_Z 0);
      ScreenGrab [] (inject_Z 0); SendTick (fun _ => 4 # 10)]
     ++ repeat (ScreenGrab [] (inject_Z 1)) 28).

(** A chunk of the audio queue stems from a microphone read that the
    execution [evs] made, from the world [w0], while the client was
    unmuted. *)
Definition captured_unmuted (w0 : world) (evs : list event) (t : TimestampedData)
  : Prop :=
  exists (pre post : list event) (mic : bytes) (now : Q),
    evs = pre ++ MicRead mic now :: post /\
    t = mkTimestampedData mic now /\
    muted (client (exec w0 pre)) = false.

(** The clock readings stamped on the microphone reads of an execution. *)
Definition mic_times (evs : list event) : list Q :=
  flat_map (fun e => match e with MicRead _ now => [now] | _ => [] end) evs.

Fixpoint nondecreasing (l : list Q) : Prop :=
  match l with
  | [] => True
  | x :: rest => Forall (Qle x) rest /\ nondecreasing rest
  end.

(** Five chunks read at readings 1..5 while unmuted fill the queue; a sixth
    read at reading 6 finds it full. *)
Definition example_full_queue_events : list event :=
  [RunStarted; Connected (inject_Z 0); HotkeyPressF9 uuid_a (inject_Z 0);
   MicRead [x01] (inject_Z 1); MicRead [x02] (inject_Z 2);
   MicRead [x03] (inject_Z 3); MicRead [x04] (inject_Z 4);
   MicRead [x05] (inject_Z 5)].

(** The readings of a tick during which the transport is slow: 0.19 at the
    first reading, 0.25 at the second, 0.31 from the third on. *)
Definition example_slow_clock (k : nat) : Q :=
  match k with O => 19 # 100 | 1%nat => 25 # 100 | _ => 31 # 100 end.


(** A toggle-mode session, unmuted, in which a chunk captured at reading 0
    is forwarded by a tick whose send is slow. *)
Definition example_slow_send_events : list event :=
  [RunStarted; Connected (inject_Z 0); HotkeyPressF9 uuid_a (inject_Z 0);
   MicRead [x01] (inject_Z 0); SendTick example_slow_clock].

(** Five chunks read while unmuted fill the queue; the wall clock, which
    [time.time()] reads, is set back before the fifth read: the stamps are
    10, 11, 12, 13 and 5. *)
Definition example_clock_set_back_events : list event :=
  [RunStarted; Connected (inject_Z 0); HotkeyPressF9 uuid_a (inject_Z 0);
   MicRead [x01] (inject_Z 10); MicRead [x02] (inject_Z 11);
   MicRead [x03] (inject_Z 12); MicRead [x04] (inject_Z 13);
   MicRead [x05] (inject_Z 5)].

(** The frame an egress tick forwards at [now]: the head of the video queue,
    when the client is unmuted and the frame is within the age budget. *)
Definition frame_to_send (now : Q) (c : GeminiLiveClient) : list TimestampedData :=
  match Queue.items (video_queue_in c) with
  | v :: _ => if negb (muted c) && screen_fresh now v then [v] else []
  | [] => []
  end.

(** The number of frames an egress tick drops for their age: 1 or 0. *)
Definition late_frames (now : Q) (c : GeminiLiveClient) : Z :=
  match Queue.items (video_queue_in c) with
  | v :: _ => if negb (muted c) && negb (screen_fresh now v) then 1 else 0
  | [] => 0
  end.

Definition record_screen (now : Q) (s : LatencyStats) (t : TimestampedData)
  : LatencyStats :=
  add_screen_latency (age_ms now t) s.

(** The reading at which an egress tick takes the age of the frame: the
    one after the two readings per queued chunk. *)
Definition frame_reading (clock : nat -> Q) (c : GeminiLiveClient) : Q :=
  clock (2 * List.length (Queue.items (audio_queue_in c)))%nat.

(** The client after one egress tick, field by field. *)
Definition tick_result (clock : nat -> Q) (c : GeminiLiveClient) : GeminiLiveClient :=
  let queued := numbered 0 (Queue.items (audio_queue_in c)) in
  let fresh := filter (audio_fresh clock) queued in
  let stale := filter (fun kt => negb (audio_fresh clock kt)) queued in
  let silence :=
    if 0 <? _silence_chunks_to_send c then [audio silence_data] else [] in
  let now := frame_reading clock c in
  let frame := frame_to_send now c in
  {| push_to_talk_mode := push_to_talk_mode c;
     audio_queue_out := audio_queue_out c;
     audio_queue_in := emptied (audio_queue_in c);
     video_queue_in :=
       Queue.mk (Queue.maxsize (video_queue_in c))
         (tl (Queue.items (video_queue_in c)));
     running := running c;
     _muted := _muted c;
     _ptt_active := _ptt_active c;
     _current_turn_id := _current_turn_id c;
     _turn_end_requested := false;
     _last_turn_end_time := _last_turn_end_time c;
     _audio_chunks_sent_this_turn :=
       _audio_chunks_sent_this_turn c + Z.of_nat (List.length fresh);
     _silence_chunks_to_send :=
       if 0 <? _silence_chunks_to_send c
       then _silence_chunks_to_send c - 1 else _silence_chunks_to_send c;
     latency_stats :=
       fold_left (record_screen now) frame
         (fold_left (record_audio clock) fresh (latency_stats c));
     _last_response_time := _last_response_time c;
     _current_screen_fps := _current_screen_fps c;
     _audio_drop_count := _audio_drop_count c + Z.of_nat (List.length stale);
     _screen_drop_count := _screen_drop_count c + late_frames now c;
     loop_is_running := loop_is_running c;
     session_sent :=
       session_sent c ++ silence ++ map (fun kt => audio (data (snd kt))) fresh
         ++ map (fun t => media (data t)) frame |}.

(** The audio payloads of the parts of a model turn, in order. *)
Definition playback_data (parts : list Part) : list bytes :=
  flat_map (fun p => match inline_data p with Some d => [d] | None => [] end) parts.

(** The client after one response has been handled, field by field. *)
Definition receive_result (response : Response) (now : Q) (c : GeminiLiveClient)
  : GeminiLiveClient :=
  match server_content response with
  | None => set_last_response_time now c
  | Some sc =>
      let awaiting := Qgt_bool (_last_turn_end_time c) (inject_Z 0) in
      let first_answer :=
        match model_turn sc with Some _ => awaiting | None => false end in
      let parts := match model_turn sc with Some parts => parts | None => [] end in
      set_audio_queue_out (audio_queue_out c ++ playback_data parts)
        (set_last_turn_end_time
           (if first_answer || turn_complete sc
            then inject_Z 0 else _last_turn_end_time c)
           (set_latency_stats
              (if first_answer
               then add_response_latency
                      ((now - _last_turn_end_time c) * inject_Z 1000)
                      (latency_stats c)
               else latency_stats c)
              (set_last_response_time now c)))
  end.

(** What closing a turn does once the flag of the control surface has been
    set: the silence padding and the turn-end request, for a known turn with
    chunks sent. *)
Definition closing (now : Q) (c : GeminiLiveClient) : GeminiLiveClient :=
  if turn_id_truthy (_current_turn_id c) && (0 <? _audio_chunks_sent_this_turn c)
  then _request_turn_end now (set_silence_chunks_to_send silence_chunks c)
  else c.

(** The changes of the client that the steps of the coordinator make. *)
Inductive client_step (c : GeminiLiveClient) : GeminiLiveClient -> Prop :=
| cs_none : client_step c c
| cs_loop : client_step c (set_loop_is_running true c)
| cs_connected (now : Q) : client_step c (run_reset_state now c)
| cs_unmute (uuid4 : string) :
    push_to_talk_mode c = false -> _muted c = true ->
    client_step c
      (set_audio_chunks_sent_this_turn 0
         (set_current_turn_id (Some (new_turn_id uuid4))
            (set_muted false (_clear_video_queue (_clear_audio_queue c)))))
| cs_mute (now : Q) :
    push_to_talk_mode c = false -> _muted c = false ->
    client_step c (closing now (set_muted true c))
| cs_press (uuid4 : string) :
    push_to_talk_mode c = true -> _ptt_active c = false ->
    client_step c
      (set_audio_chunks_sent_this_turn 0
         (set_current_turn_id (Some (new_turn_id uuid4))
            (set_ptt_active true (_clear_video_queue (_clear_audio_queue c)))))
| cs_release (now : Q) :
    push_to_talk_mode c = true -> _ptt_active c = true ->
    client_step c (closing now (set_ptt_active false c))
| cs_listen (q : Queue.t TimestampedData) (d : Z) :
    _audio_drop_count c <= d ->
    client_step c (set_audio_drop_count d (set_audio_queue_in q c))
| cs_capture (q : Queue.t TimestampedData) (d f : Z) :
    _screen_drop_count c <= d ->
    (f = _current_screen_fps c
     \/ f = Z.max SCREEN_FPS_MIN (_current_screen_fps c - 1)
     \/ f = Z.min SCREEN_FPS (_current_screen_fps c + 1)) ->
    client_step c
      (set_current_screen_fps f (set_screen_drop_count d (set_video_queue_in q c)))
| cs_tick (clock : nat -> Q) : client_step c (tick_result clock c)
| cs_receive (response : Response) (now : Q) :
    client_step c (receive_result response now c).

(** The counters of the client are in range. *)
Definition counters_ok (c : GeminiLiveClient) : Prop :=
  0 <= _silence_chunks_to_send c <= 7 /\
  0 <= _audio_chunks_sent_this_turn c /\
  0 <= _audio_drop_count c /\
  0 <= _screen_drop_count c.

(** The latency windows are within their capacity, and the send latencies
    in them are within the budgets. *)
Definition windows_ok (c : GeminiLiveClient) : Prop :=
  (List.length (audio_capture_to_send (latency_stats c)) <= 50)%nat /\
  (List.length (screen_capture_to_send (latency_stats c)) <= 50)%nat /\
  (List.length (model_response_latency (latency_stats c)) <= 50)%nat /\
  Forall (fun ms => (ms <= inject_Z SCREEN_MAX_AGE_MS)%Q)
    (screen_capture_to_send (latency_stats c)).

(** Each control mode uses its own flag and leaves the other at rest. *)
Definition mode_ok (push_to_talk : bool) (c : GeminiLiveClient) : Prop :=
  push_to_talk_mode c = push_to_talk /\
  (push_to_talk = false -> _ptt_active c = false) /\
  (push_to_talk = true -> _muted c = true).

(** An unmuted client, and a client awaiting a response, has a turn id. *)
Definition turn_known (c : GeminiLiveClient) : Prop :=
  (muted c = false -> _current_turn_id c <> None) /\
  (_last_turn_end_time c = inject_Z 0 \/ _current_turn_id c <> None).

(** From [c0] to [c] the drop counters have not decreased, and the trace of
    the transport and the playback queue have only been appended to. *)
Definition grown_from (c0 c : GeminiLiveClient) : Prop :=
  _audio_drop_count c0 <= _audio_drop_count c /\
  _screen_drop_count c0 <= _screen_drop_count c /\
  (exists sent, session_sent c = session_sent c0 ++ sent) /\
  (exists played, audio_queue_out c = audio_queue_out c0 ++ played).

(** The audio payloads an event puts on the playback queue: those of the
    model turn of a received response. *)
Definition event_playback (e : event) : list bytes :=
  match e with
  | Received response _ =>
      match server_content response with
      | Some sc =>
          match model_turn sc with
          | Some parts => playback_data parts
          | None => []
          end
      | None => []
      end
  | _ => []
  end.

(** An idle client: muted, with no audio queued and no silence pending. *)
Definition quiescent (c : GeminiLiveClient) : Prop :=
  muted c = true /\
  Queue.items (audio_queue_in c) = [] /\
  _silence_chunks_to_send c <= 0.

Definition is_hotkey (e : event) : bool :=
  match e with
  | HotkeyPressF9 _ _ | HotkeyReleaseF9 _ => true
  | _ => false
  end.

(** What a step hands to the transport: the messages of an egress tick. *)
Definition event_sent (c : GeminiLiveClient) (e : event) : list realtime_input :=
  match e with
  | SendTick clock =>
      (if 0 <? _silence_chunks_to_send c then [audio silence_data] else [])
      ++ map (fun kt => audio (data (snd kt)))
           (filter (audio_fresh clock) (numbered 0 (Queue.items (audio_queue_in c))))
      ++ map (fun t => media (data t)) (frame_to_send (frame_reading clock c) c)
  | _ => []
  end.

(** An audio message is silence, or carries a chunk read while unmuted. *)
Definition audio_from_open_microphone (w0 : world) (evs : list event)
    (m : realtime_input) : Prop :=
  match m with
  | audio payload =>
      payload = silence_data
      \/ exists t : TimestampedData, captured_unmuted w0 evs t /\ data t = payload
  | media _ => True
  end.

(** * Properties *)

(** ** Rational comparisons *)

Lemma Qgt_bool_iff (a b : Q) : Qgt_bool a b = true <-> (b < a)%Q.
Proof.
  unfold Qgt_bool. rewrite negb_true_iff. split; intro H.
  - apply Qnot_le_lt. intro L. apply Qle_bool_iff in L. congruence.
  - destruct (Qle_bool a b) eqn:E; [|reflexivity].
    apply Qle_bool_iff in E. exfalso. exact (Qlt_not_le _ _ H E).
Qed.

Lemma Qlt_bool_iff (a b : Q) : Qlt_bool a b = true <-> (a < b)%Q.
Proof. unfold Qlt_bool. exact (Qgt_bool_iff b a). Qed.

(** Field assignments and field reads on a record given by its fields
    evaluate, innermost assignment first. *)
Ltac eval_fields :=
  cbv beta iota zeta delta [
    set_push_to_talk_mode set_audio_queue_out set_audio_queue_in
    set_video_queue_in set_running set_muted set_ptt_active
    set_current_turn_id set_turn_end_requested set_last_turn_end_time
    set_audio_chunks_sent_this_turn set_silence_chunks_to_send
    set_latency_stats set_last_response_time set_current_screen_fps
    set_audio_drop_count set_screen_drop_count set_loop_is_running
    set_session_sent push_to_talk_mode audio_queue_out audio_queue_in
    video_queue_in running _muted _ptt_active _current_turn_id
    _turn_end_requested _last_turn_end_time _audio_chunks_sent_this_turn
    _silence_chunks_to_send latency_stats _last_response_time
    _current_screen_fps _audio_drop_count _screen_drop_count loop_is_running
    session_sent ].

Ltac eval_fields_in H :=
  cbv beta iota zeta delta [
    set_push_to_talk_mode set_audio_queue_out set_audio_queue_in
    set_video_queue_in set_running set_muted set_ptt_active
    set_current_turn_id set_turn_end_requested set_last_turn_end_time
    set_audio_chunks_sent_this_turn set_silence_chunks_to_send
    set_latency_stats set_last_response_time set_current_screen_fps
    set_audio_drop_count set_screen_drop_count set_loop_is_running
    set_session_sent push_to_talk_mode audio_queue_out audio_queue_in
    video_queue_in running _muted _ptt_active _current_turn_id
    _turn_end_requested _last_turn_end_time _audio_chunks_sent_this_turn
    _silence_chunks_to_send latency_stats _last_response_time
    _current_screen_fps _audio_drop_count _screen_drop_count loop_is_running
    session_sent ] in H.

(** ** Queues *)

Lemma clear_loop_empties (fuel : nat) :
  forall (q : Queue.t TimestampedData) (dropped : Z),
    (List.length (Queue.items q) <= fuel)%nat ->
    fst (clear_loop fuel q dropped) = Queue.mk (Queue.maxsize q) [].
Proof.
  induction fuel as [|fuel IH]; intros [m l] dropped Hlen; simpl in *.
  - destruct l; [reflexivity | simpl in Hlen; lia].
  - destruct l as [|x l]; [reflexivity|].
    unfold Queue.empty, Queue.get_nowait; simpl.
    rewrite IH; [reflexivity | simpl in *; lia].
Qed.

Lemma clear_queue_spec (q : Queue.t TimestampedData) :
  clear_queue q = Queue.mk (Queue.maxsize q) [].
Proof. unfold clear_queue. apply clear_loop_empties. lia. Qed.

(** The number of elements [clear_loop] reports as dropped is the length
    of the queue. *)
Lemma clear_loop_counts (fuel : nat) :
  forall (q : Queue.t TimestampedData) (dropped : Z),
    (List.length (Queue.items q) <= fuel)%nat ->
    snd (clear_loop fuel q dropped) = dropped + Queue.qsize q.
Proof.
  induction fuel as [|fuel IH]; intros [m l] dropped Hlen; simpl in *.
  - destruct l; [unfold Queue.qsize; simpl; lia | simpl in Hlen; lia].
  - destruct l as [|x l]; [unfold Queue.qsize; simpl; lia|].
    unfold Queue.empty, Queue.get_nowait; simpl.
    rewrite IH by (simpl in *; lia). unfold Queue.qsize; simpl Queue.items.
    simpl List.length. lia.
Qed.

(** ** Turn lifecycle *)

Lemma silence_chunks_value : silence_chunks = 7.
Proof. reflexivity. Qed.

(** C1, as stated, fails: closing the example turn (three chunks sent) with
    the configured 500 ms of padding and 64 ms chunks leaves
    [max(1, 500 // 64)] pending silence chunks, and that number is 7, not 8. *)
Lemma closing_turn_pads_seven_not_eight :
  let c := example_active_client in
  let c' := toggle_mute "" (inject_Z 1) c in
  closes_turn (inject_Z 1) c c' /\
  _audio_chunks_sent_this_turn c = 3 /\
  SEND_SILENCE_AFTER_PTT_MS = 500 /\
  _silence_chunks_to_send c' = Z.max 1 (500 / 64) /\
  _silence_chunks_to_send c' <> 8.
Proof.
  cbv zeta. split; [constructor; reflexivity|].
  repeat split; try reflexivity. vm_compute. discriminate.
Qed.

(** C1, amended: closing a turn (mute toggle while unmuted, or push-to-talk
    release) of a known turn with [chunks_sent > 0] sets the pending silence
    counter to [max(1, SEND_SILENCE_AFTER_PTT_MS // 64)], which is 7 for
    500 ms and 64 ms chunks, and requests the turn end when the event loop is
    running; with [chunks_sent = 0] the silence counter, the turn-end flag
    and the turn-end time are left as they were. *)
Theorem closing_turn_silence_padding (now : Q) (c c' : GeminiLiveClient) :
  closes_turn now c c' ->
  (turn_id_truthy (_current_turn_id c) = true ->
   0 < _audio_chunks_sent_this_turn c ->
   _silence_chunks_to_send c' = Z.max 1 (SEND_SILENCE_AFTER_PTT_MS / 64) /\
   _silence_chunks_to_send c' = 7 /\
   (loop_is_running c = true ->
    _turn_end_requested c' = true /\ _last_turn_end_time c' = now)) /\
  (_audio_chunks_sent_this_turn c = 0 ->
   _silence_chunks_to_send c' = _silence_chunks_to_send c /\
   _turn_end_requested c' = _turn_end_requested c /\
   _last_turn_end_time c' = _last_turn_end_time c).
Proof.
  intros Hclose.
  destruct Hclose as [uuid4 Hm | Hp].
  - unfold toggle_mute. rewrite Hm. destruct c; cbn in *. split.
    + intros Ht Hpos. rewrite Ht. apply Z.ltb_lt in Hpos. rewrite Hpos.
      cbn. unfold _request_turn_end; cbn.
      destruct loop_is_running0; cbn; repeat split; intros; congruence.
    + intros ->. rewrite andb_false_r. cbn. auto.
  - unfold _on_ptt_release. rewrite Hp. destruct c; cbn in *. split.
    + intros Ht Hpos. rewrite Ht. apply Z.ltb_lt in Hpos. rewrite Hpos.
      cbn. unfold _request_turn_end; cbn.
      destruct loop_is_running0; cbn; repeat split; intros; congruence.
    + intros ->. cbn. destruct (turn_id_truthy _); cbn; auto.
Qed.

Lemma closing_turn_silence_padding_witness :
  let c := example_active_client in
  let c' := _on_ptt_release (inject_Z 1) (set_ptt_active true c) in
  _silence_chunks_to_send c' = 7 /\ _turn_end_requested c' = true.
Proof.
  cbv zeta.
  destruct (closing_turn_silence_padding (inject_Z 1)
              (set_ptt_active true example_active_client) _
              (close_by_release (inject_Z 1)
                 (set_ptt_active true example_active_client) eq_refl)) as [H _].
  destruct (H eq_refl eq_refl) as (_ & H7 & Hreq).
  split; [exact H7 | exact (proj1 (Hreq eq_refl))].
Defined.

Lemma length_substring_prefix (n : nat) :
  forall s : string, (n <= String.length s)%nat ->
    String.length (substring 0 n s) = n.
Proof.
  induction n as [|n IH]; intros [|a s] H; simpl in *; try reflexivity; try lia.
  rewrite IH by lia. reflexivity.
Qed.

Lemma opens_turn_inv (uuid4 : string) (c c' : GeminiLiveClient) :
  opens_turn uuid4 c c' ->
  let c0 := _clear_video_queue (_clear_audio_queue c) in
  c' = set_audio_chunks_sent_this_turn 0
         (set_current_turn_id (Some (new_turn_id uuid4)) (set_muted false c0))
  \/ c' = set_audio_chunks_sent_this_turn 0
         (set_current_turn_id (Some (new_turn_id uuid4)) (set_ptt_active true c0)).
Proof.
  intros [now Hm | Hp]; cbv zeta.
  - left. unfold toggle_mute. rewrite Hm. reflexivity.
  - right. unfold _on_ptt_press. rewrite Hp. reflexivity.
Qed.

(** C5, as stated, fails in the part on previously-unused ids: the turn id
    keeps the first eight characters of the UUID only, so two different
    UUIDs that agree on them give two turns the same id. *)
Lemma turn_id_can_repeat :
  let w1 := exec (world_init true (inject_Z 0))
              [RunStarted; Connected (inject_Z 0); HotkeyPressF9 uuid_a (inject_Z 1)] in
  let w2 := step w1 (HotkeyReleaseF9 (inject_Z 2)) in
  let w3 := step w2 (HotkeyPressF9 uuid_b (inject_Z 3)) in
  uuid_a <> uuid_b /\
  _ptt_active (client w2) = false /\
  client w3 = _on_ptt_press uuid_b (client w2) /\
  _current_turn_id (client w1) = Some "3f2a9c1e"%string /\
  _current_turn_id (client w3) = _current_turn_id (client w1).
Proof.
  cbv zeta. split; [discriminate|].
  repeat apply conj; vm_compute; reflexivity.
Qed.

(** C5, amended: every transition into the Active state (unmute by the
    toggle, or push-to-talk press) empties the audio and the video queue,
    sets the turn id to the first eight characters of the UUID just drawn
    (a non-empty string, for a UUID in its 36-character form) and resets
    [chunks_sent] to 0; a push-to-talk press while the key is already held
    changes nothing. *)
Theorem opening_turn_resets (uuid4 : string) (now : Q) (c : GeminiLiveClient) :
  (forall c', opens_turn uuid4 c c' ->
     Queue.items (audio_queue_in c') = [] /\
     Queue.items (video_queue_in c') = [] /\
     _current_turn_id c' = Some (substring 0 8 uuid4) /\
     (String.length uuid4 = 36%nat ->
      String.length (substring 0 8 uuid4) = 8%nat /\
      turn_id_truthy (_current_turn_id c') = true) /\
     _audio_chunks_sent_this_turn c' = 0) /\
  (_ptt_active c = true ->
   _on_ptt_press uuid4 c = c /\
   (push_to_talk_mode c = true -> _on_hotkey_press_f9 uuid4 now c = c)).
Proof.
  split.
  - intros c' Hopen.
    assert (Hlen : String.length uuid4 = 36%nat ->
                   String.length (substring 0 8 uuid4) = 8%nat)
      by (intros H; apply length_substring_prefix; lia).
    assert (Htruthy : String.length uuid4 = 36%nat ->
                      turn_id_truthy (Some (substring 0 8 uuid4)) = true).
    { intros H. specialize (Hlen H).
      destruct (substring 0 8 uuid4); [discriminate | reflexivity]. }
    apply opens_turn_inv in Hopen. cbv zeta in Hopen.
    unfold _clear_video_queue, _clear_audio_queue in Hopen.
    destruct c; cbn in Hopen; rewrite !clear_queue_spec in Hopen.
    destruct Hopen as [-> | ->]; cbn; unfold new_turn_id;
      (repeat apply conj; auto).
  - intros Hp. unfold _on_hotkey_press_f9, _on_ptt_press. rewrite Hp.
    split; [reflexivity | intros ->; reflexivity].
Qed.

Lemma opening_turn_resets_witness :
  let c := set_ptt_active true (GeminiLiveClient_init true (inject_Z 0)) in
  _on_ptt_press uuid_b c = c /\
  _current_turn_id (toggle_mute uuid_a (inject_Z 0) (GeminiLiveClient_init false (inject_Z 0)))
  = Some "3f2a9c1e"%string.
Proof.
  cbv zeta. split.
  - exact (proj1 (proj2 (opening_turn_resets uuid_b (inject_Z 0)
                           (set_ptt_active true (GeminiLiveClient_init true (inject_Z 0))))
                   eq_refl)).
  - destruct (proj1 (opening_turn_resets uuid_a (inject_Z 0)
                       (GeminiLiveClient_init false (inject_Z 0)))
                _ (open_by_toggle uuid_a (GeminiLiveClient_init false (inject_Z 0))
                     (inject_Z 0) eq_refl))
      as (_ & _ & Hid & _).
    exact Hid.
Defined.

(** ** Session supervisor *)

(** One pass that fails at connect time with the loop alive: the counter is
    incremented; below the maximum the supervisor sleeps
    [min(30, 2 ** reconnect_count)], at the maximum it gives up. *)
Lemma run_loop_connect_failed (rc : Z) (rest : list attempt) :
  rc < max_reconnects ->
  run_loop rc (ConnectFailed :: rest) =
    if rc + 1 <? max_reconnects
    then (Connecting (rc + 1) :: Sleep (Z.min 30 (2 ^ (rc + 1)))
            :: fst (run_loop (rc + 1) rest),
          snd (run_loop (rc + 1) rest))
    else ([Connecting (rc + 1); GiveUp; Cleanup], None).
Proof.
  intros H. simpl. apply Z.ltb_lt in H. rewrite H. simpl.
  destruct (rc + 1 <? max_reconnects); [|reflexivity].
  destruct (run_loop (rc + 1) rest). reflexivity.
Qed.

(** C2, as stated, fails: five consecutive connect-time failures produce the
    waits 2, 4, 8, 16 and no fifth wait of 30 seconds; the fifth failure
    itself ends the loop, so there is no sixth attempt. *)
Lemma fifth_connect_failure_gives_up :
  sleeps (fst (run (repeat ConnectFailed 5))) = [2; 4; 8; 16] /\
  sleeps (fst (run (repeat ConnectFailed 5))) <> [2; 4; 8; 16; 30] /\
  snd (run (repeat ConnectFailed 5)) = None /\
  fst (run (repeat ConnectFailed 6)) = fst (run (repeat ConnectFailed 5)) /\
  ~ In (Connecting 6) (fst (run (repeat ConnectFailed 6))).
Proof.
  repeat apply conj; try (vm_compute; reflexivity).
  - vm_compute. discriminate.
  - vm_compute. intros H.
    repeat (destruct H as [H | H]; [discriminate H|]). exact H.
Qed.

(** C2, amended: over [n] consecutive connect-time failures from a fresh
    supervisor, the wait after the k-th failure is
    [min(30, 2 ** k)] for k = 1..4, that is 2, 4, 8 and 16 seconds; the
    fifth failure is followed by no wait and ends the session loop for
    good. *)
Theorem connect_failure_backoff (n : nat) :
  let tr := fst (run (repeat ConnectFailed n)) in
  let r := snd (run (repeat ConnectFailed n)) in
  sleeps tr = firstn n [2; 4; 8; 16] /\
  (forall k : nat, (k < List.length (sleeps tr))%nat ->
     nth k (sleeps tr) 0 = Z.min 30 (2 ^ Z.of_nat (S k))) /\
  ((n < 5)%nat -> r = Some (Z.of_nat n) /\ ~ In GiveUp tr) /\
  ((5 <= n)%nat -> r = None /\ In GiveUp tr /\ last tr Cleanup = Cleanup).
Proof.
  assert (Hnth : forall k : nat, (k < 4)%nat ->
            nth k [2; 4; 8; 16] 0 = Z.min 30 (2 ^ Z.of_nat (S k))).
  { intros k Hk. do 4 (destruct k as [|k]; [reflexivity|]). lia. }
  assert (Hnot : forall l, Forall (fun a => a <> GiveUp) l -> ~ In GiveUp l).
  { intros l Hl Hin. rewrite Forall_forall in Hl. exact (Hl _ Hin eq_refl). }
  destruct n as [|[|[|[|[|m]]]]]; cbv zeta.
  1-5: (split; [reflexivity|]; split;
        [ intros k Hk; simpl in Hk;
          do 4 (destruct k as [|k]; [try reflexivity; simpl in Hk; lia|]);
          simpl in Hk; lia
        | split; [intros _; split; [reflexivity|]
                 | intros Hge; lia] ]).
  1-5: apply Hnot; repeat constructor; discriminate.
  split; [reflexivity|]. split.
  - intros k Hk. change (sleeps (fst (run (repeat ConnectFailed (5 + m)))))
      with [2; 4; 8; 16] in *. apply Hnth. exact Hk.
  - split; [lia|]. intros _. split; [reflexivity|]. split.
    + change (In GiveUp (fst (run (repeat ConnectFailed (5 + m))))).
      simpl. tauto.
    + reflexivity.
Qed.

Lemma connect_failure_backoff_witness :
  snd (run (repeat ConnectFailed 3)) = Some 3 /\
  snd (run (repeat ConnectFailed 7)) = None.
Proof.
  split.
  - exact (proj1 (proj1 (proj2 (proj2 (connect_failure_backoff 3))) ltac:(lia))).
  - exact (proj1 (proj2 (proj2 (proj2 (connect_failure_backoff 7))) ltac:(lia))).
Defined.

(** ** Egress tick *)

Lemma drain_audio_spec (fuel : nat) (clock : nat -> Q) :
  forall (k : nat) (c : GeminiLiveClient),
    (List.length (Queue.items (audio_queue_in c)) <= fuel)%nat ->
    drain_audio fuel clock k c
    = ((k + 2 * List.length (Queue.items (audio_queue_in c)))%nat,
       audio_drained clock k (Queue.items (audio_queue_in c)) c).
Proof.
  induction fuel as [|fuel IH]; intros k c Hlen.
  - destruct c as [? ? [m l] ? ? ? ? ? ? ? ? ? ? ? ? ? ? ? ?]; cbn in *.
    destruct l; [|simpl in Hlen; lia].
    unfold audio_drained; cbn. rewrite app_nil_r, !Z.add_0_r, Nat.add_0_r.
    reflexivity.
  - destruct c as [? ? [m l] ? ? ? ? ? ? ? ? ? ? ? ? ? ? ? ?].
    destruct l as [|x l].
    + unfold audio_drained; cbn. rewrite app_nil_r, !Z.add_0_r, Nat.add_0_r.
      reflexivity.
    + cbn [drain_audio Queue.empty Queue.get_nowait Queue.items audio_queue_in].
      cbn iota. unfold audio_drained, audio_fresh.
      cbn [filter numbered fst snd Queue.items audio_queue_in].
      destruct (Qgt_bool (age_ms (clock k) x) (inject_Z AUDIO_MAX_BACKLOG_MS)) eqn:E;
        cbn [negb]; cbv zeta; rewrite IH by (cbn in *; lia);
        unfold audio_drained, audio_fresh, send_realtime_input, record_audio;
        eval_fields;
        cbn [Queue.items Queue.maxsize List.length map fold_left fst snd];
        (f_equal; [lia|]);
        f_equal; try lia; try (rewrite <- app_assoc; reflexivity).
Qed.

Lemma record_audio_windows (clock : nat -> Q) (l : list (nat * TimestampedData)) :
  forall s : LatencyStats,
    audio_capture_to_send (fold_left (record_audio clock) l s)
    = fold_left (deque_append LATENCY_WINDOW_SIZE)
        (map (fun kt => age_ms (clock (fst kt + 1)%nat) (snd kt)) l)
        (audio_capture_to_send s)
    /\ screen_capture_to_send (fold_left (record_audio clock) l s)
       = screen_capture_to_send s
    /\ model_response_latency (fold_left (record_audio clock) l s)
       = model_response_latency s.
Proof.
  induction l as [|x l IH]; intros s; simpl; [auto|].
  destruct (IH (record_audio clock s x)) as (Ha & Hs & Hm).
  rewrite Ha, Hs, Hm. destruct s; simpl. auto.
Qed.

Lemma send_to_api_tick_closed_form (clock : nat -> Q) (n : Z) (c : GeminiLiveClient) :
  send_to_api_tick clock n c =
    (if 500 <=? n + 1 then 0 else n + 1, tick_result clock c).
Proof.
  unfold send_to_api_tick. cbv zeta.
  rewrite drain_audio_spec by lia. f_equal.
  unfold tick_result, frame_reading, frame_to_send, late_frames, screen_fresh,
    record_screen.
  unfold drain_video, audio_drained, send_silence, send_realtime_input, muted, emptied.
  destruct c as [ptt ? [am al] [vm vl] ? mu pa ? ter ? ? sil ls ? ? ? ? ? ?].
  eval_fields. destruct ter; eval_fields; (destruct (0 <? sil); eval_fields;
    (destruct vl as [|v vl];
     cbn [Queue.items Queue.maxsize Queue.empty Queue.get_nowait negb tl map
          fold_left Nat.add];
     [ rewrite ?app_nil_r, ?Z.add_0_r, <- ?app_assoc; eval_fields; reflexivity |])).
  all: cbn [SCREEN_SEND_ONLY_DURING_TURN].
  all: destruct (if ptt then negb pa else mu); cbn [negb andb map fold_left].
  all: try (eval_fields; rewrite ?app_nil_r, ?Z.add_0_r, <- ?app_assoc;
            reflexivity).
  all: destruct (Qgt_bool (age_ms (clock (2 * List.length al)%nat) v)
                   (inject_Z SCREEN_MAX_AGE_MS));
    cbn [negb map fold_left]; eval_fields;
    rewrite ?app_nil_r, ?Z.add_0_r, <- ?app_assoc; reflexivity.
Qed.



Lemma numbered_In (l : list TimestampedData) :
  forall (k : nat) (kt : nat * TimestampedData),
    In kt (numbered k l) -> In (snd kt) l.
Proof.
  induction l as [|t l IH]; intros k kt; cbn [numbered In]; [auto|].
  intros [<- | H]; [left; reflexivity | right; exact (IH _ _ H)].
Qed.


Lemma deque_append_suffix (n : nat) (d : list Q) (x : Q) :
  (0 < n)%nat -> (List.length d <= n)%nat ->
  exists older : list Q,
    d ++ [x] = older ++ deque_append n d x /\
    List.length (deque_append n d x) = Nat.min n (List.length d + 1).
Proof.
  intros Hn Hd. unfold deque_append.
  destruct (n <=? List.length d)%nat eqn:E.
  - apply Nat.leb_le in E. destruct d as [|a d]; [cbn in E; lia|].
    exists [a]. cbn [tl app]. split; [reflexivity|].
    rewrite length_app. cbn in *. lia.
  - apply Nat.leb_gt in E. exists []. split; [reflexivity|].
    rewrite length_app. cbn. lia.
Qed.

Lemma fold_deque_append_suffix (n : nat) (samples : list Q) :
  (0 < n)%nat ->
  forall d : list Q, (List.length d <= n)%nat ->
    exists older : list Q,
      d ++ samples = older ++ fold_left (deque_append n) samples d /\
      List.length (fold_left (deque_append n) samples d)
      = Nat.min n (List.length d + List.length samples).
Proof.
  intros Hn. induction samples as [|x samples IH]; intros d Hd.
  - exists []. cbn. rewrite app_nil_r. split; [reflexivity | lia].
  - cbn [fold_left].
    destruct (deque_append_suffix n d x Hn Hd) as (pre & Hpre & Hlen).
    destruct (IH (deque_append n d x) ltac:(lia)) as (older & Holder & Hlen').
    exists (pre ++ older). split.
    + rewrite <- app_assoc, <- Holder, app_assoc, <- Hpre, <- app_assoc.
      reflexivity.
    + rewrite Hlen', Hlen. cbn [List.length]. lia.
Qed.

Lemma add_screen_latency_windows (samples : list Q) :
  forall s : LatencyStats,
    let s' := fold_left (fun s ms => add_screen_latency ms s) samples s in
    screen_capture_to_send s'
    = fold_left (deque_append LATENCY_WINDOW_SIZE) samples (screen_capture_to_send s) /\
    audio_capture_to_send s' = audio_capture_to_send s /\
    model_response_latency s' = model_response_latency s.
Proof.
  induction samples as [|x samples IH]; intros s; cbv zeta; cbn [fold_left];
    [auto|].
  destruct (IH (add_screen_latency x s)) as (H1 & H2 & H3).
  rewrite H1, H2, H3. destruct s; cbn. auto.
Qed.



(** ** Stall watchdog *)

Lemma Qgt_bool_false_iff (a b : Q) : Qgt_bool a b = false <-> (a <= b)%Q.
Proof.
  unfold Qgt_bool. rewrite negb_false_iff. apply Qle_bool_iff.
Qed.

(** A mid-session failure, such as the exception of the watchdog, makes the
    supervisor cancel every task of the connection and go round the loop
    again with the attempt counter at 0. *)
Lemma run_loop_session_failed (rc : Z) (rest : list attempt) :
  rc < max_reconnects ->
  run_loop rc (SessionFailed :: rest) =
    (Connecting (rc + 1) :: ResetState :: CancelTasks :: fst (run_loop 0 rest),
     snd (run_loop 0 rest)).
Proof.
  intros H. simpl. apply Z.ltb_lt in H. rewrite H. simpl.
  destruct (run_loop 0 rest). reflexivity.
Qed.

(** C9: the watchdog does nothing unless [_last_turn_end_time > 0] and a
    turn id is set.  Otherwise, with [wait_time = now - _last_turn_end_time]:
    up to 15 s (so at 10 s) it does nothing; above 15 s it logs a warning at
    each check; above 30 s it also raises.  A check changes no state, and
    the exception ends the pass of the supervisor with every task of the
    connection cancelled. *)
Theorem stall_detector_thresholds (now : Q) (c : GeminiLiveClient) :
  let r := stall_detector_check now c in
  let wait_time := (now - _last_turn_end_time c)%Q in
  ((~ (inject_Z 0 < _last_turn_end_time c)%Q \/ _current_turn_id c = None) ->
   r = mkStallCheck [] None) /\
  ((inject_Z 0 < _last_turn_end_time c)%Q -> _current_turn_id c <> None ->
   ((wait_time == inject_Z 10)%Q -> r = mkStallCheck [] None) /\
   ((wait_time <= inject_Z 15)%Q -> r = mkStallCheck [] None) /\
   ((inject_Z 15 < wait_time)%Q -> stall_warnings r = [wait_time]) /\
   ((wait_time <= inject_Z 30)%Q -> stall_raised r = None) /\
   ((inject_Z 30 < wait_time)%Q -> stall_raised r = Some wait_time)) /\
  (forall w : world, step w (StallCheck now) = w) /\
  (forall (rc : Z) (rest : list attempt), rc < max_reconnects ->
     fst (run_loop rc (SessionFailed :: rest)) =
       Connecting (rc + 1) :: ResetState :: CancelTasks :: fst (run_loop 0 rest)).
Proof.
  cbv zeta. unfold stall_detector_check.
  change (inject_Z STALL_TIMEOUT_S) with (inject_Z 15).
  change (inject_Z (STALL_TIMEOUT_S * 2)) with (inject_Z 30).
  repeat apply conj.
  - intros [Hn | Hn].
    + destruct (Qgt_bool (_last_turn_end_time c) (inject_Z 0)) eqn:E;
        [|reflexivity].
      apply Qgt_bool_iff in E. contradiction.
    + rewrite Hn, andb_false_r. reflexivity.
  - intros Hpos Hid.
    apply Qgt_bool_iff in Hpos. rewrite Hpos.
    destruct (_current_turn_id c) as [tid|]; [|congruence]. cbn [andb].
    assert (Hquiet : (now - _last_turn_end_time c <= inject_Z 15)%Q ->
              mkStallCheck
                (if Qgt_bool (now - _last_turn_end_time c) (inject_Z 15)
                 then [(now - _last_turn_end_time c)%Q] else [])
                (if Qgt_bool (now - _last_turn_end_time c) (inject_Z 30)
                 then Some (now - _last_turn_end_time c)%Q else None)
              = mkStallCheck [] None).
    { intros Hle.
      assert (Hle' : (now - _last_turn_end_time c <= inject_Z 30)%Q)
        by (eapply Qle_trans; [exact Hle | discriminate]).
      apply Qgt_bool_false_iff in Hle, Hle'. rewrite Hle, Hle'. reflexivity. }
    repeat apply conj.
    + intros Heq. apply Hquiet. rewrite Heq. discriminate.
    + exact Hquiet.
    + intros H. apply Qgt_bool_iff in H. cbn [stall_warnings]. rewrite H.
      reflexivity.
    + intros H. apply Qgt_bool_false_iff in H. cbn [stall_raised]. rewrite H.
      reflexivity.
    + intros H. apply Qgt_bool_iff in H. cbn [stall_raised]. rewrite H.
      reflexivity.
  - intros w. reflexivity.
  - intros rc rest H. rewrite run_loop_session_failed by exact H. reflexivity.
Qed.

Lemma stall_detector_thresholds_witness :
  stall_detector_check (inject_Z 110) example_waiting_client = mkStallCheck [] None /\
  stall_warnings (stall_detector_check (inject_Z 116) example_waiting_client)
    = [(inject_Z 116 - inject_Z 100)%Q] /\
  stall_raised (stall_detector_check (inject_Z 116) example_waiting_client) = None /\
  stall_raised (stall_detector_check (inject_Z 131) example_waiting_client)
    = Some (inject_Z 131 - inject_Z 100)%Q /\
  stall_detector_check (inject_Z 500) (GeminiLiveClient_init true (inject_Z 0))
    = mkStallCheck [] None.
Proof.
  assert (Hpos : (inject_Z 0 < _last_turn_end_time example_waiting_client)%Q)
    by reflexivity.
  assert (Hid : _current_turn_id example_waiting_client <> None)
    by discriminate.
  repeat apply conj.
  - destruct (stall_detector_thresholds (inject_Z 110) example_waiting_client)
      as (_ & H & _).
    destruct (H Hpos Hid) as (H10 & _). apply H10. reflexivity.
  - destruct (stall_detector_thresholds (inject_Z 116) example_waiting_client)
      as (_ & H & _).
    destruct (H Hpos Hid) as (_ & _ & Hw & _). apply Hw. reflexivity.
  - destruct (stall_detector_thresholds (inject_Z 116) example_waiting_client)
      as (_ & H & _).
    destruct (H Hpos Hid) as (_ & _ & _ & Hr & _). apply Hr. discriminate.
  - destruct (stall_detector_thresholds (inject_Z 131) example_waiting_client)
      as (_ & H & _).
    destruct (H Hpos Hid) as (_ & _ & _ & _ & Hr). apply Hr. reflexivity.
  - destruct (stall_detector_thresholds (inject_Z 500)
                (GeminiLiveClient_init true (inject_Z 0))) as (H & _).
    apply H. right. reflexivity.
Defined.

(** ** What each operation leaves alone

    For every operation of the coordinator: its effect on the two ingestion
    queues and on the screen rate. *)

Lemma _request_turn_end_frame (now : Q) (c : GeminiLiveClient) :
  let c' := _request_turn_end now c in
  audio_queue_in c' = audio_queue_in c /\
  video_queue_in c' = video_queue_in c /\
  _current_screen_fps c' = _current_screen_fps c /\
  muted c' = muted c.
Proof.
  cbv zeta. unfold _request_turn_end, muted.
  destruct c; eval_fields. destruct loop_is_running0; eval_fields; auto.
Qed.

Lemma hotkey_press_frame (uuid4 : string) (now : Q) (c : GeminiLiveClient) :
  let c' := _on_hotkey_press_f9 uuid4 now c in
  _current_screen_fps c' = _current_screen_fps c /\
  ((audio_queue_in c' = audio_queue_in c /\ video_queue_in c' = video_queue_in c)
   \/ (audio_queue_in c' = emptied (audio_queue_in c) /\
       video_queue_in c' = emptied (video_queue_in c))).
Proof.
  cbv zeta.
  unfold _on_hotkey_press_f9, _on_ptt_press, toggle_mute, _request_turn_end,
    _clear_audio_queue, _clear_video_queue, emptied.
  destruct c; eval_fields. rewrite !clear_queue_spec.
  destruct push_to_talk_mode0, _ptt_active0, _muted0; eval_fields; auto.
  all: destruct (turn_id_truthy _current_turn_id0 && _);
    eval_fields; auto.
  all: destruct loop_is_running0; eval_fields; auto.
Qed.

Lemma hotkey_release_frame (now : Q) (c : GeminiLiveClient) :
  let c' := _on_hotkey_release_f9 now c in
  _current_screen_fps c' = _current_screen_fps c /\
  audio_queue_in c' = audio_queue_in c /\
  video_queue_in c' = video_queue_in c.
Proof.
  cbv zeta. unfold _on_hotkey_release_f9, _on_ptt_release, _request_turn_end.
  destruct c; eval_fields.
  destruct push_to_talk_mode0, _ptt_active0; eval_fields; auto.
  all: destruct (turn_id_truthy _current_turn_id0); eval_fields; auto.
  all: destruct (0 <? _audio_chunks_sent_this_turn0); eval_fields; auto.
  all: destruct loop_is_running0; eval_fields; auto.
Qed.

Lemma run_reset_state_frame (now : Q) (c : GeminiLiveClient) :
  let c' := run_reset_state now c in
  _current_screen_fps c' = _current_screen_fps c /\
  audio_queue_in c' = emptied (audio_queue_in c) /\
  video_queue_in c' = emptied (video_queue_in c).
Proof.
  cbv zeta. unfold run_reset_state, _clear_audio_queue, _clear_video_queue, emptied.
  destruct c; eval_fields. rewrite !clear_queue_spec. auto.
Qed.

Lemma route_parts_frame (parts : list Part) :
  forall c : GeminiLiveClient,
    let c' := fold_left route_part parts c in
    _current_screen_fps c' = _current_screen_fps c /\
    audio_queue_in c' = audio_queue_in c /\
    video_queue_in c' = video_queue_in c.
Proof.
  induction parts as [|p parts IH]; intros c; cbv zeta; cbn [fold_left]; [auto|].
  destruct (IH (route_part c p)) as (H1 & H2 & H3). rewrite H1, H2, H3.
  unfold route_part. destruct (inline_data p); destruct c; eval_fields; auto.
Qed.

Lemma receive_frame (response : Response) (now : Q) (c : GeminiLiveClient) :
  let c' := receive_from_api_iter response now c in
  _current_screen_fps c' = _current_screen_fps c /\
  audio_queue_in c' = audio_queue_in c /\
  video_queue_in c' = video_queue_in c.
Proof.
  cbv zeta. unfold receive_from_api_iter.
  destruct (server_content response) as [[mt tc]|];
    [|destruct c; eval_fields; auto].
  cbn [model_turn turn_complete].
  assert (H : forall c0 : GeminiLiveClient,
            _current_screen_fps c0 = _current_screen_fps c /\
            audio_queue_in c0 = audio_queue_in c /\
            video_queue_in c0 = video_queue_in c ->
            let c1 := if tc then set_last_turn_end_time (inject_Z 0) c0 else c0 in
            _current_screen_fps c1 = _current_screen_fps c /\
            audio_queue_in c1 = audio_queue_in c /\
            video_queue_in c1 = video_queue_in c).
  { intros c0 H0. cbv zeta. destruct tc; [|exact H0].
    destruct c0; eval_fields_in H0; eval_fields. exact H0. }
  apply H. destruct mt as [parts|].
  - destruct (route_parts_frame parts
      (if Qgt_bool (_last_turn_end_time (set_last_response_time now c)) (inject_Z 0)
       then set_last_turn_end_time (inject_Z 0)
              (set_latency_stats
                 (add_response_latency
                    ((now - _last_turn_end_time (set_last_response_time now c))
                     * inject_Z 1000)
                    (latency_stats (set_last_response_time now c)))
                 (set_last_response_time now c))
       else set_last_response_time now c)) as (H1 & H2 & H3).
    rewrite H1, H2, H3.
    destruct c; eval_fields.
    destruct (Qgt_bool _last_turn_end_time0 (inject_Z 0)); eval_fields; auto.
  - destruct c; eval_fields; auto.
Qed.

(** The screen rate after one iteration of [capture_screen], whatever the
    state of the video queue. *)
Lemma capture_screen_fps (img_bytes : bytes) (now : Q) (n : Z) (c : GeminiLiveClient) :
  fst (capture_screen_iter img_bytes now n c) = n + 1 /\
  _current_screen_fps (snd (capture_screen_iter img_bytes now n c)) =
    (if (n + 1) mod 30 =? 0 then
       if Qgt_bool (avg_screen_ms (latency_stats c))
            (inject_Z SCREEN_MAX_AGE_MS * (8 # 10))
       then Z.max SCREEN_FPS_MIN (_current_screen_fps c - 1)
       else if Qlt_bool (avg_screen_ms (latency_stats c))
                 (inject_Z SCREEN_MAX_AGE_MS * (3 # 10))
               && (_current_screen_fps c <? SCREEN_FPS)
            then Z.min SCREEN_FPS (_current_screen_fps c + 1)
            else _current_screen_fps c
     else _current_screen_fps c) /\
  audio_queue_in (snd (capture_screen_iter img_bytes now n c)) = audio_queue_in c.
Proof.
  unfold capture_screen_iter, adapt_screen_fps. cbv zeta. cbn [fst snd].
  destruct c; eval_fields.
  destruct (Queue.full video_queue_in0);
    [destruct (Queue.get_nowait video_queue_in0) as [[old q']|]|];
    eval_fields.
  all: match goal with
       | |- context [Queue.put_nowait ?x ?q] => destruct (Queue.put_nowait x q)
       end; eval_fields.
  all: destruct ((n + 1) mod 30 =? 0); eval_fields; auto.
  all: destruct (Qgt_bool _ _); eval_fields; auto.
  all: destruct (Qlt_bool _ _ && _); eval_fields; auto.
Qed.

(** The video queue after one iteration of [capture_screen], for a queue of
    capacity 1 holding at most one frame. *)
Lemma capture_screen_video (img_bytes : bytes) (now : Q) (n : Z) (c : GeminiLiveClient) :
  Queue.maxsize (video_queue_in c) = SCREEN_QUEUE_SIZE ->
  (List.length (Queue.items (video_queue_in c)) <= 1)%nat ->
  let c' := snd (capture_screen_iter img_bytes now n c) in
  video_queue_in c' = Queue.mk SCREEN_QUEUE_SIZE [mkTimestampedData img_bytes now] /\
  _screen_drop_count c' =
    _screen_drop_count c +
    (match Queue.items (video_queue_in c) with [] => 0 | _ :: _ => 1 end).
Proof.
  intros Hm Hl. cbv zeta.
  unfold capture_screen_iter, adapt_screen_fps. cbv zeta. cbn [snd].
  destruct c as [? ? ? [vm vl] ? ? ? ? ? ? ? ? ? ? ? ? ? ? ?].
  cbn [video_queue_in Queue.maxsize Queue.items] in Hm, Hl. subst vm.
  destruct vl as [|v [|v' vl]]; [| |cbn in Hl; lia]; eval_fields;
    cbn [Queue.full Queue.get_nowait Queue.put_nowait Queue.items Queue.maxsize
         Queue.qsize List.length SCREEN_QUEUE_SIZE Z.leb Z.compare Z.of_nat
         Pos.of_succ_nat Pos.compare Pos.compare_cont app];
    eval_fields.
  all: destruct ((n + 1) mod 30 =? 0); eval_fields;
    [ destruct (Qgt_bool _ _); eval_fields;
      [ | destruct (Qlt_bool _ _ && _); eval_fields ] | ];
    split; try reflexivity; lia.
Qed.

(** The audio queue after one iteration of [listen_audio], for a queue of
    capacity 5 holding at most five chunks. *)
Lemma listen_audio_spec (mic : bytes) (now : Q) (c : GeminiLiveClient) :
  Queue.maxsize (audio_queue_in c) = AUDIO_QUEUE_MAX_SIZE ->
  (List.length (Queue.items (audio_queue_in c)) <= 5)%nat ->
  let c' := listen_audio_iter mic now c in
  let new := mkTimestampedData mic now in
  let l := Queue.items (audio_queue_in c) in
  _current_screen_fps c' = _current_screen_fps c /\
  video_queue_in c' = video_queue_in c /\
  Queue.maxsize (audio_queue_in c') = AUDIO_QUEUE_MAX_SIZE /\
  ((mic = [] \/ muted c = true) -> c' = c) /\
  (mic <> [] -> muted c = false ->
   ((List.length l < 5)%nat ->
    Queue.items (audio_queue_in c') = l ++ [new] /\
    _audio_drop_count c' = _audio_drop_count c) /\
   ((List.length l = 5)%nat ->
    Queue.items (audio_queue_in c') = tl l ++ [new] /\
    _audio_drop_count c' = _audio_drop_count c + 1)).
Proof.
  intros Hm Hl. cbv zeta. unfold listen_audio_iter. cbv zeta.
  destruct (muted c) eqn:Hmu.
  { rewrite andb_false_r. repeat apply conj; auto; intros; congruence. }
  destruct mic as [|b mic].
  { cbn. repeat apply conj; auto; intros; congruence. }
  cbn [List.length Nat.eqb negb andb].
  destruct c as [? ? [am al] ? ? ? ? ? ? ? ? ? ? ? ? ? ? ? ?].
  cbn [audio_queue_in Queue.maxsize Queue.items] in Hm, Hl. subst am.
  eval_fields.
  destruct al as [|a1 [|a2 [|a3 [|a4 [|a5 [|a6 al]]]]]];
    [| | | | | |cbn in Hl; lia].
  all: cbn [Queue.full Queue.get_nowait Queue.put_nowait Queue.items Queue.maxsize
         Queue.qsize List.length AUDIO_QUEUE_MAX_SIZE Z.leb Z.compare Z.of_nat
         Pos.of_succ_nat Pos.succ Pos.compare Pos.compare_cont app tl];
    eval_fields;
    cbn [Queue.full Queue.get_nowait Queue.put_nowait Queue.items Queue.maxsize
         Queue.qsize List.length AUDIO_QUEUE_MAX_SIZE Z.leb Z.compare Z.of_nat
         Pos.of_succ_nat Pos.succ Pos.compare Pos.compare_cont app tl];
    eval_fields;
    repeat apply conj; try reflexivity;
    try (intros [H | H]; discriminate H);
    try (intros _ _; split; intros H; try (exfalso; lia); split; reflexivity).
Qed.

Lemma send_tick_frame (clock : nat -> Q) (n : Z) (c : GeminiLiveClient) :
  let c' := snd (send_to_api_tick clock n c) in
  _current_screen_fps c' = _current_screen_fps c /\
  audio_queue_in c' = emptied (audio_queue_in c) /\
  video_queue_in c' =
    Queue.mk (Queue.maxsize (video_queue_in c)) (tl (Queue.items (video_queue_in c))).
Proof.
  cbv zeta. rewrite send_to_api_tick_closed_form. cbn [snd].
  unfold tick_result. cbv zeta.
  cbn [_current_screen_fps audio_queue_in video_queue_in]. auto.
Qed.

(** ** Invariants of the transition system *)

Lemma exec_app (w : world) (evs1 evs2 : list event) :
  exec w (evs1 ++ evs2) = exec (exec w evs1) evs2.
Proof. unfold exec. apply fold_left_app. Qed.

Lemma exec_snoc (w : world) (evs : list event) (e : event) :
  exec w (evs ++ [e]) = step (exec w evs) e.
Proof. rewrite exec_app. reflexivity. Qed.

(** How one step changes the content of the audio queue: a chunk read
    while unmuted is appended (after the head is evicted when the queue is
    full), or the content stays, or the queue is emptied. *)
Lemma step_audio_items (w : world) (e : event) :
  queues_bounded (client w) ->
  let l := Queue.items (audio_queue_in (client w)) in
  let l' := Queue.items (audio_queue_in (client (step w e))) in
  (exists mic now, e = MicRead mic now /\ muted (client w) = false /\
     ((List.length l < 5)%nat /\ l' = l ++ [mkTimestampedData mic now]
      \/ (List.length l = 5)%nat /\ l' = tl l ++ [mkTimestampedData mic now]))
  \/ l' = l \/ l' = [].
Proof.
  intros (Ham & Hal & Hvm & Hvl). cbv zeta.
  destruct e as [|now|uuid4 now|now|mic now|img now|now|resp now|now];
    cbn [step client].
  - destruct (client w); eval_fields; auto.
  - destruct (run_reset_state_frame now (client w)) as (_ & H & _).
    rewrite H. auto.
  - destruct (hotkey_press_frame uuid4 now (client w)) as (_ & [[H _] | [H _]]);
      rewrite H; auto.
  - destruct (hotkey_release_frame now (client w)) as (_ & H & _).
    rewrite H; auto.
  - destruct (listen_audio_spec mic now (client w) Ham Hal) as (_ & _ & _ & Hsame & Hdep).
    destruct (muted (client w)) eqn:Hmu; [rewrite Hsame by auto; auto|].
    destruct mic as [|b mic]; [rewrite Hsame by auto; auto|].
    left. exists (b :: mic), now. split; [reflexivity|]. split; [reflexivity|].
    destruct (Hdep ltac:(discriminate) eq_refl) as [Hlt Heq].
    destruct (Nat.eq_dec (List.length (Queue.items (audio_queue_in (client w)))) 5)
      as [E | E].
    + right. split; [exact E|]. exact (proj1 (Heq E)).
    + left. split; [lia|]. apply Hlt. lia.
  - destruct (capture_screen_iter img now (frame_count w) (client w)) as [n c] eqn:E.
    cbn [client].
    destruct (capture_screen_fps img now (frame_count w) (client w)) as (_ & _ & H).
    rewrite E in H. cbn [snd] in H. rewrite H. auto.
  - destruct (send_to_api_tick now (stats_log_counter w) (client w)) as [n c] eqn:E.
    cbn [client].
    destruct (send_tick_frame now (stats_log_counter w) (client w)) as (_ & H & _).
    rewrite E in H. cbn [snd] in H. rewrite H. auto.
  - destruct (receive_frame resp now (client w)) as (_ & H & _).
    rewrite H; auto.
  - auto.
Qed.

Lemma init_inv (push_to_talk : bool) (now : Q) :
  coordinator_inv (client (world_init push_to_talk now)).
Proof.
  unfold coordinator_inv, queues_bounded, fps_bounded. cbn.
  unfold SCREEN_FPS_MIN, SCREEN_FPS. repeat split; try reflexivity; lia.
Qed.

Lemma emptied_bounded (q : Queue.t TimestampedData) (m : Z) (k : nat) :
  Queue.maxsize q = m ->
  Queue.maxsize (emptied q) = m /\
  (List.length (Queue.items (emptied q)) <= k)%nat.
Proof. intros H. unfold emptied. cbn. split; [exact H | lia]. Qed.

Lemma step_inv (w : world) (e : event) :
  coordinator_inv (client w) -> coordinator_inv (client (step w e)).
Proof.
  intros [(Ham & Hal & Hvm & Hvl) [Hlo Hhi]].
  unfold coordinator_inv, queues_bounded, fps_bounded in *.
  destruct e as [|now|uuid4 now|now|mic now|img now|now|resp now|now];
    cbn [step client].
  - destruct (client w); eval_fields; eval_fields_in Ham; eval_fields_in Hal;
      eval_fields_in Hvm; eval_fields_in Hvl; eval_fields_in Hlo;
      eval_fields_in Hhi. auto.
  - destruct (run_reset_state_frame now (client w)) as (Hf & Ha & Hv).
    rewrite Hf, Ha, Hv.
    destruct (emptied_bounded _ _ 5%nat Ham), (emptied_bounded _ _ 1%nat Hvm).
    auto.
  - destruct (hotkey_press_frame uuid4 now (client w))
      as (Hf & [[Ha Hv] | [Ha Hv]]); rewrite Hf, Ha, Hv; auto.
    destruct (emptied_bounded _ _ 5%nat Ham), (emptied_bounded _ _ 1%nat Hvm).
    auto.
  - destruct (hotkey_release_frame now (client w)) as (Hf & Ha & Hv).
    rewrite Hf, Ha, Hv. auto.
  - destruct (listen_audio_spec mic now (client w) Ham Hal)
      as (Hf & Hv & Hm & Hsame & Hdep).
    rewrite Hf, Hv, Hm. repeat apply conj; auto.
    destruct (muted (client w)) eqn:Hmu; [rewrite Hsame by auto; auto|].
    destruct mic as [|b mic]; [rewrite Hsame by auto; auto|].
    destruct (Hdep ltac:(discriminate) eq_refl) as [Hlt Heq].
    destruct (Nat.eq_dec (List.length (Queue.items (audio_queue_in (client w)))) 5)
      as [E | E].
    + rewrite (proj1 (Heq E)).
      destruct (Queue.items (audio_queue_in (client w))); [discriminate E|].
      cbn [tl]. rewrite length_app. cbn in *. lia.
    + rewrite (proj1 (Hlt ltac:(lia))). rewrite length_app. cbn. lia.
  - destruct (capture_screen_iter img now (frame_count w) (client w)) as [n c] eqn:E.
    cbn [client].
    destruct (capture_screen_fps img now (frame_count w) (client w)) as (_ & Hf & Ha).
    destruct (capture_screen_video img now (frame_count w) (client w) Hvm Hvl)
      as (Hv & _).
    rewrite E in Hf, Ha, Hv. cbn [snd] in Hf, Ha, Hv.
    rewrite Hf, Ha, Hv. cbn [Queue.maxsize Queue.items List.length].
    repeat apply conj; auto.
    all: unfold SCREEN_FPS_MIN, SCREEN_FPS in *.
    all: destruct (_ =? 0); [|lia].
    all: destruct (Qgt_bool _ _); [lia|].
    all: destruct (Qlt_bool _ _ && _); lia.
  - destruct (send_to_api_tick now (stats_log_counter w) (client w)) as [n c] eqn:E.
    cbn [client].
    destruct (send_tick_frame now (stats_log_counter w) (client w)) as (Hf & Ha & Hv).
    rewrite E in Hf, Ha, Hv. cbn [snd] in Hf, Ha, Hv.
    rewrite Hf, Ha, Hv.
    destruct (emptied_bounded _ _ 5%nat Ham).
    cbn [Queue.maxsize Queue.items]. repeat apply conj; auto.
    destruct (Queue.items (video_queue_in (client w))); cbn in *; lia.
  - destruct (receive_frame resp now (client w)) as (Hf & Ha & Hv).
    rewrite Hf, Ha, Hv. auto.
  - auto.
Qed.

Lemma exec_inv (evs : list event) :
  forall w : world, coordinator_inv (client w) -> coordinator_inv (client (exec w evs)).
Proof.
  induction evs as [|e evs IH]; intros w H; [exact H|].
  cbn [exec fold_left]. apply (IH (step w e)). apply step_inv. exact H.
Qed.

Lemma reachable_inv (push_to_talk : bool) (t0 : Q) (evs : list event) :
  coordinator_inv (client (exec (world_init push_to_talk t0) evs)).
Proof. apply exec_inv, init_inv. Qed.

(** ** Ingestion queues and the adaptive screen rate *)

(** C4: in every execution, after any deposit of a screen frame the video
    queue holds exactly that frame, whatever the previous occupant and its
    age; the deposit increments the screen drop counter exactly when it
    replaces a frame. *)
Theorem video_queue_latest_only
    (push_to_talk : bool) (t0 : Q) (evs : list event) (img_bytes : bytes) (now : Q) :
  let w := exec (world_init push_to_talk t0) evs in
  let c' := client (step w (ScreenGrab img_bytes now)) in
  (List.length (Queue.items (video_queue_in (client w))) <= 1)%nat /\
  Queue.items (video_queue_in c') = [mkTimestampedData img_bytes now] /\
  _screen_drop_count c' =
    _screen_drop_count (client w) +
    (match Queue.items (video_queue_in (client w)) with [] => 0 | _ :: _ => 1 end).
Proof.
  cbv zeta.
  destruct (reachable_inv push_to_talk t0 evs) as [(_ & _ & Hvm & Hvl) _].
  split; [exact Hvl|].
  cbn [step].
  destruct (capture_screen_video img_bytes now
              (frame_count (exec (world_init push_to_talk t0) evs))
              (client (exec (world_init push_to_talk t0) evs)) Hvm Hvl) as [Hv Hd].
  destruct (capture_screen_iter img_bytes now _ _) as [n c].
  cbn [snd client] in *. rewrite Hv, Hd. split; reflexivity.
Qed.

(** C6: in every execution, and whatever latency window the rate controller
    then reads, [_current_screen_fps] stays within
    [[SCREEN_FPS_MIN, SCREEN_FPS] = [1, 2]]. *)
Theorem adaptive_fps_stays_in_range
    (push_to_talk : bool) (t0 : Q) (evs : list event)
    (window : LatencyStats) (img_bytes : bytes) (now : Q) :
  let w := exec (world_init push_to_talk t0) evs in
  let c' := snd (capture_screen_iter img_bytes now (frame_count w)
                   (set_latency_stats window (client w))) in
  SCREEN_FPS_MIN = 1 /\ SCREEN_FPS = 2 /\
  SCREEN_FPS_MIN <= _current_screen_fps (client w) <= SCREEN_FPS /\
  SCREEN_FPS_MIN <= _current_screen_fps c' <= SCREEN_FPS.
Proof.
  cbv zeta.
  destruct (reachable_inv push_to_talk t0 evs) as [_ Hfps].
  unfold fps_bounded in Hfps.
  repeat apply conj; try reflexivity; try tauto.
  all: destruct (capture_screen_fps img_bytes now
                   (frame_count (exec (world_init push_to_talk t0) evs))
                   (set_latency_stats window
                      (client (exec (world_init push_to_talk t0) evs))))
         as (_ & Hf & _); rewrite Hf.
  all: replace (_current_screen_fps (set_latency_stats window
                  (client (exec (world_init push_to_talk t0) evs))))
         with (_current_screen_fps (client (exec (world_init push_to_talk t0) evs)))
         by (destruct (client (exec (world_init push_to_talk t0) evs)); reflexivity).
  all: unfold SCREEN_FPS_MIN, SCREEN_FPS in *.
  all: destruct (_ =? 0); [|lia].
  all: destruct (Qgt_bool _ _); [lia|].
  all: destruct (Qlt_bool _ _ && _); lia.
Qed.

(** C7, as stated, fails at the boundary: on the 30th frame, with a rolling
    mean screen latency of exactly 400 ms, which is 80% of the 500 ms budget,
    and [current_fps = 2 > fps_min], the rate is left at 2. *)
Lemma fps_kept_at_exactly_80_percent :
  let w := example_world_29_frames in
  let w' := step w (ScreenGrab [] (inject_Z 1)) in
  frame_count w' = 30 /\
  (avg_screen_ms (latency_stats (client w)) == inject_Z 400)%Q /\
  (inject_Z SCREEN_MAX_AGE_MS * (8 # 10) <= avg_screen_ms (latency_stats (client w)))%Q /\
  _current_screen_fps (client w) = 2 /\
  _current_screen_fps (client w') = 2 /\
  _current_screen_fps (client w')
    <> Z.max SCREEN_FPS_MIN (_current_screen_fps (client w) - 1).
Proof.
  cbv zeta. repeat apply conj; try (vm_compute; reflexivity).
  - vm_compute. discriminate.
  - vm_compute. discriminate.
Qed.

(** C7, amended: the rate is adjusted on every 30th captured frame only.
    There, if the rolling mean screen-send latency is strictly above 80% of
    the screen age budget, [current_fps] is decremented, floored at
    [SCREEN_FPS_MIN]; otherwise, if the mean is below 30% of the budget and
    [current_fps] is below [SCREEN_FPS], it is incremented; in every other
    case, and on every other frame, it is unchanged. *)
Theorem adaptive_fps_adjustment
    (img_bytes : bytes) (now : Q) (n : Z) (c : GeminiLiveClient) :
  let n' := fst (capture_screen_iter img_bytes now n c) in
  let fps' := _current_screen_fps (snd (capture_screen_iter img_bytes now n c)) in
  let fps := _current_screen_fps c in
  let mean := avg_screen_ms (latency_stats c) in
  let high := (inject_Z SCREEN_MAX_AGE_MS * (8 # 10))%Q in
  let low := (inject_Z SCREEN_MAX_AGE_MS * (3 # 10))%Q in
  n' = n + 1 /\
  (n' mod 30 <> 0 -> fps' = fps) /\
  (n' mod 30 = 0 ->
   ((high < mean)%Q -> fps' = Z.max SCREEN_FPS_MIN (fps - 1)) /\
   ((mean < low)%Q -> fps < SCREEN_FPS -> fps' = fps + 1) /\
   ((low <= mean)%Q -> (mean <= high)%Q -> fps' = fps) /\
   ((mean <= high)%Q -> SCREEN_FPS <= fps -> fps' = fps)).
Proof.
  cbv zeta.
  destruct (capture_screen_fps img_bytes now n c) as (Hn & Hf & _).
  rewrite Hn, Hf. split; [reflexivity|]. split.
  - intros Hmod. apply Z.eqb_neq in Hmod. rewrite Hmod. reflexivity.
  - intros Hmod. apply Z.eqb_eq in Hmod. rewrite Hmod.
    assert (Hlow_high : (inject_Z SCREEN_MAX_AGE_MS * (3 # 10)
                         < inject_Z SCREEN_MAX_AGE_MS * (8 # 10))%Q)
      by reflexivity.
    repeat apply conj.
    + intros H. apply Qgt_bool_iff in H. rewrite H. reflexivity.
    + intros H Hfps.
      assert (Hle : (avg_screen_ms (latency_stats c)
                     <= inject_Z SCREEN_MAX_AGE_MS * (8 # 10))%Q).
      { apply Qlt_le_weak. eapply Qlt_trans; [exact H | exact Hlow_high]. }
      apply Qgt_bool_false_iff in Hle. rewrite Hle.
      apply Qlt_bool_iff in H. rewrite H.
      apply Z.ltb_lt in Hfps. rewrite Hfps. cbn [andb].
      apply Z.ltb_lt in Hfps. lia.
    + intros Hlo Hhi. apply Qgt_bool_false_iff in Hhi. rewrite Hhi.
      destruct (Qlt_bool _ _) eqn:E; [|reflexivity].
      apply Qlt_bool_iff in E. exfalso. exact (Qlt_not_le _ _ E Hlo).
    + intros Hhi Hfps. apply Qgt_bool_false_iff in Hhi. rewrite Hhi.
      assert (E : (_current_screen_fps c <? SCREEN_FPS) = false)
        by (apply Z.ltb_ge; exact Hfps).
      rewrite E, andb_false_r. reflexivity.
Qed.

Lemma adaptive_fps_adjustment_witness :
  let c := set_latency_stats (mkLatencyStats [] [inject_Z 450] [])
            (GeminiLiveClient_init false (inject_Z 0)) in
  _current_screen_fps (snd (capture_screen_iter [] (inject_Z 1) 29 c)) = 1 /\
  _current_screen_fps
    (snd (capture_screen_iter [] (inject_Z 1) 29
            (set_current_screen_fps 1 (GeminiLiveClient_init false (inject_Z 0))))) = 2 /\
  _current_screen_fps (snd (capture_screen_iter [] (inject_Z 1) 7 c)) = 2.
Proof.
  cbv zeta. repeat apply conj.
  - destruct (adaptive_fps_adjustment [] (inject_Z 1) 29
                (set_latency_stats (mkLatencyStats [] [inject_Z 450] [])
                   (GeminiLiveClient_init false (inject_Z 0))))
      as (_ & _ & H).
    destruct (H eq_refl) as (Hdec & _).
    exact (Hdec eq_refl).
  - destruct (adaptive_fps_adjustment [] (inject_Z 1) 29
                (set_current_screen_fps 1 (GeminiLiveClient_init false (inject_Z 0))))
      as (_ & _ & H).
    destruct (H eq_refl) as (_ & Hinc & _).
    exact (Hinc eq_refl eq_refl).
  - destruct (adaptive_fps_adjustment [] (inject_Z 1) 7
                (set_latency_stats (mkLatencyStats [] [inject_Z 450] [])
                   (GeminiLiveClient_init false (inject_Z 0))))
      as (_ & H & _).
    apply H. vm_compute. discriminate.
Defined.

(** ** Audio gating and drop-oldest *)

Lemma captured_unmuted_snoc (w0 : world) (evs : list event) (e : event)
    (t : TimestampedData) :
  captured_unmuted w0 evs t -> captured_unmuted w0 (evs ++ [e]) t.
Proof.
  intros (pre & post & mic & now & -> & -> & Hmu).
  exists pre, (post ++ [e]), mic, now. rewrite <- app_assoc. auto.
Qed.

Lemma Forall_tl {A : Type} (P : A -> Prop) (l : list A) :
  Forall P l -> Forall P (tl l).
Proof. intros H. destruct H; [constructor | assumption]. Qed.

Lemma audio_queue_captured_unmuted (w0 : world) (evs : list event) :
  coordinator_inv (client w0) ->
  Queue.items (audio_queue_in (client w0)) = [] ->
  Forall (captured_unmuted w0 evs)
    (Queue.items (audio_queue_in (client (exec w0 evs)))).
Proof.
  intros Hinv Hempty.
  induction evs as [|e evs IH] using rev_ind.
  - cbn. rewrite Hempty. constructor.
  - rewrite exec_snoc.
    assert (IH' : Forall (captured_unmuted w0 (evs ++ [e]))
                    (Queue.items (audio_queue_in (client (exec w0 evs))))).
    { eapply Forall_impl; [|exact IH]. intros t. apply captured_unmuted_snoc. }
    destruct (step_audio_items (exec w0 evs) e (proj1 (exec_inv evs w0 Hinv)))
      as [(mic & now & -> & Hmu & Hcase) | [-> | ->]];
      [| exact IH' | constructor].
    assert (Hnew : captured_unmuted w0 (evs ++ [MicRead mic now])
                     (mkTimestampedData mic now)).
    { exists evs, [], mic, now. auto. }
    destruct Hcase as [[_ ->] | [_ ->]]; apply Forall_app; split;
      try (constructor; [exact Hnew | constructor]).
    + exact IH'.
    + apply Forall_tl. exact IH'.
Qed.

(** C10: microphone data read while the client is muted leaves the client
    as it was, so nothing is deposited; and in every execution each chunk
    in the audio queue was read from the microphone at a moment when the
    client was unmuted. *)
Theorem muted_audio_never_queued
    (push_to_talk : bool) (t0 : Q) (evs : list event) (mic : bytes) (now : Q) :
  let w0 := world_init push_to_talk t0 in
  let w := exec w0 evs in
  (muted (client w) = true -> step w (MicRead mic now) = w) /\
  Forall (captured_unmuted w0 evs) (Queue.items (audio_queue_in (client w))) /\
  muted (client w) =
    (if push_to_talk_mode (client w)
     then negb (_ptt_active (client w)) else _muted (client w)).
Proof.
  cbv zeta. repeat apply conj.
  - intros Hmu. cbn [step]. unfold listen_audio_iter. rewrite Hmu.
    rewrite andb_false_r. destruct (exec _ evs). reflexivity.
  - apply audio_queue_captured_unmuted; [apply init_inv | reflexivity].
  - reflexivity.
Qed.

Lemma muted_audio_never_queued_witness :
  step (world_init false (inject_Z 0)) (MicRead [x01; x02] (inject_Z 1))
  = world_init false (inject_Z 0).
Proof.
  exact (proj1 (muted_audio_never_queued false (inject_Z 0) []
                  [x01; x02] (inject_Z 1)) eq_refl).
Defined.

Lemma nondecreasing_snoc (l : list Q) (x : Q) :
  nondecreasing (l ++ [x]) <->
  nondecreasing l /\ Forall (fun y => (y <= x)%Q) l.
Proof.
  induction l as [|a l IH]; cbn.
  - split; [auto | intros _; split; [constructor | exact I]].
  - rewrite IH, Forall_app. split.
    + intros [[Hal Hax] [Hl Hlx]]. repeat split; auto.
      constructor; [|exact Hlx]. inversion Hax; assumption.
    + intros [[Hal Hl] Hlx]. inversion Hlx; subst. repeat split; auto.
Qed.

Lemma nondecreasing_tl (l : list Q) : nondecreasing l -> nondecreasing (tl l).
Proof. destruct l; cbn; tauto. Qed.

Lemma mic_times_snoc (evs : list event) (e : event) :
  mic_times (evs ++ [e]) =
  mic_times evs ++ match e with MicRead _ now => [now] | _ => [] end.
Proof. unfold mic_times. rewrite flat_map_app. cbn. rewrite app_nil_r. reflexivity. Qed.

Lemma nondecreasing_mic_times_snoc (evs : list event) (e : event) :
  nondecreasing (mic_times (evs ++ [e])) -> nondecreasing (mic_times evs).
Proof.
  rewrite mic_times_snoc. destruct e; rewrite ?app_nil_r; auto.
  intros H. apply nondecreasing_snoc in H. tauto.
Qed.

(** With non-decreasing clock readings at the microphone, the audio queue is
    ordered by timestamp, oldest first, and every stamp in it is the reading
    of an earlier microphone read. *)
Lemma audio_queue_oldest_first (w0 : world) (evs : list event) :
  coordinator_inv (client w0) ->
  Queue.items (audio_queue_in (client w0)) = [] ->
  nondecreasing (mic_times evs) ->
  let l := Queue.items (audio_queue_in (client (exec w0 evs))) in
  nondecreasing (map timestamp l) /\
  Forall (fun t => In (timestamp t) (mic_times evs)) l.
Proof.
  intros Hinv Hempty. cbv zeta.
  induction evs as [|e evs IH] using rev_ind; intros Hmono.
  - cbn. rewrite Hempty. cbn. auto.
  - specialize (IH (nondecreasing_mic_times_snoc _ _ Hmono)).
    destruct IH as [Hsorted Hin].
    rewrite exec_snoc.
    assert (Hin' : Forall (fun t => In (timestamp t) (mic_times (evs ++ [e])))
                     (Queue.items (audio_queue_in (client (exec w0 evs))))).
    { eapply Forall_impl; [|exact Hin]. intros t Ht.
      rewrite mic_times_snoc. apply in_or_app. auto. }
    destruct (step_audio_items (exec w0 evs) e (proj1 (exec_inv evs w0 Hinv)))
      as [(mic & now & -> & Hmu & Hcase) | [-> | ->]];
      [| auto | cbn; auto].
    rewrite mic_times_snoc in Hmono. apply nondecreasing_snoc in Hmono.
    destruct Hmono as [_ Hle].
    assert (Hold : Forall (fun y => (y <= now)%Q)
                     (map timestamp
                        (Queue.items (audio_queue_in (client (exec w0 evs)))))).
    { apply Forall_map. eapply Forall_impl; [|exact Hin]. intros t Ht. cbn beta.
      rewrite Forall_forall in Hle. apply Hle. exact Ht. }
    assert (Hnew : In now (mic_times (evs ++ [MicRead mic now]))).
    { rewrite mic_times_snoc. apply in_or_app. right. left. reflexivity. }
    destruct Hcase as [[_ ->] | [_ ->]]; rewrite map_app; cbn [map]; split.
    + apply nondecreasing_snoc. auto.
    + apply Forall_app. split; [exact Hin'|]. constructor; [exact Hnew | constructor].
    + apply nondecreasing_snoc.
      destruct (Queue.items (audio_queue_in (client (exec w0 evs)))) as [|a l];
        [cbn; auto|].
      cbn [tl map nondecreasing] in *. split; [tauto | inversion Hold; assumption].
    + apply Forall_app. split; [apply Forall_tl; exact Hin'|].
      constructor; [exact Hnew | constructor].
Qed.

Lemma audio_full_iff (q : Queue.t TimestampedData) :
  Queue.maxsize q = AUDIO_QUEUE_MAX_SIZE ->
  (Queue.full q = true <-> (5 <= List.length (Queue.items q))%nat).
Proof.
  intros H. unfold Queue.full, Queue.qsize. rewrite H.
  unfold AUDIO_QUEUE_MAX_SIZE. cbn [Z.leb Z.compare].
  rewrite Z.leb_le. lia.
Qed.

(** C3, as stated, fails: the chunk that an overflow deposit evicts is the
    head of the queue, the one deposited first, and not always the oldest by
    timestamp.  The stamps are readings of [time.time()], the wall clock;
    when it is set back between two reads, as in the example (stamps 10, 11,
    12, 13, 5), the sixth deposit evicts the chunk stamped 10 while the
    chunk stamped 5 stays queued. *)
Lemma evicted_chunk_not_oldest_by_timestamp :
  let w := exec (world_init false (inject_Z 0)) example_clock_set_back_events in
  let c := client w in
  let c' := client (step w (MicRead [x06] (inject_Z 14))) in
  Queue.full (audio_queue_in c) = true /\
  Queue.items (audio_queue_in c)
  = [mkTimestampedData [x01] (inject_Z 10); mkTimestampedData [x02] (inject_Z 11);
     mkTimestampedData [x03] (inject_Z 12); mkTimestampedData [x04] (inject_Z 13);
     mkTimestampedData [x05] (inject_Z 5)] /\
  Queue.items (audio_queue_in c')
  = [mkTimestampedData [x02] (inject_Z 11); mkTimestampedData [x03] (inject_Z 12);
     mkTimestampedData [x04] (inject_Z 13); mkTimestampedData [x05] (inject_Z 5);
     mkTimestampedData [x06] (inject_Z 14)] /\
  _audio_drop_count c' = _audio_drop_count c + 1 /\
  (exists evicted kept : TimestampedData,
     In evicted (Queue.items (audio_queue_in c)) /\
     ~ In evicted (Queue.items (audio_queue_in c')) /\
     In kept (Queue.items (audio_queue_in c')) /\
     In kept (Queue.items (audio_queue_in c)) /\
     (timestamp kept < timestamp evicted)%Q).
Proof.
  cbv zeta.
  assert (Hc : Queue.items (audio_queue_in
                 (client (exec (world_init false (inject_Z 0))
                            example_clock_set_back_events)))
               = [mkTimestampedData [x01] (inject_Z 10);
                  mkTimestampedData [x02] (inject_Z 11);
                  mkTimestampedData [x03] (inject_Z 12);
                  mkTimestampedData [x04] (inject_Z 13);
                  mkTimestampedData [x05] (inject_Z 5)])
    by (vm_compute; reflexivity).
  assert (Hc' : Queue.items (audio_queue_in
                  (client (step (exec (world_init false (inject_Z 0))
                                   example_clock_set_back_events)
                             (MicRead [x06] (inject_Z 14)))))
                = [mkTimestampedData [x02] (inject_Z 11);
                   mkTimestampedData [x03] (inject_Z 12);
                   mkTimestampedData [x04] (inject_Z 13);
                   mkTimestampedData [x05] (inject_Z 5);
                   mkTimestampedData [x06] (inject_Z 14)])
    by (vm_compute; reflexivity).
  split; [vm_compute; reflexivity|].
  split; [exact Hc|]. split; [exact Hc'|].
  split; [vm_compute; reflexivity|].
  exists (mkTimestampedData [x01] (inject_Z 10)),
         (mkTimestampedData [x05] (inject_Z 5)).
  rewrite Hc, Hc'. repeat apply conj.
  - left. reflexivity.
  - cbn [In]. intros [H | [H | [H | [H | [H | H]]]]];
      try discriminate H; exact H.
  - cbn [In]. auto.
  - cbn [In]. auto 6.
  - reflexivity.
Qed.

(** C3, amended: in every execution the audio queue never holds more than 5
    chunks.  A chunk deposited while the queue is not full is appended and
    nothing is dropped; a chunk deposited while the queue is full first
    evicts exactly one element, the head of the queue (the chunk deposited
    first), increments the audio drop counter by one, and is then appended.
    When the clock readings at the microphone are non-decreasing, the
    evicted head carries the smallest timestamp of all. *)
Theorem audio_queue_drop_oldest
    (push_to_talk : bool) (t0 : Q) (evs : list event) (mic : bytes) (now : Q) :
  let w := exec (world_init push_to_talk t0) evs in
  let c := client w in
  let c' := client (step w (MicRead mic now)) in
  let l := Queue.items (audio_queue_in c) in
  let new := mkTimestampedData mic now in
  (List.length l <= 5)%nat /\
  (List.length (Queue.items (audio_queue_in c')) <= 5)%nat /\
  (mic <> [] -> muted c = false ->
   (Queue.full (audio_queue_in c) = false ->
    Queue.items (audio_queue_in c') = l ++ [new] /\
    _audio_drop_count c' = _audio_drop_count c) /\
   (Queue.full (audio_queue_in c) = true ->
    exists (oldest : TimestampedData) (rest : list TimestampedData),
      l = oldest :: rest /\
      Queue.items (audio_queue_in c') = rest ++ [new] /\
      _audio_drop_count c' = _audio_drop_count c + 1 /\
      (nondecreasing (mic_times (evs ++ [MicRead mic now])) ->
       Forall (fun x => (timestamp oldest <= timestamp x)%Q) (rest ++ [new])))).
Proof.
  cbv zeta.
  pose proof (reachable_inv push_to_talk t0 evs) as Hinv.
  pose proof (reachable_inv push_to_talk t0 (evs ++ [MicRead mic now])) as Hinv'.
  rewrite exec_snoc in Hinv'.
  destruct Hinv as [(Ham & Hal & _) _]. destruct Hinv' as [(_ & Hal' & _) _].
  split; [exact Hal|]. split; [exact Hal'|].
  intros Hmic Hmu. cbn [step client].
  destruct (listen_audio_spec mic now _ Ham Hal) as (_ & _ & _ & _ & Hdep).
  destruct (Hdep Hmic Hmu) as [Hlt Heq]. clear Hdep.
  pose proof (audio_full_iff _ Ham) as Hfull.
  split.
  - intros Hnf. apply Hlt.
    destruct (le_lt_dec 5 (List.length (Queue.items (audio_queue_in
                (client (exec (world_init push_to_talk t0) evs)))))) as [H5 | H5];
      [|exact H5].
    apply Hfull in H5. congruence.
  - intros Hf. apply Hfull in Hf.
    destruct (Heq ltac:(lia)) as [Hitems Hdrop].
    pose proof (fun H => audio_queue_oldest_first (world_init push_to_talk t0) evs
                  (init_inv push_to_talk t0) eq_refl H) as Hord.
    cbv zeta in Hord.
    destruct (Queue.items (audio_queue_in
                (client (exec (world_init push_to_talk t0) evs))))
      as [|oldest rest]; [cbn in Hf; lia|].
    exists oldest, rest. cbn [tl] in Hitems.
    repeat apply conj; auto.
    intros Hmono. rewrite mic_times_snoc in Hmono.
    apply nondecreasing_snoc in Hmono. destruct Hmono as [Hmono Hle].
    destruct (Hord Hmono) as [Hsorted Hin].
    cbn [map nondecreasing] in Hsorted. destruct Hsorted as [Hhead _].
    apply Forall_app. split.
    + rewrite Forall_map in Hhead. exact Hhead.
    + constructor; [|constructor]. cbn [timestamp].
      inversion Hin as [|? ? Hin0 _]; subst.
      rewrite Forall_forall in Hle. apply Hle. exact Hin0.
Qed.

Lemma audio_queue_drop_oldest_witness :
  let w := exec (world_init false (inject_Z 0)) example_full_queue_events in
  exists (oldest : TimestampedData) (rest : list TimestampedData),
    Queue.items (audio_queue_in (client w)) = oldest :: rest /\
    Queue.items (audio_queue_in (client (step w (MicRead [x06] (inject_Z 6)))))
      = rest ++ [mkTimestampedData [x06] (inject_Z 6)] /\
    Forall (fun x => (timestamp oldest <= timestamp x)%Q)
      (rest ++ [mkTimestampedData [x06] (inject_Z 6)]).
Proof.
  cbv zeta.
  destruct (audio_queue_drop_oldest false (inject_Z 0) example_full_queue_events
              [x06] (inject_Z 6)) as (_ & _ & H).
  destruct (H ltac:(discriminate) eq_refl) as [_ Hfull].
  destruct (Hfull eq_refl) as (oldest & rest & Hl & Hitems & _ & Hmin).
  exists oldest, rest. repeat apply conj; [exact Hl | exact Hitems |].
  apply Hmin. vm_compute.
  repeat apply conj; try exact I; repeat constructor; discriminate.
Defined.

(** * Further properties of the code *)

(** ** Control surface *)

(** [POST /start] is refused with status 409, and changes nothing, exactly
    when a session is running; otherwise it installs a fresh client in the
    requested mode, after which [GET /status] reports that mode and any
    further [POST /start] is refused. *)
Theorem start_session_conflict
    (push_to_talk : bool) (now : Q) (state : Api.SessionState) :
  (Api.is_running state = true ->
   Api.start_session push_to_talk now state =
     (Api.HTTPException 409
        "A session is already running. Stop it first with POST /stop", state)) /\
  (Api.is_running state = false ->
   let state' := snd (Api.start_session push_to_talk now state) in
   fst (Api.start_session push_to_talk now state) =
     Api.Ok (Api.MessageResponse.mk
               ("Session started in " ++ Api.mode_name push_to_talk
                ++ " mode. Use F9 to control mic, F10 to quit.") true) /\
   Api.client state' = Some (GeminiLiveClient_init push_to_talk now) /\
   Api.get_status state' =
     Api.StatusResponse.mk true (Some (Api.mode_name push_to_talk)) /\
   forall (push_to_talk' : bool) (now' : Q),
     Api.start_session push_to_talk' now' state' =
       (Api.HTTPException 409
          "A session is already running. Stop it first with POST /stop", state')).
Proof.
  unfold Api.start_session. split; intros H; rewrite H; [reflexivity|].
  cbn. repeat apply conj; reflexivity.
Qed.

Lemma start_session_conflict_witness :
  Api.get_status
    (snd (Api.start_session false (inject_Z 0) Api.SessionState_init))
  = Api.StatusResponse.mk true (Some "Toggle Mute"%string).
Proof.
  destruct (proj2 (start_session_conflict false (inject_Z 0) Api.SessionState_init)
              eq_refl) as (_ & _ & H & _).
  exact H.
Defined.

(** [POST /stop] is refused with status 404, and changes nothing, when no
    session is running.  Otherwise it asks the client to shut down (when
    there is one), cancels a pending task, and leaves the initial state, of
    which [GET /status] reports no session and no mode.  The shutdown
    request cancels every task of the event loop, those of the server
    included, exactly when the loop of the client is running.  When it does
    not, the server goes on: a second [POST /stop] is refused, and
    [POST /start] is accepted again. *)
Theorem stop_session_round_trip
    (push_to_talk : bool) (now : Q) (state : Api.SessionState) :
  (Api.is_running state = false ->
   Api.stop_session_endpoint state =
     (Api.HTTPException 404 "No session is currently running", [], state)) /\
  (Api.is_running state = true ->
   let '(response, effects, state') := Api.stop_session_endpoint state in
   response = Api.Ok (Api.MessageResponse.mk "Session stopped successfully" false) /\
   state' = Api.SessionState_init /\
   (Api.client state <> None -> In Api.RequestShutdown effects) /\
   (Api.task state = Some Api.Pending -> In Api.CancelTask effects) /\
   (In Api.CancelAllTasks effects <->
    exists c : GeminiLiveClient,
      Api.client state = Some c /\ loop_is_running c = true) /\
   Api.get_status state' = Api.StatusResponse.mk false None /\
   (~ In Api.CancelAllTasks effects ->
    fst (fst (Api.stop_session_endpoint state')) =
      Api.HTTPException 404 "No session is currently running" /\
    Api.is_running (snd (Api.start_session push_to_talk now state')) = true)).
Proof.
  unfold Api.stop_session_endpoint, Api.stop_session, request_shutdown.
  split; intros H; rewrite H; [reflexivity|]. cbn [negb].
  repeat apply conj; try reflexivity.
  - intros Hc. destruct (Api.client state); [left; reflexivity | congruence].
  - intros Ht. rewrite Ht. apply in_or_app. right. left. reflexivity.
  - intros Hin. apply in_app_or in Hin. destruct Hin as [Hin | Hin].
    + destruct (Api.client state) as [c|]; [|destruct Hin].
      exists c. split; [reflexivity|].
      destruct (loop_is_running c); [reflexivity|].
      destruct Hin as [Hin | []]. discriminate Hin.
    + destruct (Api.task state) as [[|]|]; cbn [In] in Hin.
      * destruct Hin as [Hin | []]. discriminate Hin.
      * destruct Hin.
      * destruct Hin.
  - intros (c & Hc & Hrun). rewrite Hc, Hrun. right. left. reflexivity.
  - intros _. split; reflexivity.
Qed.

Lemma stop_session_round_trip_witness :
  let started := snd (Api.start_session true (inject_Z 0) Api.SessionState_init) in
  let running := Api.handle started (Api.ClientProgress RunStarted 0 0) in
  snd (Api.stop_session_endpoint started) = Api.SessionState_init /\
  fst (Api.stop_session_endpoint started)
  = (Api.Ok (Api.MessageResponse.mk "Session stopped successfully" false),
     [Api.RequestShutdown; Api.CancelTask]) /\
  In Api.CancelAllTasks (snd (fst (Api.stop_session_endpoint running))).
Proof.
  cbv zeta.
  pose proof (proj2 (stop_session_round_trip true (inject_Z 0)
                       (snd (Api.start_session true (inject_Z 0)
                               Api.SessionState_init))) eq_refl) as H.
  pose proof (proj2 (stop_session_round_trip true (inject_Z 0)
                       (Api.handle
                          (snd (Api.start_session true (inject_Z 0)
                                  Api.SessionState_init))
                          (Api.ClientProgress RunStarted 0 0))) eq_refl) as H'.
  destruct (Api.stop_session_endpoint
              (snd (Api.start_session true (inject_Z 0) Api.SessionState_init)))
    as [[response effects] state'] eqn:E.
  destruct (Api.stop_session_endpoint (Api.handle _ _))
    as [[response' effects'] state''].
  destruct H as (_ & Hs & _). destruct H' as (_ & _ & _ & _ & Hall & _).
  split; [exact Hs|]. split.
  - vm_compute in E. injection E as <- <- _. reflexivity.
  - apply Hall. eexists. split; reflexivity.
Defined.

(** [POST /toggle-mute] is refused with 404 when no session is running and
    with 400 when the client is in push-to-talk mode, in both cases leaving
    the state, the client included, untouched.  In toggle mode it toggles
    the client and reports the state reached: "unmuted" from a muted client,
    "muted" from an unmuted one. *)
Theorem toggle_mute_endpoint
    (uuid4 : string) (now : Q) (state : Api.SessionState) :
  ((Api.is_running state = false \/ Api.client state = None) ->
   Api.toggle_mute uuid4 now state =
     (Api.HTTPException 404 "No session is currently running", state)) /\
  (forall c : GeminiLiveClient,
     Api.is_running state = true -> Api.client state = Some c ->
     (push_to_talk_mode c = true ->
      Api.toggle_mute uuid4 now state =
        (Api.HTTPException 400
           "Cannot toggle mute in Push-to-Talk mode. Use the F9 hotkey instead.",
         state)) /\
     (push_to_talk_mode c = false ->
      Api.toggle_mute uuid4 now state =
        (Api.Ok (Api.MessageResponse.mk
                   (if _muted c then "Microphone unmuted" else "Microphone muted")
                   true),
         Api.mkSessionState (Some (toggle_mute uuid4 now c)) (Api.task state) true))).
Proof.
  unfold Api.toggle_mute. split.
  - intros [H | H]; rewrite H; [reflexivity|].
    destruct (Api.is_running state); reflexivity.
  - intros c Hr Hc. rewrite Hr, Hc. split; intros Hm; rewrite Hm; [reflexivity|].
    f_equal. f_equal. f_equal.
    unfold muted, toggle_mute. destruct c; eval_fields_in Hm; subst.
    eval_fields. destruct _muted0; eval_fields; [reflexivity|].
    destruct (turn_id_truthy _current_turn_id0 && _); eval_fields;
      [|reflexivity].
    unfold _request_turn_end. eval_fields.
    destruct loop_is_running0; reflexivity.
Qed.

Lemma toggle_mute_endpoint_witness :
  fst (Api.toggle_mute uuid_a (inject_Z 1)
         (snd (Api.start_session true (inject_Z 0) Api.SessionState_init)))
  = Api.HTTPException 400
      "Cannot toggle mute in Push-to-Talk mode. Use the F9 hotkey instead.".
Proof.
  destruct (proj2 (toggle_mute_endpoint uuid_a (inject_Z 1)
                     (snd (Api.start_session true (inject_Z 0) Api.SessionState_init)))
              (GeminiLiveClient_init true (inject_Z 0)) eq_refl eq_refl) as [H _].
  rewrite (H eq_refl). reflexivity.
Defined.

(** ** Session supervisor, beyond connect-time failures *)

Lemma run_loop_cons_alive (rc : Z) (o : attempt) (rest : list attempt) :
  rc < max_reconnects ->
  run_loop rc (o :: rest) =
    match o with
    | NotRunning => ([Cleanup], None)
    | ConnectFailed =>
        if rc + 1 <? max_reconnects
        then (Connecting (rc + 1) :: Sleep (Z.min 30 (2 ^ (rc + 1)))
                :: fst (run_loop (rc + 1) rest),
              snd (run_loop (rc + 1) rest))
        else ([Connecting (rc + 1); GiveUp; Cleanup], None)
    | SessionFailed =>
        (Connecting (rc + 1) :: ResetState :: CancelTasks :: fst (run_loop 0 rest),
         snd (run_loop 0 rest))
    | SessionCancelled =>
        ([Connecting (rc + 1); ResetState; CancelTasks; Cleanup], None)
    | ConnectCancelled => ([Connecting (rc + 1); Propagate], None)
    | BackoffCancelled =>
        if rc + 1 <? max_reconnects
        then ([Connecting (rc + 1); Sleep (Z.min 30 (2 ^ (rc + 1))); Propagate],
              None)
        else ([Connecting (rc + 1); GiveUp; Cleanup], None)
    | TeardownCancelled =>
        ([Connecting (rc + 1); ResetState; CancelTasks; Propagate], None)
    end.
Proof.
  intros H. apply Z.ltb_lt in H. cbn [run_loop]. rewrite H. cbn [negb].
  destruct o; try reflexivity.
  - destruct (rc + 1 <? max_reconnects); [|reflexivity].
    destruct (run_loop (rc + 1) rest); reflexivity.
  - destruct (run_loop 0 rest); reflexivity.
Qed.

Lemma run_loop_exhausted (rc : Z) (outcomes : list attempt) :
  max_reconnects <= rc -> run_loop rc outcomes = ([Cleanup], None).
Proof.
  intros H. apply Z.ltb_ge in H. destruct outcomes; cbn [run_loop]; rewrite H;
    reflexivity.
Qed.

(** Failures in mid-session are retried without bound: however many
    sessions fail in a row after connecting, the loop stays alive with the
    attempt counter at 0, never sleeps and never gives up. *)
Theorem mid_session_failures_retry_forever (n : nat) :
  snd (run (repeat SessionFailed n)) = Some 0 /\
  sleeps (fst (run (repeat SessionFailed n))) = [] /\
  ~ In GiveUp (fst (run (repeat SessionFailed n))) /\
  ~ In Cleanup (fst (run (repeat SessionFailed n))).
Proof.
  unfold run. induction n as [|n IH]; [cbn; tauto|].
  cbn [repeat]. rewrite run_loop_cons_alive by reflexivity. cbn [fst snd].
  destruct IH as (Hs & Hsl & Hg & Hc). repeat apply conj.
  - exact Hs.
  - cbn. exact Hsl.
  - intros [H | [H | [H | H]]]; try discriminate H. exact (Hg H).
  - intros [H | [H | [H | H]]]; try discriminate H. exact (Hc H).
Qed.

(** A connection that was established, even one that later failed, restores
    the whole budget of connect attempts: whatever the counter was, after it
    the loop again survives four connect failures, with the waits 2, 4, 8,
    16 starting over, and gives up at the fifth. *)
Theorem connect_budget_restored (rc : Z) (n : nat) :
  rc < max_reconnects ->
  let r := run_loop rc (SessionFailed :: repeat ConnectFailed n) in
  sleeps (fst r) = firstn n [2; 4; 8; 16] /\
  ((n < 5)%nat -> snd r = Some (Z.of_nat n)) /\
  ((5 <= n)%nat -> snd r = None /\ In GiveUp (fst r)).
Proof.
  intros Hrc. cbv zeta. rewrite run_loop_cons_alive by exact Hrc.
  cbn [fst snd].
  destruct n as [|[|[|[|[|m]]]]].
  1-5: (split; [reflexivity|]; split; [intros _; reflexivity | intros H; lia]).
  split; [reflexivity|]. split; [lia|]. intros _. split; [reflexivity|].
  right. right. right. change (In GiveUp (fst (run (repeat ConnectFailed (5 + m))))).
  cbn. tauto.
Qed.

Lemma connect_budget_restored_witness :
  snd (run_loop 4 (SessionFailed :: repeat ConnectFailed 4)) = Some 4.
Proof.
  exact (proj1 (proj2 (connect_budget_restored 4 4 eq_refl)) ltac:(lia)).
Defined.

(** Whatever the outcomes of the passes, every wait the supervisor makes is
    2, 4, 8 or 16 seconds: the cap of 30 seconds never applies. *)
Theorem backoff_waits_bounded (outcomes : list attempt) :
  forall rc : Z, 0 <= rc ->
    Forall (fun w => In w [2; 4; 8; 16] /\ w < 30)
      (sleeps (fst (run_loop rc outcomes))).
Proof.
  induction outcomes as [|o rest IH]; intros rc Hrc.
  - cbn [run_loop]. destruct (rc <? max_reconnects); constructor.
  - destruct (Z_lt_le_dec rc max_reconnects) as [Hlt | Hge].
    + rewrite run_loop_cons_alive by exact Hlt.
      destruct o; cbn [fst]; try (cbn; repeat constructor; fail).
      * destruct (rc + 1 <? max_reconnects) eqn:E; cbn [fst];
          [|cbn; constructor].
        apply Z.ltb_lt in E. unfold max_reconnects in *.
        change (sleeps (Connecting (rc + 1) :: Sleep (Z.min 30 (2 ^ (rc + 1)))
                          :: fst (run_loop (rc + 1) rest)))
          with (Z.min 30 (2 ^ (rc + 1)) :: sleeps (fst (run_loop (rc + 1) rest))).
        constructor; [|apply IH; lia].
        assert (Hcases : rc = 0 \/ rc = 1 \/ rc = 2 \/ rc = 3) by lia.
        destruct Hcases as [-> | [-> | [-> | ->]]]; cbn; split; try lia; tauto.
      * change (sleeps (Connecting (rc + 1) :: ResetState :: CancelTasks
                          :: fst (run_loop 0 rest)))
          with (sleeps (fst (run_loop 0 rest))).
        apply IH. lia.
      * destruct (rc + 1 <? max_reconnects) eqn:E; cbn [fst];
          [|cbn; constructor].
        apply Z.ltb_lt in E. unfold max_reconnects in *.
        change (sleeps [Connecting (rc + 1); Sleep (Z.min 30 (2 ^ (rc + 1)));
                        Propagate])
          with [Z.min 30 (2 ^ (rc + 1))].
        constructor; [|constructor].
        assert (Hcases : rc = 0 \/ rc = 1 \/ rc = 2 \/ rc = 3) by lia.
        destruct Hcases as [-> | [-> | [-> | ->]]]; cbn; split; try lia; tauto.
    + rewrite run_loop_exhausted by exact Hge. cbn. constructor.
Qed.

Lemma backoff_waits_bounded_witness :
  Forall (fun w => In w [2; 4; 8; 16] /\ w < 30)
    (sleeps (fst (run_loop 2 [ConnectFailed; SessionFailed; ConnectFailed]))).
Proof.
  exact (backoff_waits_bounded [ConnectFailed; SessionFailed; ConnectFailed] 2
           ltac:(lia)).
Defined.

(** The loop is left, by [break] or by its condition, with the cleanup,
    which is then the last action and occurs once.  A cancellation delivered
    while [run] awaits the connection, the backoff sleep or the teardown of
    a session is caught nowhere: [run] ends there with the exception and
    without the cleanup, and this is the only way to miss it.  While the
    loop is alive nothing of the two has happened, and the attempt counter
    is below the maximum. *)
Theorem cleanup_marks_exit (outcomes : list attempt) :
  forall rc : Z,
    let tr := fst (run_loop rc outcomes) in
    match snd (run_loop rc outcomes) with
    | None =>
        exists (pre : list supervisor_action) (last : supervisor_action),
          tr = pre ++ [last] /\ ~ In Cleanup pre /\ ~ In Propagate pre /\
          (last = Cleanup \/
           last = Propagate /\ Exists cancelled_outside_gather outcomes)
    | Some k =>
        ~ In Cleanup tr /\ ~ In Propagate tr /\
        k < max_reconnects /\ (0 <= rc -> 0 <= k)
    end /\
    (rc < max_reconnects ->
     forall rest : list attempt,
       run_loop rc (ConnectCancelled :: rest)
       = ([Connecting (rc + 1); Propagate], None) /\
       run_loop rc (TeardownCancelled :: rest)
       = ([Connecting (rc + 1); ResetState; CancelTasks; Propagate], None) /\
       (rc + 1 < max_reconnects ->
        run_loop rc (BackoffCancelled :: rest)
        = ([Connecting (rc + 1); Sleep (Z.min 30 (2 ^ (rc + 1))); Propagate],
           None))).
Proof.
  assert (Hexit : forall outcomes : list attempt,
            exists (pre : list supervisor_action) (last : supervisor_action),
              [Cleanup] = pre ++ [last] /\ ~ In Cleanup pre /\
              ~ In Propagate pre /\
              (last = Cleanup \/
               last = Propagate /\ Exists cancelled_outside_gather outcomes))
    by (intros l; exists [], Cleanup; repeat split; auto).
  intros rc. cbv zeta. split.
  - revert rc. induction outcomes as [|o rest IH]; intros rc.
    + cbn [run_loop]. destruct (rc <? max_reconnects) eqn:E; cbn [fst snd];
        [|apply Hexit].
      apply Z.ltb_lt in E. repeat split; auto.
    + destruct (Z_lt_le_dec rc max_reconnects) as [Hlt | Hge];
        [|rewrite run_loop_exhausted by exact Hge; apply Hexit].
      rewrite run_loop_cons_alive by exact Hlt.
      destruct o; cbn [fst snd].
      * destruct (rc + 1 <? max_reconnects); cbn [fst snd].
        -- specialize (IH (rc + 1)).
           destruct (snd (run_loop (rc + 1) rest)) as [k|].
           ++ destruct IH as (Hc & Hp & Hk & Hpos). repeat apply conj.
              ** intros [H | [H | H]]; try discriminate H. exact (Hc H).
              ** intros [H | [H | H]]; try discriminate H. exact (Hp H).
              ** exact Hk.
              ** intros Hrc. apply Hpos. lia.
           ++ destruct IH as (pre & last & -> & Hc & Hp & Hlast).
              exists (Connecting (rc + 1) :: Sleep (Z.min 30 (2 ^ (rc + 1))) :: pre),
                     last.
              repeat apply conj.
              ** reflexivity.
              ** intros [H | [H | H]]; try discriminate H. exact (Hc H).
              ** intros [H | [H | H]]; try discriminate H. exact (Hp H).
              ** destruct Hlast as [H | [H He]]; [left; exact H|].
                 right. split; [exact H | apply Exists_cons_tl; exact He].
        -- exists [Connecting (rc + 1); GiveUp], Cleanup. repeat apply conj.
           ++ reflexivity.
           ++ intros [H | [H | H]]; try discriminate H. exact H.
           ++ intros [H | [H | H]]; try discriminate H. exact H.
           ++ left. reflexivity.
      * specialize (IH 0).
        destruct (snd (run_loop 0 rest)) as [k|].
        -- destruct IH as (Hc & Hp & Hk & Hpos). repeat apply conj.
           ++ intros [H | [H | [H | H]]]; try discriminate H. exact (Hc H).
           ++ intros [H | [H | [H | H]]]; try discriminate H. exact (Hp H).
           ++ exact Hk.
           ++ intros _. apply Hpos. lia.
        -- destruct IH as (pre & last & -> & Hc & Hp & Hlast).
           exists (Connecting (rc + 1) :: ResetState :: CancelTasks :: pre), last.
           repeat apply conj.
           ++ reflexivity.
           ++ intros [H | [H | [H | H]]]; try discriminate H. exact (Hc H).
           ++ intros [H | [H | [H | H]]]; try discriminate H. exact (Hp H).
           ++ destruct Hlast as [H | [H He]]; [left; exact H|].
              right. split; [exact H | apply Exists_cons_tl; exact He].
      * exists [Connecting (rc + 1); ResetState; CancelTasks], Cleanup.
        repeat apply conj.
        -- reflexivity.
        -- intros [H | [H | [H | H]]]; try discriminate H. exact H.
        -- intros [H | [H | [H | H]]]; try discriminate H. exact H.
        -- left. reflexivity.
      * apply Hexit.
      * exists [Connecting (rc + 1)], Propagate. repeat apply conj.
        -- reflexivity.
        -- intros [H | H]; try discriminate H. exact H.
        -- intros [H | H]; try discriminate H. exact H.
        -- right. split; [reflexivity|]. apply Exists_cons_hd. left. reflexivity.
      * destruct (rc + 1 <? max_reconnects); cbn [fst snd].
        -- exists [Connecting (rc + 1); Sleep (Z.min 30 (2 ^ (rc + 1)))], Propagate.
           repeat apply conj.
           ++ reflexivity.
           ++ intros [H | [H | H]]; try discriminate H. exact H.
           ++ intros [H | [H | H]]; try discriminate H. exact H.
           ++ right. split; [reflexivity|]. apply Exists_cons_hd.
              right. left. reflexivity.
        -- exists [Connecting (rc + 1); GiveUp], Cleanup. repeat apply conj.
           ++ reflexivity.
           ++ intros [H | [H | H]]; try discriminate H. exact H.
           ++ intros [H | [H | H]]; try discriminate H. exact H.
           ++ left. reflexivity.
      * exists [Connecting (rc + 1); ResetState; CancelTasks], Propagate.
        repeat apply conj.
        -- reflexivity.
        -- intros [H | [H | [H | H]]]; try discriminate H. exact H.
        -- intros [H | [H | [H | H]]]; try discriminate H. exact H.
        -- right. split; [reflexivity|]. apply Exists_cons_hd.
           right. right. reflexivity.
  - intros Hlt rest. rewrite !run_loop_cons_alive by exact Hlt.
    repeat apply conj; try reflexivity.
    intros H. apply Z.ltb_lt in H. rewrite H. reflexivity.
Qed.

(** ** Latency statistics *)

(** The screen-latency window is a rolling window: after any sequence of
    recorded samples it holds, in order, the most recent ones, 50 at most,
    and recording a screen latency touches no other window. *)
Theorem rolling_window_keeps_latest (samples : list Q) (s : LatencyStats) :
  (List.length (screen_capture_to_send s) <= 50)%nat ->
  let s' := fold_left (fun s ms => add_screen_latency ms s) samples s in
  (exists older : list Q,
     screen_capture_to_send s ++ samples = older ++ screen_capture_to_send s') /\
  List.length (screen_capture_to_send s')
  = Nat.min 50 (List.length (screen_capture_to_send s) + List.length samples) /\
  audio_capture_to_send s' = audio_capture_to_send s /\
  model_response_latency s' = model_response_latency s.
Proof.
  intros Hlen. cbv zeta.
  destruct (add_screen_latency_windows samples s) as (H1 & H2 & H3).
  rewrite H1, H2, H3.
  destruct (fold_deque_append_suffix LATENCY_WINDOW_SIZE samples ltac:(unfold LATENCY_WINDOW_SIZE; lia)
              (screen_capture_to_send s) Hlen) as (older & Ho & Hl).
  repeat apply conj; auto. exists older. exact Ho.
Qed.

Lemma rolling_window_keeps_latest_witness :
  List.length
    (screen_capture_to_send
       (fold_left (fun s ms => add_screen_latency ms s)
          (repeat (inject_Z 120) 60) LatencyStats_init)) = 50%nat.
Proof.
  destruct (rolling_window_keeps_latest (repeat (inject_Z 120) 60) LatencyStats_init
              ltac:(cbn; lia)) as (_ & H & _).
  rewrite H. reflexivity.
Defined.

(** ** The operations in closed form *)

Lemma route_parts_closed_form (parts : list Part) :
  forall c : GeminiLiveClient,
    fold_left route_part parts c
    = set_audio_queue_out (audio_queue_out c ++ playback_data parts) c.
Proof.
  induction parts as [|p parts IH]; intros c; cbn [fold_left playback_data flat_map].
  - rewrite app_nil_r. destruct c; reflexivity.
  - rewrite IH. unfold route_part.
    destruct (inline_data p); destruct c; eval_fields;
      rewrite <- ?app_assoc; reflexivity.
Qed.

Lemma receive_closed_form (response : Response) (now : Q) (c : GeminiLiveClient) :
  receive_from_api_iter response now c = receive_result response now c.
Proof.
  unfold receive_from_api_iter, receive_result. cbv zeta.
  destruct (server_content response) as [[mt tc]|]; [|reflexivity].
  cbn [model_turn turn_complete].
  destruct mt as [parts|].
  - rewrite route_parts_closed_form.
    destruct c; eval_fields.
    destruct (Qgt_bool _last_turn_end_time0 (inject_Z 0)); eval_fields;
      destruct tc; reflexivity.
  - destruct c; eval_fields. cbn [playback_data flat_map orb].
    rewrite app_nil_r. destruct tc; reflexivity.
Qed.

Lemma listen_audio_footprint (mic : bytes) (now : Q) (c : GeminiLiveClient) :
  exists (q : Queue.t TimestampedData) (d : Z),
    listen_audio_iter mic now c = set_audio_drop_count d (set_audio_queue_in q c) /\
    _audio_drop_count c <= d.
Proof.
  unfold listen_audio_iter. cbv zeta.
  destruct (negb (Nat.eqb (List.length mic) 0) && negb (muted c)).
  - destruct c; eval_fields.
    destruct (Queue.full audio_queue_in0);
      [destruct (Queue.get_nowait audio_queue_in0) as [[old q']|]|];
      eval_fields;
      match goal with
      | |- context [Queue.put_nowait ?x ?q] =>
          destruct (Queue.put_nowait x q) as [q''|]
      end; eval_fields;
      do 2 eexists; (split; [reflexivity | lia]).
  - exists (audio_queue_in c), (_audio_drop_count c).
    destruct c; eval_fields. split; [reflexivity | lia].
Qed.

Lemma capture_screen_footprint
    (img_bytes : bytes) (now : Q) (n : Z) (c : GeminiLiveClient) :
  exists (q : Queue.t TimestampedData) (d f : Z),
    snd (capture_screen_iter img_bytes now n c)
    = set_current_screen_fps f (set_screen_drop_count d (set_video_queue_in q c)) /\
    _screen_drop_count c <= d /\
    (f = _current_screen_fps c
     \/ f = Z.max SCREEN_FPS_MIN (_current_screen_fps c - 1)
     \/ f = Z.min SCREEN_FPS (_current_screen_fps c + 1)).
Proof.
  unfold capture_screen_iter, adapt_screen_fps. cbv zeta. cbn [snd].
  destruct c; eval_fields.
  destruct (Queue.full video_queue_in0);
    [destruct (Queue.get_nowait video_queue_in0) as [[old q']|]|];
    eval_fields.
  all: match goal with
       | |- context [Queue.put_nowait ?x ?q] =>
           destruct (Queue.put_nowait x q) as [q''|]
       end; eval_fields.
  all: destruct ((n + 1) mod 30 =? 0); eval_fields;
    [ destruct (Qgt_bool _ _); eval_fields;
      [ | destruct (Qlt_bool _ _ && _); eval_fields ] | ].
  all: do 3 eexists; (split; [reflexivity | split; [lia | tauto]]).
Qed.

(** Every step of the coordinator changes the client in one of the ways of
    [client_step]. *)
Lemma step_client_step (w : world) (e : event) :
  client_step (client w) (client (step w e)).
Proof.
  destruct e as [|now|uuid4 now|now|mic now|img now|now|resp now|now];
    cbn [step client].
  - apply cs_loop.
  - apply cs_connected.
  - unfold _on_hotkey_press_f9.
    destruct (push_to_talk_mode (client w)) eqn:Hmode.
    + unfold _on_ptt_press. destruct (_ptt_active (client w)) eqn:Hp;
        [apply cs_none | apply cs_press; assumption].
    + unfold toggle_mute. destruct (_muted (client w)) eqn:Hm.
      * apply cs_unmute; assumption.
      * exact (cs_mute (client w) now Hmode Hm).
  - unfold _on_hotkey_release_f9.
    destruct (push_to_talk_mode (client w)) eqn:Hmode; [|apply cs_none].
    unfold _on_ptt_release. destruct (_ptt_active (client w)) eqn:Hp;
      cbn [negb]; [|apply cs_none].
    pose proof (cs_release (client w) now Hmode Hp) as H.
    unfold closing in H.
    assert (E1 : _current_turn_id (set_ptt_active false (client w))
                 = _current_turn_id (client w))
      by (destruct (client w); reflexivity).
    assert (E2 : _audio_chunks_sent_this_turn (set_ptt_active false (client w))
                 = _audio_chunks_sent_this_turn (client w))
      by (destruct (client w); reflexivity).
    rewrite E1, E2 in H |- *.
    destruct (turn_id_truthy (_current_turn_id (client w)));
      destruct (0 <? _audio_chunks_sent_this_turn (client w)); exact H.
  - destruct (listen_audio_footprint mic now (client w)) as (q & d & -> & Hd).
    apply cs_listen. exact Hd.
  - destruct (capture_screen_footprint img now (frame_count w) (client w))
      as (q & d & f & Heq & Hd & Hf).
    destruct (capture_screen_iter img now (frame_count w) (client w)) as [n c].
    cbn [snd client] in *. rewrite Heq. apply cs_capture; assumption.
  - rewrite send_to_api_tick_closed_form. cbn [client]. apply cs_tick.
  - rewrite receive_closed_form. apply cs_receive.
  - apply cs_none.
Qed.

Lemma exec_preserves (P : GeminiLiveClient -> Prop) :
  (forall c c' : GeminiLiveClient, client_step c c' -> P c -> P c') ->
  forall (evs : list event) (w : world), P (client w) -> P (client (exec w evs)).
Proof.
  intros Hstep. induction evs as [|e evs IH]; intros w Hw; [exact Hw|].
  cbn [exec fold_left]. apply (IH (step w e)).
  exact (Hstep _ _ (step_client_step w e) Hw).
Qed.

(** ** Further invariants of the transition system *)

Ltac eval_fields_all :=
  cbv beta iota zeta delta [
    set_push_to_talk_mode set_audio_queue_out set_audio_queue_in
    set_video_queue_in set_running set_muted set_ptt_active
    set_current_turn_id set_turn_end_requested set_last_turn_end_time
    set_audio_chunks_sent_this_turn set_silence_chunks_to_send
    set_latency_stats set_last_response_time set_current_screen_fps
    set_audio_drop_count set_screen_drop_count set_loop_is_running
    set_session_sent push_to_talk_mode audio_queue_out audio_queue_in
    video_queue_in running _muted _ptt_active _current_turn_id
    _turn_end_requested _last_turn_end_time _audio_chunks_sent_this_turn
    _silence_chunks_to_send latency_stats _last_response_time
    _current_screen_fps _audio_drop_count _screen_drop_count loop_is_running
    session_sent ] in *.

Lemma counters_ok_step (c c' : GeminiLiveClient) :
  client_step c c' -> counters_ok c -> counters_ok c'.
Proof.
  intros Hstep. unfold counters_ok.
  destruct Hstep; intros ((Hs0 & Hs7) & Hc & Ha & Hv).
  all: unfold run_reset_state, closing, _request_turn_end, _clear_audio_queue,
         _clear_video_queue, tick_result, receive_result, silence_chunks,
         SEND_SILENCE_AFTER_PTT_MS in *.
  all: destruct c; eval_fields_all.
  all: try (repeat apply conj; lia).
  - destruct (turn_id_truthy _ && _); eval_fields;
      [destruct loop_is_running0; eval_fields|];
      cbn; repeat apply conj; lia.
  - destruct (turn_id_truthy _ && _); eval_fields;
      [destruct loop_is_running0; eval_fields|];
      cbn; repeat apply conj; lia.
  - unfold late_frames. cbn [video_queue_in].
    destruct (0 <? _silence_chunks_to_send0) eqn:E;
      [apply Z.ltb_lt in E | apply Z.ltb_ge in E];
      destruct (Queue.items video_queue_in0) as [|v vl];
      try destruct (negb _ && negb _); repeat apply conj; lia.
  - destruct (server_content response) as [sc|]; eval_fields;
      repeat apply conj; lia.
Qed.

Lemma deque_append_keeps (P : Q -> Prop) (n : nat) (d : list Q) (x : Q) :
  (0 < n)%nat -> (List.length d <= n)%nat -> Forall P d -> P x ->
  (List.length (deque_append n d x) <= n)%nat /\ Forall P (deque_append n d x).
Proof.
  intros Hn Hlen Hd Hx.
  destruct (deque_append_suffix n d x Hn Hlen) as (_ & _ & Hl).
  split; [lia|]. unfold deque_append.
  destruct (n <=? List.length d)%nat; apply Forall_app; split;
    try (constructor; [exact Hx | constructor]);
    [apply Forall_tl; exact Hd | exact Hd].
Qed.

Lemma fold_deque_append_keeps (P : Q -> Prop) (n : nat) (samples : list Q) :
  (0 < n)%nat -> Forall P samples ->
  forall d : list Q, (List.length d <= n)%nat -> Forall P d ->
    (List.length (fold_left (deque_append n) samples d) <= n)%nat /\
    Forall P (fold_left (deque_append n) samples d).
Proof.
  intros Hn Hs. induction Hs as [|x samples Hx _ IH]; intros d Hlen Hd;
    cbn [fold_left]; [auto|].
  destruct (deque_append_keeps P n d x Hn Hlen Hd Hx) as [Hl Hf].
  exact (IH _ Hl Hf).
Qed.

Lemma windows_ok_step (c c' : GeminiLiveClient) :
  client_step c c' -> windows_ok c -> windows_ok c'.
Proof.
  intros Hstep. unfold windows_ok.
  destruct Hstep; intros (Hla & Hls & Hlr & Hfs).
  all: unfold run_reset_state, closing, _request_turn_end, _clear_audio_queue,
         _clear_video_queue in *.
  1-9: destruct c; eval_fields_all;
    repeat match goal with
           | |- context [if ?b then _ else _] => destruct b; eval_fields
           end; auto.
  - (* tick *)
    unfold tick_result. cbn [latency_stats].
    set (fresh := filter (audio_fresh clock)
                    (numbered 0 (Queue.items (audio_queue_in c)))).
    set (now := frame_reading clock c).
    destruct (record_audio_windows clock fresh (latency_stats c)) as (Ha & Hs & Hr).
    destruct (fold_deque_append_keeps (fun _ => True) LATENCY_WINDOW_SIZE
                (map (fun kt => age_ms (clock (fst kt + 1)%nat) (snd kt)) fresh)
                ltac:(unfold LATENCY_WINDOW_SIZE; lia)
                ltac:(apply Forall_forall; auto) _ Hla
                ltac:(apply Forall_forall; auto))
      as [Hla' _].
    rewrite <- Ha in Hla'. rewrite <- Hs in Hls, Hfs. rewrite <- Hr in Hlr.
    clearbody fresh.
    set (s1 := fold_left (record_audio clock) fresh (latency_stats c)) in *.
    clearbody s1.
    unfold frame_to_send.
    destruct (Queue.items (video_queue_in c)) as [|v vl]; cbn [fold_left]; [auto|].
    destruct (negb (muted c)); cbn [andb fold_left]; [|auto].
    destruct (screen_fresh now v) eqn:Ev; cbn [fold_left]; [|auto].
    unfold screen_fresh in Ev. apply negb_true_iff, Qgt_bool_false_iff in Ev.
    destruct (deque_append_keeps _ LATENCY_WINDOW_SIZE _ (age_ms now v)
                ltac:(unfold LATENCY_WINDOW_SIZE; lia) Hls Hfs Ev) as [Hls' Hfs'].
    unfold record_screen, add_screen_latency. destruct s1; cbn in *. auto.
  - (* receive *)
    unfold receive_result.
    destruct (server_content response) as [sc|];
      [|destruct c; eval_fields_all; auto].
    cbv zeta.
    destruct (match model_turn sc with
              | Some _ => Qgt_bool (_last_turn_end_time c) (inject_Z 0)
              | None => false
              end); destruct c; eval_fields_all; auto.
    destruct (deque_append_keeps (fun _ => True) LATENCY_WINDOW_SIZE
                (model_response_latency latency_stats0)
                ((now - _last_turn_end_time0) * inject_Z 1000)%Q
                ltac:(unfold LATENCY_WINDOW_SIZE; lia) Hlr
                ltac:(apply Forall_forall; auto) I) as [Hlr' _].
    destruct latency_stats0; cbn in *. auto.
Qed.

Lemma mode_ok_step (push_to_talk : bool) (c c' : GeminiLiveClient) :
  client_step c c' -> mode_ok push_to_talk c -> mode_ok push_to_talk c'.
Proof.
  intros Hstep. unfold mode_ok.
  destruct Hstep; intros (Hm & Hp & Hmu).
  all: unfold run_reset_state, closing, _request_turn_end, _clear_audio_queue,
         _clear_video_queue, tick_result, receive_result in *.
  all: try (destruct (server_content response) as [sc|]).
  all: destruct c; eval_fields_all;
    repeat match goal with
           | |- context [if ?b then _ else _] => destruct b; eval_fields
           end;
    repeat apply conj; auto; intros; subst; congruence.
Qed.

Lemma turn_known_step (c c' : GeminiLiveClient) :
  client_step c c' -> turn_known c -> turn_known c'.
Proof.
  intros Hstep. unfold turn_known, muted.
  destruct Hstep; intros (Hmu & Hlte).
  all: unfold run_reset_state, closing, _request_turn_end, _clear_audio_queue,
         _clear_video_queue, tick_result, receive_result in *.
  all: try (destruct (server_content response) as [sc|]).
  all: destruct c; eval_fields_all; subst; eval_fields_all.
  all: destruct (turn_id_truthy _current_turn_id0) eqn:Ht;
    destruct (0 <? _audio_chunks_sent_this_turn0);
    destruct loop_is_running0; cbn [andb]; eval_fields.
  all: repeat match goal with
              | |- context [if ?b then _ else _] => destruct b; eval_fields
              end.
  all: try (split; [assumption || (intros; discriminate) | assumption || auto]).
  all: try (split; [intros; discriminate | right; discriminate]).
  all: try (split; [intros; discriminate|]; right;
            destruct _current_turn_id0; [discriminate | discriminate Ht]).
  all: try (split; [assumption|]; left; reflexivity).
  all: right; discriminate.
Qed.

Lemma grown_from_step (c0 c c' : GeminiLiveClient) :
  client_step c c' -> grown_from c0 c -> grown_from c0 c'.
Proof.
  intros Hstep. unfold grown_from.
  destruct Hstep; intros (Ha & Hv & (sent & Hsent) & (played & Hplayed)).
  all: unfold run_reset_state, closing, _request_turn_end, _clear_audio_queue,
         _clear_video_queue, tick_result, receive_result in *.
  all: try (destruct (server_content response) as [sc|]).
  all: destruct c; eval_fields_all; subst; eval_fields_all.
  all: destruct (turn_id_truthy _current_turn_id0);
    destruct (0 <? _audio_chunks_sent_this_turn0);
    destruct loop_is_running0; cbn [andb]; eval_fields.
  all: repeat apply conj; try lia.
  all: try (exists sent; reflexivity); try (exists played; reflexivity).
  all: try (rewrite app_assoc; eexists; reflexivity).
  all: try (eexists; rewrite <- app_assoc; reflexivity).
  all: unfold late_frames; cbn [video_queue_in];
    destruct (Queue.items video_queue_in0); try destruct (negb _ && negb _); lia.
Qed.

Lemma init_windows_ok (push_to_talk : bool) (now : Q) :
  windows_ok (GeminiLiveClient_init push_to_talk now).
Proof. unfold windows_ok. cbn. repeat split; try lia; constructor. Qed.

(** In every execution the three latency windows hold at most 50 samples,
    and no recorded screen send latency exceeds the screen age budget of
    500 ms: the age of a frame is read once and serves both the test and
    the record.  The audio window has no such bound: the age of a chunk is
    read again after the send, so a chunk that passed the 200 ms test can be
    recorded with a larger latency, as in the example execution. *)
Theorem recorded_latencies_within_budgets
    (push_to_talk : bool) (t0 : Q) (evs : list event) :
  let s := latency_stats (client (exec (world_init push_to_talk t0) evs)) in
  (List.length (audio_capture_to_send s) <= 50)%nat /\
  (List.length (screen_capture_to_send s) <= 50)%nat /\
  (List.length (model_response_latency s) <= 50)%nat /\
  Forall (fun ms => (ms <= inject_Z 500)%Q) (screen_capture_to_send s) /\
  (exists ms : Q,
     audio_capture_to_send
       (latency_stats (client (exec (world_init false (inject_Z 0))
                                 example_slow_send_events))) = [ms] /\
     (inject_Z 200 < ms)%Q).
Proof.
  cbv zeta.
  pose proof (exec_preserves windows_ok windows_ok_step evs
                (world_init push_to_talk t0) (init_windows_ok push_to_talk t0))
    as (Hla & Hls & Hlr & Hfs).
  repeat apply conj; auto.
  eexists. split; [vm_compute; reflexivity | reflexivity].
Qed.

(** In every execution the pending silence counter stays between 0 and 7,
    and the chunk counter of the turn and both drop counters are never
    negative. *)
Theorem counters_stay_in_range
    (push_to_talk : bool) (t0 : Q) (evs : list event) :
  let c := client (exec (world_init push_to_talk t0) evs) in
  0 <= _silence_chunks_to_send c <= 7 /\
  0 <= _audio_chunks_sent_this_turn c /\
  0 <= _audio_drop_count c /\
  0 <= _screen_drop_count c.
Proof.
  apply (exec_preserves counters_ok counters_ok_step evs
           (world_init push_to_talk t0)).
  unfold counters_ok. cbn. lia.
Qed.

(** The control mode chosen at construction never changes, and each mode
    drives its own flag only: in toggle mode the push-to-talk flag stays
    clear, in push-to-talk mode the mute flag stays set.  In toggle mode a
    release of the key therefore changes nothing. *)
Theorem control_modes_separate
    (push_to_talk : bool) (t0 : Q) (evs : list event) (now : Q) :
  let w := exec (world_init push_to_talk t0) evs in
  push_to_talk_mode (client w) = push_to_talk /\
  (push_to_talk = false ->
   _ptt_active (client w) = false /\
   muted (client w) = _muted (client w) /\
   step w (HotkeyReleaseF9 now) = w) /\
  (push_to_talk = true ->
   _muted (client w) = true /\
   muted (client w) = negb (_ptt_active (client w))).
Proof.
  cbv zeta.
  pose proof (exec_preserves (mode_ok push_to_talk) (mode_ok_step push_to_talk) evs
                (world_init push_to_talk t0)) as H.
  destruct H as (Hm & Hp & Hmu).
  { unfold mode_ok. cbn. auto. }
  unfold muted. rewrite Hm. repeat apply conj; auto.
  - intros ->. repeat apply conj; auto.
    cbn [step]. unfold _on_hotkey_release_f9. rewrite Hm.
    destruct (exec _ evs); reflexivity.
  - intros ->. auto.
Qed.

Lemma control_modes_separate_witness :
  _ptt_active
    (client (exec (world_init false (inject_Z 0))
               [RunStarted; HotkeyPressF9 uuid_a (inject_Z 1);
                HotkeyReleaseF9 (inject_Z 2)])) = false.
Proof.
  exact (proj1 (proj1 (proj2 (control_modes_separate false (inject_Z 0)
                                [RunStarted; HotkeyPressF9 uuid_a (inject_Z 1);
                                 HotkeyReleaseF9 (inject_Z 2)] (inject_Z 3)))
                  eq_refl)).
Defined.

(** In every execution an unmuted client has a turn id, and so has a client
    that awaits a response; the second test of the watchdog is therefore
    never the one that keeps it quiet: whenever a response is outstanding
    for more than 30 s, the check raises. *)
Theorem turn_known_while_unmuted_or_waiting
    (push_to_talk : bool) (t0 : Q) (evs : list event) (now : Q) :
  let c := client (exec (world_init push_to_talk t0) evs) in
  (muted c = false -> _current_turn_id c <> None) /\
  ((inject_Z 0 < _last_turn_end_time c)%Q -> _current_turn_id c <> None) /\
  ((inject_Z 0 < _last_turn_end_time c)%Q ->
   (inject_Z 30 < now - _last_turn_end_time c)%Q ->
   stall_raised (stall_detector_check now c)
   = Some (now - _last_turn_end_time c)%Q).
Proof.
  cbv zeta.
  pose proof (exec_preserves turn_known turn_known_step evs
                (world_init push_to_talk t0)) as H.
  destruct H as (Hmu & Hlte).
  { unfold turn_known. cbn. split; [destruct push_to_talk; discriminate | auto]. }
  assert (Hid : (inject_Z 0 < _last_turn_end_time
                   (client (exec (world_init push_to_talk t0) evs)))%Q ->
                _current_turn_id (client (exec (world_init push_to_talk t0) evs))
                <> None).
  { intros Hpos. destruct Hlte as [E | Hid]; [|exact Hid].
    rewrite E in Hpos. discriminate Hpos. }
  repeat apply conj; auto.
  intros Hpos Hwait. specialize (Hid Hpos).
  unfold stall_detector_check.
  apply Qgt_bool_iff in Hpos. rewrite Hpos.
  destruct (_current_turn_id _); [|congruence]. cbn [andb stall_raised].
  change (inject_Z (STALL_TIMEOUT_S * 2)) with (inject_Z 30).
  apply Qgt_bool_iff in Hwait. rewrite Hwait. reflexivity.
Qed.

Lemma turn_known_while_unmuted_or_waiting_witness :
  _current_turn_id
    (client (exec (world_init false (inject_Z 0))
               [RunStarted; HotkeyPressF9 uuid_a (inject_Z 1)])) <> None.
Proof.
  exact (proj1 (turn_known_while_unmuted_or_waiting false (inject_Z 0)
                  [RunStarted; HotkeyPressF9 uuid_a (inject_Z 1)] (inject_Z 2))
           eq_refl).
Defined.

(** Over any stretch of an execution, reconnections included, the two drop
    counters never decrease, and the trace of the transport and the
    playback queue are only appended to. *)
Theorem drops_and_traces_only_grow (w : world) (evs : list event) :
  let c := client w in
  let c' := client (exec w evs) in
  _audio_drop_count c <= _audio_drop_count c' /\
  _screen_drop_count c <= _screen_drop_count c' /\
  (exists sent, session_sent c' = session_sent c ++ sent) /\
  (exists played, audio_queue_out c' = audio_queue_out c ++ played).
Proof.
  apply (exec_preserves (grown_from (client w)) (grown_from_step (client w)) evs w).
  unfold grown_from. repeat apply conj; try lia; exists []; symmetry;
    apply app_nil_r.
Qed.

Lemma client_step_keeps_mode (c c' : GeminiLiveClient) :
  client_step c c' -> push_to_talk_mode c' = push_to_talk_mode c.
Proof.
  intros Hstep. destruct Hstep.
  all: unfold run_reset_state, closing, _request_turn_end, _clear_audio_queue,
         _clear_video_queue, tick_result, receive_result in *.
  all: try (destruct (server_content response) as [sc|]).
  all: destruct c; eval_fields_all.
  all: destruct (turn_id_truthy _current_turn_id0);
    destruct (0 <? _audio_chunks_sent_this_turn0);
    destruct loop_is_running0; cbn [andb]; eval_fields; reflexivity.
Qed.

(** ** Control surface, over sequences of requests *)

(** Whatever requests were served, the state of the control surface is
    consistent: a session is marked running exactly when a client and a task
    are installed, and [GET /status] names a mode exactly when a session is
    running. *)
Theorem control_surface_consistent (rs : list Api.request) :
  let state := Api.serve Api.SessionState_init rs in
  (Api.is_running state = true <-> Api.client state <> None) /\
  (Api.is_running state = true <-> Api.task state <> None) /\
  (Api.StatusResponse.mode (Api.get_status state) <> None
   <-> Api.is_running state = true) /\
  Api.StatusResponse.is_running (Api.get_status state) = Api.is_running state.
Proof.
  cbv zeta.
  assert (Hinv : forall (rs : list Api.request) (s : Api.SessionState),
            ((Api.is_running s = true <-> Api.client s <> None) /\
             (Api.is_running s = true <-> Api.task s <> None)) ->
            (Api.is_running (Api.serve s rs) = true
             <-> Api.client (Api.serve s rs) <> None) /\
            (Api.is_running (Api.serve s rs) = true
             <-> Api.task (Api.serve s rs) <> None)).
  { clear rs. induction rs as [|r rs IH]; intros s Hs; [exact Hs|].
    cbn [Api.serve fold_left]. apply (IH (Api.handle s r)). clear IH.
    destruct s as [cl tk run]. cbn [Api.is_running Api.client Api.task] in Hs.
    destruct Hs as [Hc Ht].
    destruct r as [ptt now| | |uuid4 now| |e n m]; cbn [Api.handle].
    - unfold Api.start_session. cbn [Api.is_running].
      destruct run; cbn [snd Api.is_running Api.client Api.task];
        [tauto | split; split; intros; congruence].
    - unfold Api.stop_session_endpoint, Api.stop_session. cbn [Api.is_running].
      destruct run; cbn [negb snd Api.is_running Api.client Api.task];
        [split; split; intros; congruence | tauto].
    - cbn [Api.is_running Api.client Api.task]. tauto.
    - unfold Api.toggle_mute. cbn [Api.is_running Api.client Api.task].
      destruct run; [|cbn [snd Api.is_running Api.client Api.task]; tauto].
      destruct cl as [c|]; [|cbn [snd Api.is_running Api.client Api.task]; tauto].
      destruct (push_to_talk_mode c);
        cbn [snd Api.is_running Api.client Api.task];
        [tauto | split; [split; intros; congruence | tauto]].
    - unfold Api.run_client_finished. cbn. split; split; intros; congruence.
    - cbn [Api.client]. destruct cl as [c|];
        cbn [Api.is_running Api.client Api.task]; [|tauto].
      split; [split; intros; [discriminate | apply Hc; discriminate] | exact Ht]. }
  destruct (Hinv rs Api.SessionState_init) as [Hc Ht].
  { cbn. split; split; intros; congruence. }
  split; [exact Hc|]. split; [exact Ht|]. split; [|reflexivity].
  unfold Api.get_status. cbn [Api.StatusResponse.mode].
  destruct (Api.is_running (Api.serve Api.SessionState_init rs)) eqn:Hr.
  - destruct (Api.client (Api.serve Api.SessionState_init rs)) as [c|].
    + split; intros; [reflexivity | discriminate].
    + exfalso. apply (proj1 Hc); reflexivity.
  - split; intros H; [exfalso; apply H; reflexivity | discriminate H].
Qed.

(** While a session runs, what [GET /status] reports is not changed by a
    status request, by a mute toggle, accepted or refused, or by any
    progress of the running client. *)
Theorem status_stable_while_running (state : Api.SessionState) (r : Api.request) :
  (forall (push_to_talk : bool) (now : Q), r <> Api.Start push_to_talk now) ->
  r <> Api.Stop -> r <> Api.ClientFinished ->
  Api.get_status (Api.handle state r) = Api.get_status state.
Proof.
  intros Hstart Hstop Hfin. destruct state as [cl tk run].
  destruct r as [ptt now| | |uuid4 now| |e n m]; cbn [Api.handle].
  - exfalso. exact (Hstart ptt now eq_refl).
  - congruence.
  - reflexivity.
  - unfold Api.toggle_mute. cbn [Api.is_running Api.client Api.task].
    destruct run; [|reflexivity]. destruct cl as [c|]; [|reflexivity].
    destruct (push_to_talk_mode c) eqn:Hm; [reflexivity|].
    cbn [snd]. unfold Api.get_status. cbn [Api.is_running Api.client].
    replace (push_to_talk_mode (toggle_mute uuid4 now c))
      with (push_to_talk_mode c); [reflexivity|].
    symmetry.
    pose proof (step_client_step (mkWorld c 0 0) (HotkeyPressF9 uuid4 now)) as H.
    cbn [step client] in H. unfold _on_hotkey_press_f9 in H. rewrite Hm in H.
    exact (client_step_keeps_mode _ _ H).
  - congruence.
  - cbn [Api.client]. destruct cl as [c|]; [|reflexivity].
    unfold Api.get_status. cbn [Api.is_running Api.client Api.task].
    unfold Api.client_of.
    rewrite (client_step_keeps_mode _ _ (step_client_step (mkWorld c n m) e)).
    reflexivity.
Qed.

Lemma status_stable_while_running_witness :
  Api.get_status
    (Api.handle (snd (Api.start_session false (inject_Z 0) Api.SessionState_init))
       (Api.ToggleMute uuid_a (inject_Z 1)))
  = Api.StatusResponse.mk true (Some "Toggle Mute"%string).
Proof.
  rewrite (status_stable_while_running
             (snd (Api.start_session false (inject_Z 0) Api.SessionState_init))
             (Api.ToggleMute uuid_a (inject_Z 1))
             ltac:(discriminate) ltac:(discriminate) ltac:(discriminate)).
  reflexivity.
Defined.

(** ** Egress and ingress, over several iterations *)

(** Once a turn is closed and its audio is drained, the pending silence is
    sent one chunk per tick and then stops: after [k] ticks the counter is
    [max(0, n - k)] and exactly [min(n, k)] chunks of silence, each of 2048
    zero bytes, have been handed to the transport, and nothing else. *)
Theorem silence_padding_countdown (ticks : list (nat -> Q)) :
  forall w : world,
    Queue.items (audio_queue_in (client w)) = [] ->
    Queue.items (video_queue_in (client w)) = [] ->
    0 <= _silence_chunks_to_send (client w) ->
    let n := _silence_chunks_to_send (client w) in
    let k := Z.of_nat (List.length ticks) in
    let c' := client (exec w (map SendTick ticks)) in
    _silence_chunks_to_send c' = Z.max 0 (n - k) /\
    session_sent c' =
      session_sent (client w)
        ++ repeat (audio silence_data) (Z.to_nat (Z.min n k)) /\
    List.length silence_data = 2048%nat /\
    Forall (fun b => b = x00) silence_data.
Proof.
  assert (Hsil : List.length silence_data = 2048%nat /\
                 Forall (fun b => b = x00) silence_data).
  { unfold silence_data. split; [apply repeat_length|].
    apply Forall_forall. intros b Hb. exact (repeat_spec _ _ _ Hb). }
  induction ticks as [|t ticks IH]; intros w Ha Hv Hn; cbv zeta.
  - cbn [map exec fold_left List.length Z.of_nat].
    rewrite Z.min_r by lia. cbn [Z.to_nat repeat]. rewrite app_nil_r.
    repeat apply conj; try tauto. lia.
  - cbn [map exec fold_left]. change (fold_left step (map SendTick ticks) ?x)
      with (exec x (map SendTick ticks)).
    assert (Hstep : client (step w (SendTick t)) = tick_result t (client w)).
    { cbn [step]. rewrite send_to_api_tick_closed_form. reflexivity. }
    specialize (IH (step w (SendTick t))). rewrite Hstep in IH.
    unfold tick_result in IH. cbn [audio_queue_in video_queue_in
      _silence_chunks_to_send session_sent] in IH.
    unfold frame_to_send, emptied in IH. rewrite Ha, Hv in IH.
    cbn [Queue.items tl filter map List.length numbered] in IH.
    rewrite !app_nil_r in IH.
    destruct (0 <? _silence_chunks_to_send (client w)) eqn:E;
      [apply Z.ltb_lt in E | apply Z.ltb_ge in E].
    + destruct (IH eq_refl eq_refl ltac:(lia)) as (H1 & H2 & _).
      rewrite H1, H2. repeat apply conj; try tauto.
      * cbn [List.length]. lia.
      * rewrite <- app_assoc. f_equal.
        replace (Z.to_nat (Z.min (_silence_chunks_to_send (client w))
                             (Z.of_nat (List.length (t :: ticks)))))
          with (S (Z.to_nat (Z.min (_silence_chunks_to_send (client w) - 1)
                               (Z.of_nat (List.length ticks)))))
          by (cbn [List.length]; lia).
        reflexivity.
    + destruct (IH eq_refl eq_refl ltac:(lia)) as (H1 & H2 & _).
      rewrite app_nil_r in H2.
      rewrite H1, H2. repeat apply conj; try tauto.
      * cbn [List.length]. lia.
      * f_equal.
        replace (Z.to_nat (Z.min (_silence_chunks_to_send (client w))
                             (Z.of_nat (List.length (t :: ticks))))) with 0%nat
          by lia.
        replace (Z.to_nat (Z.min (_silence_chunks_to_send (client w))
                             (Z.of_nat (List.length ticks)))) with 0%nat by lia.
        reflexivity.
Qed.

Lemma silence_padding_countdown_witness :
  let w := mkWorld
             (_on_ptt_release (inject_Z 1) (set_ptt_active true example_active_client))
             0 0 in
  _silence_chunks_to_send
    (client (exec w (map SendTick (repeat (fun _ => inject_Z 2) 9)))) = 0 /\
  session_sent (client (exec w (map SendTick (repeat (fun _ => inject_Z 2) 9))))
  = repeat (audio silence_data) 7.
Proof.
  cbv zeta.
  destruct (silence_padding_countdown (repeat (fun _ => inject_Z 2) 9)
              (mkWorld
                 (_on_ptt_release (inject_Z 1)
                    (set_ptt_active true example_active_client)) 0 0)
              eq_refl eq_refl ltac:(vm_compute; discriminate)) as (H1 & H2 & _).
  split; [exact H1 | exact H2].
Defined.



(** The statistics of [send_to_api] are logged on every 500th tick: the
    local counter of the loop, which the log resets, equals the number of
    ticks made modulo 500. *)
Theorem stats_logged_every_500_ticks (ticks : list (nat -> Q)) :
  forall w : world,
    0 <= stats_log_counter w < 500 ->
    stats_log_counter (exec w (map SendTick ticks))
    = (stats_log_counter w + Z.of_nat (List.length ticks)) mod 500.
Proof.
  induction ticks as [|t ticks IH]; intros w Hw.
  - cbn [map exec fold_left List.length Z.of_nat]. rewrite Z.add_0_r.
    symmetry. apply Z.mod_small. exact Hw.
  - cbn [map exec fold_left]. change (fold_left step (map SendTick ticks) ?x)
      with (exec x (map SendTick ticks)).
    assert (Hstep : stats_log_counter (step w (SendTick t))
                    = if 500 <=? stats_log_counter w + 1 then 0
                      else stats_log_counter w + 1).
    { cbn [step]. rewrite send_to_api_tick_closed_form. reflexivity. }
    rewrite IH; rewrite Hstep.
    + cbn [List.length]. rewrite Nat2Z.inj_succ.
      destruct (500 <=? stats_log_counter w + 1) eqn:E;
        [apply Z.leb_le in E | apply Z.leb_gt in E].
      * replace (stats_log_counter w + Z.succ (Z.of_nat (List.length ticks)))
          with (Z.of_nat (List.length ticks) + 1 * 500) by lia.
        rewrite Z.mod_add by lia. reflexivity.
      * f_equal. lia.
    + destruct (500 <=? stats_log_counter w + 1) eqn:E;
        [apply Z.leb_le in E | apply Z.leb_gt in E]; lia.
Qed.

Lemma stats_logged_every_500_ticks_witness :
  stats_log_counter
    (exec (world_init false (inject_Z 0)) (map SendTick (repeat (fun _ => inject_Z 1) 3)))
  = 3.
Proof.
  rewrite (stats_logged_every_500_ticks (repeat (fun _ => inject_Z 1) 3)
             (world_init false (inject_Z 0)) ltac:(cbn; lia)).
  reflexivity.
Defined.

(** The response latency of a turn is recorded once: handling a response
    with model content records the latency since the turn end if a response
    was awaited, and nothing otherwise, and leaves no response awaited; a
    further response then records no latency, and the watchdog stays
    quiet. *)
Theorem response_latency_recorded_once
    (r1 r2 : Response) (t1 t2 : Q) (c : GeminiLiveClient)
    (sc : ServerContent) (parts : list Part) :
  server_content r1 = Some sc -> model_turn sc = Some parts ->
  let c1 := receive_from_api_iter r1 t1 c in
  let c2 := receive_from_api_iter r2 t2 c1 in
  Qgt_bool (_last_turn_end_time c1) (inject_Z 0) = false /\
  model_response_latency (latency_stats c1) =
    (if Qgt_bool (_last_turn_end_time c) (inject_Z 0)
     then deque_append LATENCY_WINDOW_SIZE (model_response_latency (latency_stats c))
            ((t1 - _last_turn_end_time c) * inject_Z 1000)%Q
     else model_response_latency (latency_stats c)) /\
  latency_stats c2 = latency_stats c1 /\
  stall_detector_check t2 c1 = mkStallCheck [] None.
Proof.
  intros Hsc Hmt. cbv zeta. rewrite !receive_closed_form.
  set (c1 := receive_result r1 t1 c).
  assert (Hquiet : Qgt_bool (_last_turn_end_time c1) (inject_Z 0) = false).
  { subst c1. unfold receive_result. rewrite Hsc, Hmt. cbv zeta.
    destruct c; eval_fields.
    destruct (Qgt_bool _last_turn_end_time0 (inject_Z 0)) eqn:E; cbn [orb];
      [reflexivity|].
    destruct (turn_complete sc); [reflexivity | exact E]. }
  repeat apply conj.
  - exact Hquiet.
  - subst c1. unfold receive_result. rewrite Hsc, Hmt. cbv zeta.
    destruct c; eval_fields.
    destruct (Qgt_bool _last_turn_end_time0 (inject_Z 0)); [|reflexivity].
    destruct latency_stats0; reflexivity.
  - unfold receive_result at 1. clearbody c1.
    destruct (server_content r2) as [sc2|]; [|destruct c1; reflexivity].
    cbv zeta. rewrite Hquiet.
    destruct (model_turn sc2); destruct c1; reflexivity.
  - unfold stall_detector_check. rewrite Hquiet. reflexivity.
Qed.

Lemma response_latency_recorded_once_witness :
  model_response_latency
    (latency_stats
       (receive_from_api_iter
          (mkResponse (Some (mkServerContent (Some [mkPart (Some [x01]) None]) false)))
          (inject_Z 102) example_waiting_client))
  = [((inject_Z 102 - inject_Z 100) * inject_Z 1000)%Q].
Proof.
  destruct (response_latency_recorded_once
              (mkResponse (Some (mkServerContent (Some [mkPart (Some [x01]) None]) false)))
              (mkResponse None) (inject_Z 102) (inject_Z 103) example_waiting_client
              (mkServerContent (Some [mkPart (Some [x01]) None]) false)
              [mkPart (Some [x01]) None] eq_refl eq_refl) as (_ & H & _).
  rewrite H. reflexivity.
Defined.

Lemma step_playback (w : world) (e : event) :
  audio_queue_out (client (step w e))
  = audio_queue_out (client w) ++ event_playback e.
Proof.
  destruct e as [|now|uuid4 now|now|mic now|img now|now|resp now|now];
    cbn [step client event_playback]; rewrite ?app_nil_r.
  - destruct (client w); reflexivity.
  - unfold run_reset_state, _clear_audio_queue, _clear_video_queue.
    destruct (client w); reflexivity.
  - unfold _on_hotkey_press_f9, _on_ptt_press, toggle_mute, _request_turn_end,
      _clear_audio_queue, _clear_video_queue.
    destruct (client w); eval_fields.
    destruct push_to_talk_mode0, _ptt_active0, _muted0; eval_fields;
      try reflexivity.
    all: destruct (turn_id_truthy _current_turn_id0 && _); eval_fields;
      try reflexivity.
    all: destruct loop_is_running0; reflexivity.
  - unfold _on_hotkey_release_f9, _on_ptt_release, _request_turn_end.
    destruct (client w); eval_fields.
    destruct push_to_talk_mode0, _ptt_active0; eval_fields; try reflexivity.
    all: destruct (turn_id_truthy _current_turn_id0); eval_fields;
      try reflexivity.
    all: destruct (0 <? _audio_chunks_sent_this_turn0); eval_fields;
      try reflexivity.
    all: destruct loop_is_running0; reflexivity.
  - destruct (listen_audio_footprint mic now (client w)) as (q & d & -> & _).
    destruct (client w); reflexivity.
  - destruct (capture_screen_footprint img now (frame_count w) (client w))
      as (q & d & f & Heq & _).
    destruct (capture_screen_iter img now (frame_count w) (client w)) as [n c].
    cbn [snd client] in *. rewrite Heq. destruct (client w); reflexivity.
  - rewrite send_to_api_tick_closed_form. reflexivity.
  - rewrite receive_closed_form. unfold receive_result.
    destruct (server_content resp) as [sc|];
      [|rewrite app_nil_r; destruct (client w); reflexivity].
    destruct (model_turn sc); destruct (client w); reflexivity.
  - reflexivity.
Qed.

(** In every execution the playback queue receives exactly the audio
    payloads of the model turns of the responses, in their order of
    arrival; no other activity of the coordinator touches it, and a
    response without content or with text parts only adds nothing. *)
Theorem playback_queue_in_arrival_order (evs : list event) :
  forall w : world,
    audio_queue_out (client (exec w evs))
    = audio_queue_out (client w) ++ flat_map event_playback evs.
Proof.
  induction evs as [|e evs IH]; intros w.
  - cbn. rewrite app_nil_r. reflexivity.
  - cbn [exec fold_left flat_map].
    change (fold_left step evs (step w e)) with (exec (step w e) evs).
    rewrite IH, step_playback, app_assoc. reflexivity.
Qed.

Lemma quiescent_step (w : world) (e : event) :
  is_hotkey e = false -> quiescent (client w) ->
  quiescent (client (step w e)) /\
  session_sent (client (step w e)) = session_sent (client w).
Proof.
  intros He (Hmu & Ha & Hs). unfold quiescent.
  destruct e as [|now|uuid4 now|now|mic now|img now|now|resp now|now];
    try discriminate He; cbn [step client].
  - unfold muted in *. destruct (client w); eval_fields_all. auto.
  - unfold run_reset_state, _clear_audio_queue, _clear_video_queue, muted in *.
    destruct (client w); eval_fields_all. rewrite !clear_queue_spec.
    cbn [Queue.items]. destruct push_to_talk_mode0; repeat apply conj;
      try reflexivity; lia.
  - unfold listen_audio_iter. rewrite Hmu, andb_false_r. auto.
  - destruct (capture_screen_footprint img now (frame_count w) (client w))
      as (q & d & f & Heq & _).
    destruct (capture_screen_iter img now (frame_count w) (client w)) as [n c].
    cbn [snd client] in *. rewrite Heq. unfold muted in *.
    destruct (client w); eval_fields_all. auto.
  - rewrite send_to_api_tick_closed_form. cbn [client].
    unfold tick_result, frame_to_send, emptied.
    assert (E : (0 <? _silence_chunks_to_send (client w)) = false)
      by (apply Z.ltb_ge; exact Hs).
    rewrite E, Ha, Hmu. cbn [negb andb filter map List.length].
    assert (Hframe : match Queue.items (video_queue_in (client w)) with
                     | [] => []
                     | _ :: _ => []
                     end = (@nil TimestampedData))
      by (destruct (Queue.items (video_queue_in (client w))); reflexivity).
    rewrite Hframe. cbn [map fold_left]. rewrite !app_nil_r.
    unfold muted in *. destruct (client w); eval_fields_all.
    cbn [Queue.items]. auto.
  - rewrite receive_closed_form. unfold receive_result, muted in *.
    destruct (server_content resp) as [sc|]; destruct (client w);
      eval_fields_all; auto.
  - auto.
Qed.

(** While the client is idle (muted, no audio queued, no silence pending)
    nothing is handed to the transport, and it stays idle, whatever the
    microphone, the screen capture, the egress ticks, the responses and the
    watchdog do, until a hotkey event arrives.  A freshly constructed client
    is idle, and every new connection makes it idle. *)
Theorem nothing_sent_while_idle (evs : list event) :
  forall w : world,
    quiescent (client w) ->
    Forall (fun e => is_hotkey e = false) evs ->
    session_sent (client (exec w evs)) = session_sent (client w) /\
    quiescent (client (exec w evs)) /\
    (forall (push_to_talk : bool) (now : Q),
       quiescent (client (world_init push_to_talk now))) /\
    (forall (w0 : world) (now : Q), quiescent (client (step w0 (Connected now)))).
Proof.
  assert (Hinit : forall (push_to_talk : bool) (now : Q),
            quiescent (client (world_init push_to_talk now))).
  { intros ptt now. unfold quiescent, muted. cbn.
    destruct ptt; repeat apply conj; try reflexivity; lia. }
  assert (Hconn : forall (w0 : world) (now : Q),
            quiescent (client (step w0 (Connected now)))).
  { intros w0 now. cbn [step client].
    unfold quiescent, run_reset_state, _clear_audio_queue, _clear_video_queue, muted.
    destruct (client w0); eval_fields. rewrite !clear_queue_spec.
    cbn [Queue.items]. destruct push_to_talk_mode0; repeat apply conj;
      try reflexivity; lia. }
  induction evs as [|e evs IH]; intros w Hq Hev.
  - cbn. auto.
  - inversion Hev as [|? ? He Hrest]; subst.
    destruct (quiescent_step w e He Hq) as [Hq' Hsent].
    cbn [exec fold_left].
    change (fold_left step evs (step w e)) with (exec (step w e) evs).
    destruct (IH (step w e) Hq' Hrest) as (H1 & H2 & _).
    rewrite H1, Hsent. auto.
Qed.

Lemma nothing_sent_while_idle_witness :
  session_sent
    (client (exec (world_init true (inject_Z 0))
               [RunStarted; Connected (inject_Z 1); MicRead [x01] (inject_Z 2);
                ScreenGrab [x02] (inject_Z 2); SendTick (fun _ => inject_Z 3)])) = [].
Proof.
  assert (Hq : quiescent (client (world_init true (inject_Z 0)))).
  { unfold quiescent. cbn. repeat apply conj; try reflexivity; lia. }
  destruct (nothing_sent_while_idle
              [RunStarted; Connected (inject_Z 1); MicRead [x01] (inject_Z 2);
               ScreenGrab [x02] (inject_Z 2); SendTick (fun _ => inject_Z 3)]
              (world_init true (inject_Z 0)) Hq
              ltac:(repeat constructor)) as (H & _).
  exact H.
Defined.

Lemma step_sent (w : world) (e : event) :
  session_sent (client (step w e))
  = session_sent (client w) ++ event_sent (client w) e.
Proof.
  destruct e as [|now|uuid4 now|now|mic now|img now|now|resp now|now];
    cbn [step client event_sent]; rewrite ?app_nil_r.
  - destruct (client w); reflexivity.
  - unfold run_reset_state, _clear_audio_queue, _clear_video_queue.
    destruct (client w); reflexivity.
  - unfold _on_hotkey_press_f9, _on_ptt_press, toggle_mute, _request_turn_end,
      _clear_audio_queue, _clear_video_queue.
    destruct (client w); eval_fields.
    destruct push_to_talk_mode0, _ptt_active0, _muted0; eval_fields;
      try reflexivity.
    all: destruct (turn_id_truthy _current_turn_id0 && _); eval_fields;
      try reflexivity.
    all: destruct loop_is_running0; reflexivity.
  - unfold _on_hotkey_release_f9, _on_ptt_release, _request_turn_end.
    destruct (client w); eval_fields.
    destruct push_to_talk_mode0, _ptt_active0; eval_fields; try reflexivity.
    all: destruct (turn_id_truthy _current_turn_id0); eval_fields;
      try reflexivity.
    all: destruct (0 <? _audio_chunks_sent_this_turn0); eval_fields;
      try reflexivity.
    all: destruct loop_is_running0; reflexivity.
  - destruct (listen_audio_footprint mic now (client w)) as (q & d & -> & _).
    destruct (client w); reflexivity.
  - destruct (capture_screen_footprint img now (frame_count w) (client w))
      as (q & d & f & Heq & _).
    destruct (capture_screen_iter img now (frame_count w) (client w)) as [n c].
    cbn [snd client] in *. rewrite Heq. destruct (client w); reflexivity.
  - rewrite send_to_api_tick_closed_form. reflexivity.
  - rewrite receive_closed_form. unfold receive_result.
    destruct (server_content resp) as [sc|]; destruct (client w); reflexivity.
  - reflexivity.
Qed.

(** End to end, the only audio the transport ever receives is zero-filled
    silence or chunks that were read from the microphone while the client
    was unmuted. *)
Theorem transport_audio_from_open_microphone
    (push_to_talk : bool) (t0 : Q) (evs : list event) :
  let w0 := world_init push_to_talk t0 in
  Forall (audio_from_open_microphone w0 evs)
    (session_sent (client (exec w0 evs))).
Proof.
  cbv zeta. induction evs as [|e evs IH] using rev_ind.
  - cbn. constructor.
  - rewrite exec_snoc, step_sent. apply Forall_app. split.
    + eapply Forall_impl; [|exact IH]. intros [payload|payload]; cbn; [|auto].
      intros [H | (t & Ht & Hd)]; [left; exact H|].
      right. exists t. split; [apply captured_unmuted_snoc; exact Ht | exact Hd].
    + destruct e; cbn [event_sent]; try constructor.
      repeat (apply Forall_app; split).
      * destruct (0 <? _); repeat constructor.
      * apply Forall_map. apply Forall_forall. intros t Ht.
        apply filter_In in Ht. destruct Ht as [Ht _]. apply numbered_In in Ht.
        cbn. right. exists (snd t).
        split; [|reflexivity]. apply captured_unmuted_snoc.
        pose proof (audio_queue_captured_unmuted (world_init push_to_talk t0) evs
                      (init_inv push_to_talk t0) eq_refl) as Hall.
        rewrite Forall_forall in Hall. exact (Hall (snd t) Ht).
      * apply Forall_map. apply Forall_forall. intros t _. exact I.
Qed.

(** Opening a turn discards the queued backlog without counting it: the
    audio and screen drop counters are unchanged, however many chunks and
    frames were thrown away; the number the clearing loop reports is the
    length of the queue. *)
Theorem hard_cut_not_counted (uuid4 : string) (c c' : GeminiLiveClient) :
  opens_turn uuid4 c c' ->
  _audio_drop_count c' = _audio_drop_count c /\
  _screen_drop_count c' = _screen_drop_count c /\
  snd (clear_loop (List.length (Queue.items (audio_queue_in c)))
         (audio_queue_in c) 0) = Queue.qsize (audio_queue_in c) /\
  Queue.qsize (audio_queue_in c') = 0.
Proof.
  intros Hopen. apply opens_turn_inv in Hopen. cbv zeta in Hopen.
  unfold _clear_video_queue, _clear_audio_queue in Hopen.
  rewrite clear_loop_counts by lia.
  destruct c; eval_fields_in Hopen; rewrite !clear_queue_spec in Hopen.
  destruct Hopen as [-> | ->]; eval_fields; repeat apply conj; reflexivity.
Qed.

Lemma hard_cut_not_counted_witness :
  let c := client (exec (world_init false (inject_Z 0)) example_full_queue_events) in
  _audio_drop_count (toggle_mute uuid_b (inject_Z 9) (set_muted true c))
  = _audio_drop_count (set_muted true c).
Proof.
  cbv zeta.
  exact (proj1 (hard_cut_not_counted uuid_b _ _
                  (open_by_toggle uuid_b
                     (set_muted true
                        (client (exec (world_init false (inject_Z 0))
                                   example_full_queue_events)))
                     (inject_Z 9) eq_refl))).
Defined.

Lemma control_surface_consistent_witness :
  Api.client (Api.serve Api.SessionState_init [Api.Start false (inject_Z 0)])
  <> None.
Proof.
  exact (proj1 (proj1 (control_surface_consistent [Api.Start false (inject_Z 0)]))
           eq_refl).
Defined.

Lemma cleanup_marks_exit_witness :
  ~ In Cleanup (fst (run_loop 0 [ConnectFailed; SessionFailed])) /\
  0 <= 0 /\
  run_loop 0 [ConnectFailed; BackoffCancelled; SessionFailed]
  = ([Connecting 1; Sleep 2; Connecting 2; Sleep 4; Propagate], None).
Proof.
  pose proof (cleanup_marks_exit [ConnectFailed; SessionFailed] 0) as H.
  cbv zeta in H.
  change (snd (run_loop 0 [ConnectFailed; SessionFailed])) with (Some 0) in H.
  destruct H as ((Hc & _ & _ & Hpos) & _).
  destruct (cleanup_marks_exit [] 1) as (_ & Hcancel).
  destruct (Hcancel ltac:(reflexivity) [SessionFailed]) as (_ & _ & Hb).
  split; [exact Hc|]. split; [exact (Hpos ltac:(lia))|].
  change (run_loop 0 [ConnectFailed; BackoffCancelled; SessionFailed])
    with (Connecting 1 :: Sleep 2
            :: fst (run_loop 1 [BackoffCancelled; SessionFailed]),
          snd (run_loop 1 [BackoffCancelled; SessionFailed])).
  rewrite (Hb ltac:(reflexivity)). reflexivity.
Defined.
